(** * Streaming Content Analyzer: filter and aggregation logic of [app.py]

    The dashboard script is embedded as pure functions over a model of the
    pandas objects it manipulates.  A [DataFrame] is a header plus labelled
    rows; a raised Python exception is a value of [result].  Each pandas or
    Python primitive the script calls is given once, in the modules [Py] and
    [Pd], with its documented behaviour; the functions of the script itself
    ([load_data], the sidebar, [apply_filters], the aggregation views) are
    then written line by line over these primitives.

    What the script gets from outside is a parameter: the outcome of
    [pd.read_csv("data.csv")], the state of the three sidebar widgets,
    Python's [int] on a string, what the platform's conversion of a binary64
    number to a 64-bit integer leaves when the number is out of range,
    which of the two implementations of [DataFrame.stack] the installed
    pandas runs (the script pins no version), and, for the export, the
    decimal notation of binary64 numbers and the platform's line
    terminator. *)

From Stdlib Require Import ZArith QArith String Ascii Lia.
From Stdlib Require Import DecimalString DecimalZ DecimalPos.
From stdpp Require Import base list strings sorting.

Open Scope string_scope.
Open Scope Z_scope.

(** ** Exceptions *)

Inductive exn :=
| KeyError (key : string)
| TypeError (msg : string)
| ValueError (msg : string)
| FileNotFoundError (path : string)
| UnicodeDecodeError (msg : string)
| ParserError (msg : string)
| OverflowError (msg : string).

Inductive result (A : Type) :=
| Ok (a : A)
| Raise (e : exn).
Arguments Ok {A} a.
Arguments Raise {A} e.

Global Instance result_ret : MRet result := @Ok.
Global Instance result_bind : MBind result := λ A B f m,
  match m with Ok a => f a | Raise e => Raise e end.
Global Instance result_fmap : FMap result := λ A B f m,
  match m with Ok a => Ok (f a) | Raise e => Raise e end.

(** ** Python strings *)

Module Py.

(** [s[:n]] and [s[n:]]. *)
Fixpoint take (n : nat) (s : string) : string :=
  match n, s with
  | S n', String c s' => String c (take n' s')
  | _, _ => ""
  end.

Fixpoint drop (n : nat) (s : string) : string :=
  match n, s with
  | S n', String _ s' => drop n' s'
  | _, _ => s
  end.

(** [sub in s] for two strings: substring test. *)
Fixpoint contains (sub s : string) : bool :=
  String.prefix sub s ||
  match s with
  | "" => false
  | String _ s' => contains sub s'
  end.

(** [s.find(sub)], with [None] for -1. *)
Fixpoint find (sub s : string) : option nat :=
  if String.prefix sub s then Some 0%nat
  else match s with
       | "" => None
       | String _ s' => S <$> find sub s'
       end.

(** [s.split(sep)] for a non-empty separator: cut at each occurrence of
    [sep], scanning from the left.  Every cut removes at least one
    character, so [String.length s] rounds are enough ([split_unfold]). *)
Fixpoint split_fuel (fuel : nat) (sep s : string) : list string :=
  match fuel, find sep s with
  | S fuel', Some i =>
      take i s :: split_fuel fuel' sep (drop (i + String.length sep) s)
  | _, _ => [s]
  end.

Definition split (sep s : string) : list string :=
  split_fuel (String.length s) sep s.

(** [sep.join(l)]. *)
Fixpoint join (sep : string) (l : list string) : string :=
  match l with
  | [] => ""
  | t :: l' =>
      match l' with
      | [] => t
      | _ => t ++ sep ++ join sep l'
      end
  end.

End Py.

(** ** Cells, series and data frames *)

(** A cell of a frame.  binary64 numbers are idealised as rationals and
    their arithmetic as exact: a computed mean stands for the binary64 number
    pandas computes, which may differ from it by rounding.  No statement
    below draws an inequality or an equality of numbers from a computed
    mean. *)
Inductive value :=
| VStr (s : string)
| VInt (n : Z)
| VFloat (q : Q)
| VNaN.

Definition Series := list value.

Record Row := mkRow { label : nat; cells : list value }.

Record DataFrame := mkDataFrame { columns : list string; rows : list Row }.

Module Pd.

(** [pd.DataFrame()]: no columns, no rows. *)
Definition empty_frame : DataFrame := mkDataFrame [] [].

(** [df.empty]: some axis has length 0. *)
Definition empty (df : DataFrame) : bool :=
  match columns df, rows df with
  | _ :: _, _ :: _ => false
  | _, _ => true
  end.

Definition column_index (name : string) (cols : list string) : option nat :=
  fst <$> list_find (eq name) cols.

Definition cell_at (j : nat) (r : Row) : value := default VNaN (cells r !! j).

(** [df[name]]: the column as a series, [KeyError] when there is none. *)
Definition getitem (df : DataFrame) (name : string) : result Series :=
  match column_index name (columns df) with
  | Some j => Ok (cell_at j <$> rows df)
  | None => Raise (KeyError name)
  end.

(** Selection by a boolean mask. *)
Fixpoint mask {A} (m : list bool) (l : list A) : list A :=
  match m, l with
  | b :: m', x :: l' => if b then x :: mask m' l' else mask m' l'
  | _, _ => []
  end.

(** [df[m]] for a boolean series [m] computed from [df]: the rows whose
    entry is [True], all columns kept.  The series that [isin], [between]
    and [==] return are boolean whatever their length. *)
Definition getitem_bool (df : DataFrame) (m : list bool) : result DataFrame :=
  if decide (length m = length (rows df))
  then Ok (mkDataFrame (columns df) (mask m (rows df)))
  else Raise (ValueError "Item wrong length").

(** Equality of cells as the hash tables of [isin] and [unique] see it:
    numbers by value, NaN equal to NaN. *)
Definition value_eqb (v w : value) : bool :=
  match v, w with
  | VStr s, VStr t => bool_decide (s = t)
  | VInt a, VInt b => bool_decide (a = b)
  | VFloat p, VFloat q => Qeq_bool p q
  | VInt a, VFloat q | VFloat q, VInt a => Qeq_bool (inject_Z a) q
  | VNaN, VNaN => true
  | _, _ => false
  end.

(** [s.isin(values)]. *)
Definition isin (s : Series) (values : list value) : list bool :=
  (λ v, existsb (value_eqb v) values) <$> s.

(** [(v >= left) & (v <= right)] on one cell; a comparison with NaN is
    false, one between [str] and [int] raises. *)
Definition between_cell (left right : Z) (v : value) : result bool :=
  match v with
  | VInt n => Ok (bool_decide (left ≤ n) && bool_decide (n ≤ right))
  | VFloat q => Ok (Qle_bool (inject_Z left) q && Qle_bool q (inject_Z right))
  | VNaN => Ok false
  | VStr _ =>
      Raise (TypeError "'>=' not supported between instances of 'str' and 'int'")
  end.

(** [s.between(left, right)], inclusive on both sides (the default). *)
Definition between (s : Series) (left right : Z) : result (list bool) :=
  mapM (between_cell left right) s.

(** [s.apply(f)]. *)
Definition apply {B} (f : value → result B) (s : Series) : result (list B) :=
  mapM f s.

(** [df[m]] for the series [m] that [s.apply(f)] returned over a column [s]
    of [df], [f] a test.  Over at least one row [m] holds the answers of
    [f]: it is a boolean series and selects rows as [getitem_bool] does.
    Over no row nothing is applied and [m] is a series of no entry with the
    dtype of [s], which is not boolean: [df[m]] reads it as a list of column
    labels, a list of no label, and returns the frame without any column. *)
Definition getitem_applied (df : DataFrame) (m : list bool) : result DataFrame :=
  match m with
  | [] => Ok (mkDataFrame [] ((λ r, mkRow (label r) []) <$> rows df))
  | _ => getitem_bool df m
  end.

(** [s == v], element by element. *)
Definition eq_scalar (s : Series) (v : value) : list bool :=
  (λ x, value_eqb x v) <$> s.

(** [s.unique()]: the distinct entries in order of first appearance. *)
Fixpoint unique_from {A} (eqb : A → A → bool) (seen l : list A) : list A :=
  match l with
  | [] => []
  | x :: l' =>
      if existsb (eqb x) seen then unique_from eqb seen l'
      else x :: unique_from eqb (x :: seen) l'
  end.

Definition unique {A} (eqb : A → A → bool) (l : list A) : list A :=
  unique_from eqb [] l.

(** [s.str.split(sep, expand=True)]: one row of tokens per entry, padded
    with [None] to the widest row; an entry that is not a string gives a
    row of missing values. *)
Definition str_split_expand (sep : string) (s : Series)
  : list (list (option string)) :=
  let toks : list (list string) :=
    (λ v, match v with VStr x => Py.split sep x | _ => [] end) <$> s in
  let width := max_list (length <$> toks) in
  (λ t : list string, ((Some <$> t) ++ replicate (width - length t) None)%list) <$> toks.

(** [frame.stack()] gives the cells row by row.  The implementation that
    pandas 2 runs drops the missing cells; the one that pandas 3 runs keeps
    them.  [stack_cells] is the series the script gets, [dropna] telling
    which implementation runs.  [stack] is what is left of it once the
    missing entries are skipped, as [value_counts] does: the entries that
    are there, under either implementation ([stack_cells_present]). *)
Definition stack_cell (dropna : bool) (c : option string) : option value :=
  match c with
  | Some x => Some (VStr x)
  | None => if dropna then None else Some VNaN
  end.

Definition stack_cells (dropna : bool) (table : list (list (option string)))
  : Series :=
  concat ((λ line : list (option string),
             omap (M:=list) (stack_cell dropna) line) <$> table).

Definition stack {A} (table : list (list (option A))) : list A :=
  concat ((λ line : list (option A), omap (M:=list) id line) <$> table).

(** [s.value_counts()]: each distinct entry with its number of
    occurrences, largest count first. *)
Definition count_of (g : string) (l : list string) : nat :=
  length (filter (λ t, t = g) l).

Definition by_count_desc (a b : string * nat) : Prop := (b.2 ≤ a.2)%nat.
Global Instance by_count_desc_dec a b : Decision (by_count_desc a b).
Proof. unfold by_count_desc. apply _. Defined.

Definition value_counts (l : list string) : list (string * nat) :=
  merge_sort by_count_desc
    ((λ g, (g, count_of g l)) <$> unique String.eqb l).

(** [frame.head(n)]. *)
Definition head {A} (n : nat) (l : list A) : list A := take n l.

(** The dtype of a column, read off its cells: integers that fit in 64 bits
    signed or unsigned make an [int64] or a [uint64] column, a column holding
    a string is an [object] column, any other column of numbers and missing
    values a [float64] column. *)
Inductive dtype := Int64 | UInt64 | Float64 | Object.

Definition in_int64 (n : Z) : bool := bool_decide (- 2 ^ 63 ≤ n < 2 ^ 63).

Definition is_int64 (v : value) : bool :=
  match v with VInt n => in_int64 n | _ => false end.

Definition is_uint64 (v : value) : bool :=
  match v with VInt n => bool_decide (0 ≤ n < 2 ^ 64) | _ => false end.

Definition holds_str (v : value) : bool :=
  match v with VStr _ => true | _ => false end.

Definition dtype_of (s : Series) : dtype :=
  if forallb is_int64 s then Int64
  else if forallb is_uint64 s then UInt64
  else if existsb holds_str s then Object
  else Float64.

(** Numeric reading of a cell: [None] for NaN (skipped by the reductions),
    an error for a string. *)
Definition numeric (v : value) : result (option Q) :=
  match v with
  | VInt n => Ok (Some (inject_Z n))
  | VFloat q => Ok (Some q)
  | VNaN => Ok None
  | VStr _ => Raise (TypeError "could not convert string to numeric")
  end.

(** [s.mean()]: NaN entries skipped, NaN for no entries. *)
Definition mean (s : Series) : result value :=
  xs ← omap id <$> mapM numeric s;
  match xs with
  | [] => Ok VNaN
  | _ => Ok (VFloat (Qred (foldr Qplus 0%Q xs / inject_Z (Z.of_nat (length xs)))))
  end.

(** [s.count()]: the entries that are not NaN. *)
Definition is_nan (v : value) : bool :=
  match v with VNaN => true | _ => false end.

Definition count (s : Series) : nat :=
  length (filter (λ v, is_nan v = false) s).

Definition num_le (v w : value) : bool :=
  match v, w with
  | VInt a, VInt b => bool_decide (a ≤ b)
  | VInt a, VFloat q => Qle_bool (inject_Z a) q
  | VFloat p, VInt b => Qle_bool p (inject_Z b)
  | VFloat p, VFloat q => Qle_bool p q
  | _, _ => false
  end.

(** [s.min()] and [s.max()] of a numeric series: NaN entries skipped, NaN
    for no entries. *)
Fixpoint extremum (better : value → value → bool) (s : Series) : result value :=
  match s with
  | [] => Ok VNaN
  | v :: s' =>
      m ← extremum better s';
      match v, m with
      | VStr _, _ | _, VStr _ =>
          Raise (TypeError "'<=' not supported between instances of 'str' and 'int'")
      | VNaN, _ => Ok m
      | _, VNaN => Ok v
      | _, _ => Ok (if better v m then v else m)
      end
  end.

Definition min (s : Series) : result value := extremum num_le s.
Definition max (s : Series) : result value := extremum (flip num_le) s.

(** [df[name] = s]: replaces the column when there is one, appends it
    otherwise.  Rows are brought to the width of the header first, the
    missing cells being NaN as in [cell_at]. *)
Definition setitem (df : DataFrame) (name : string) (s : Series)
  : result DataFrame :=
  if decide (length s = length (rows df)) then
    let width := length (columns df) in
    match column_index name (columns df) with
    | Some j =>
        Ok (mkDataFrame (columns df)
              (zip_with (λ r v, mkRow (label r) (<[j:=v]> (resize width VNaN (cells r))))
                        (rows df) s))
    | None =>
        Ok (mkDataFrame (columns df ++ [name])%list
              (zip_with (λ r v, mkRow (label r) (resize width VNaN (cells r) ++ [v])%list)
                        (rows df) s))
    end
  else Raise (ValueError "Length of values does not match length of index").

(** [df.groupby(key).agg(mean, count).reset_index()] for an int64 key
    column (which [Year] is after [load_data]): one line per distinct key,
    keys ascending, with the mean and the count of the value column over
    the rows of that key.  Keys of another type are outside the model, which
    raises on them. *)
Definition group_key (v : value) : result Z :=
  match v with
  | VInt y => Ok y
  | _ => Raise (TypeError "group key is not int64")
  end.

Definition groupby_agg (keys vals : Series) : result (list (Z * value * nat)) :=
  ks ← mapM group_key keys;
  mapM (λ k, let g := mask ((λ y, bool_decide (y = k)) <$> ks) vals in
             m ← mean g; Ok (k, m, count g))
       (merge_sort Z.le (unique Z.eqb ks)).

(** [df.sort_values(name, ascending=False)] for a numeric column: the rows
    by decreasing entry, the rows without an entry (NaN) last.  pandas does
    not fix the order among rows of equal entry, and no statement below
    depends on it.  A string entry is outside the model, which raises. *)
Definition entry_ge (a b : option Q) : bool :=
  match a, b with
  | _, None => true
  | None, Some _ => false
  | Some p, Some q => Qle_bool q p
  end.

Definition by_entry_desc (a b : option Q * Row) : Prop :=
  entry_ge a.1 b.1 = true.
Global Instance by_entry_desc_dec a b : Decision (by_entry_desc a b).
Proof. unfold by_entry_desc. apply _. Defined.

Definition sort_values_desc (df : DataFrame) (name : string) : result DataFrame :=
  s ← getitem df name;
  keys ← mapM numeric s;
  Ok (mkDataFrame (columns df)
        (snd <$> merge_sort by_entry_desc (zip keys (rows df)))).

End Pd.

(** ** The script *)

(** What a run of the script shows on the page, in order. *)
Inductive element :=
| StError (msg : string) (e : exn)
| StWarning (msg : string)
| StMetric (name : string) (v : value)
| TrendsChart (yearly_data : list (Z * value * nat))
| GenreBar (top : list (string * nat))
| GenreTreemap (all : list (string * nat)).

Section App.

(** Python's [int(s)] on a string, [None] when it raises [ValueError]. *)
Variable int_of_str : string → option Z.

(** What the conversion of a binary64 number to [int64] leaves when the
    number is out of range.  C leaves it undefined and numpy takes what the
    processor gives (on x86-64, the number [- 2 ^ 63] whatever the input);
    pandas silences the warning. *)
Variable cast_out_of_range : Q → Z.

(** Whether [DataFrame.stack] drops the missing cells (pandas 2) or keeps
    them (pandas 3). *)
Variable stack_dropna : bool.

(** [int(v)]. *)
Definition py_int (v : value) : result Z :=
  match v with
  | VInt n => Ok n
  | VFloat q => Ok (Z.quot (Qnum q) (Z.pos (Qden q)))
  | VNaN => Raise (ValueError "cannot convert float NaN to integer")
  | VStr s =>
      match int_of_str s with
      | Some n => Ok n
      | None => Raise (ValueError "invalid literal for int() with base 10")
      end
  end.

(** [s.astype(int)] on an [object] column: [int] is called on every entry
    and the result stored in 64 bits, which raises when it does not fit. *)
Definition astype_int_cell (v : value) : result value :=
  n ← py_int v;
  if bool_decide (- 2 ^ 63 ≤ n < 2 ^ 63) then Ok (VInt n)
  else Raise (OverflowError "Python int too large to convert to C long").

(** The 64 bits of an unsigned integer read as a signed one. *)
Definition wrap_int64 (n : Z) : Z := (n + 2 ^ 63) mod 2 ^ 64 - 2 ^ 63.

Definition uint64_to_int64 (v : value) : value :=
  match v with VInt n => VInt (wrap_int64 n) | _ => v end.

(** A number of a [float64] column converted to [int64]: truncated towards
    zero when the result fits, else what the platform leaves. *)
Definition trunc (q : Q) : Z := Z.quot (Qnum q) (Z.pos (Qden q)).

Definition float64_to_int64 (v : value) : value :=
  match v with
  | VInt n =>
      VInt (if Pd.in_int64 n then n
            else wrap_int64 (cast_out_of_range (inject_Z n)))
  | VFloat q =>
      VInt (if Pd.in_int64 (trunc q) then trunc q
            else wrap_int64 (cast_out_of_range q))
  | _ => v
  end.

(** [s.astype(int)], by the dtype of [s].  An [int64] column is returned as
    it is.  A [uint64] column is reinterpreted, without any check.  A
    [float64] column raises when it holds a missing value and is converted
    number by number otherwise, without any check of the range.  An
    [object] column is converted entry by entry with [int], and raises on
    the first entry that [int] rejects or that does not fit. *)
Definition astype_int (s : Series) : result Series :=
  match Pd.dtype_of s with
  | Pd.Int64 => Ok s
  | Pd.UInt64 => Ok (uint64_to_int64 <$> s)
  | Pd.Float64 =>
      if existsb Pd.is_nan s
      then Raise (ValueError "Cannot convert non-finite values (NA or inf) to integer")
      else Ok (float64_to_int64 <$> s)
  | Pd.Object => mapM astype_int_cell s
  end.

(** [load_data], the body of the [try] and the function.  [read_csv] is
    the outcome of [pd.read_csv("data.csv")]. *)
Definition load_data_try (read_csv : result DataFrame) : result DataFrame :=
  df ← read_csv;
  year ← Pd.getitem df "Year";
  year ← astype_int year;
  Pd.setitem df "Year" year.

Definition load_data (read_csv : result DataFrame) : DataFrame * list element :=
  match load_data_try read_csv with
  | Ok df => (df, [])
  | Raise e => (Pd.empty_frame, [StError "Error loading data: " e])
  end.

(** The sidebar: the options offered by the three widgets. *)
Record sidebar_options := mkOptions {
  type_options : list value;
  genre_options : list value;
  year_min : Z;
  year_max : Z
}.

Definition sidebar (df : DataFrame) : result sidebar_options :=
  ty ← Pd.getitem df "Type";
  let type_options := Pd.unique Pd.value_eqb ty in
  g ← Pd.getitem df "Genre(s)";
  let genre_options :=
    Pd.unique Pd.value_eqb
      (Pd.stack_cells stack_dropna (Pd.str_split_expand ", " g)) in
  year ← Pd.getitem df "Year";
  lo ← Pd.min year;
  lo ← py_int lo;
  hi ← Pd.max year;
  hi ← py_int hi;
  Ok (mkOptions type_options genre_options lo hi).

End App.

Section Filters.

(** The state of the three widgets. *)
Variable type_filter : list value.
Variable genre_filter : list string.
Variable year_range : Z * Z.

(** [genre in x]. *)
Definition py_in (genre : string) (x : value) : result bool :=
  match x with
  | VStr s => Ok (Py.contains genre s)
  | VInt _ => Raise (TypeError "argument of type 'int' is not iterable")
  | _ => Raise (TypeError "argument of type 'float' is not iterable")
  end.

(** [any(genre in x for genre in genres)]. *)
Fixpoint any_genre_in (genres : list string) (x : value) : result bool :=
  match genres with
  | [] => Ok false
  | genre :: genres' =>
      match py_in genre x with
      | Ok true => Ok true
      | Ok false => any_genre_in genres' x
      | Raise e => Raise e
      end
  end.

Definition apply_filters (df : DataFrame) : result DataFrame :=
  ty ← Pd.getitem df "Type";
  filtered ← Pd.getitem_bool df (Pd.isin ty type_filter);
  year ← Pd.getitem filtered "Year";
  in_range ← Pd.between year year_range.1 year_range.2;
  filtered ← Pd.getitem_bool filtered in_range;
  match genre_filter with
  | _ :: _ =>
      g ← Pd.getitem filtered "Genre(s)";
      genre_mask ← Pd.apply (any_genre_in genre_filter) g;
      Pd.getitem_applied filtered genre_mask
  | [] => Ok filtered
  end.

End Filters.

(** Key Metrics. *)
Definition key_metrics (filtered_df : DataFrame) : result (list element) :=
  if negb (Pd.empty filtered_df) then
    rating ← Pd.getitem filtered_df "Rating (Out of 5)";
    avg ← Pd.mean rating;
    ty ← Pd.getitem filtered_df "Type";
    movies ← Pd.getitem_bool filtered_df (Pd.eq_scalar ty (VStr "Movie"));
    ty ← Pd.getitem filtered_df "Type";
    shows ← Pd.getitem_bool filtered_df (Pd.eq_scalar ty (VStr "TV Show"));
    Ok [ StMetric "Total Content" (VInt (Z.of_nat (length (rows filtered_df))));
         StMetric "Average Rating" avg;
         StMetric "Movies" (VInt (Z.of_nat (length (rows movies))));
         StMetric "TV Shows" (VInt (Z.of_nat (length (rows shows)))) ]
  else Ok [ StWarning "No data available with current filters" ].

(** Temporal Trends. *)
Definition yearly_data (filtered_df : DataFrame)
  : result (list (Z * value * nat)) :=
  year ← Pd.getitem filtered_df "Year";
  rating ← Pd.getitem filtered_df "Rating (Out of 5)";
  Pd.groupby_agg year rating.

Definition temporal_trends (filtered_df : DataFrame) : result (list element) :=
  yearly ← yearly_data filtered_df;
  Ok [ TrendsChart yearly ].

(** Genre Breakdown.  [value_counts] skips the missing entries, so the
    rollup is the same whether [stack] kept them or not. *)
Definition genre_counts (filtered_df : DataFrame)
  : result (list (string * nat)) :=
  g ← Pd.getitem filtered_df "Genre(s)";
  let genre_df := Pd.stack (Pd.str_split_expand ", " g) in
  Ok (Pd.value_counts genre_df).

Definition genre_breakdown (filtered_df : DataFrame) : result (list element) :=
  if negb (Pd.empty filtered_df) then
    counts ← genre_counts filtered_df;
    Ok [ GenreBar (Pd.head 10 counts); GenreTreemap counts ]
  else Ok [].

(** The three aggregation views of one run, in page order.  The two charts
    of the first tab, the data explorer and the download button take
    [filtered_df] as it is and are left out. *)
Definition views (filtered_df : DataFrame) : result (list element) :=
  metrics ← key_metrics filtered_df;
  trends ← temporal_trends filtered_df;
  genres ← genre_breakdown filtered_df;
  Ok (metrics ++ trends ++ genres)%list.

(** Data Explorer: the table shown, the subset sorted by rating. *)
Definition data_explorer (filtered_df : DataFrame) : result DataFrame :=
  Pd.sort_values_desc filtered_df "Rating (Out of 5)".

(** ** The export: [to_csv] and [read_csv]

    Modelled from the spec: the export of the filtered subset to CSV and the
    re-parsing of the exported bytes.  [convert_df] calls
    [DataFrame.to_csv], and the re-parsing is [pandas.read_csv]; the code of
    the two is not part of the repository, and they are given here after
    the documentation of pandas and of Python's [csv] module, which
    [to_csv] writes with.  A text is the sequence of its UTF-8 bytes, so
    that encoding and decoding are the identity.

    Not modelled, and excluded by the statements: what [read_csv] does with
    column names that are empty or repeated (it renames them), with lines
    of another length than the header line and with a column of booleans
    (there is no boolean cell here), on which the model raises; and the
    unsigned dtype it gives to integers above 64 signed bits, which the
    model reads as numbers. *)
Module Csv.

Definition comma : ascii := ascii_of_nat 44.
Definition dquote : ascii := ascii_of_nat 34.
Definition cr : ascii := ascii_of_nat 13.
Definition lf : ascii := ascii_of_nat 10.

Definition is_eol (c : ascii) : bool := Ascii.eqb c cr || Ascii.eqb c lf.

Fixpoint all_chars (p : ascii → bool) (s : string) : bool :=
  match s with
  | "" => true
  | String c s' => p c && all_chars p s'
  end.

(** *** Integers as text

    [str(n)], and the reader's conversion of a field to an integer: blanks
    around it are skipped, then come an optional sign and decimal digits. *)
Definition show_int (n : Z) : string := NilZero.string_of_int (Z.to_int n).

Definition is_space (c : ascii) : bool :=
  let n := nat_of_ascii c in
  (n =? 32)%nat || ((9 <=? n)%nat && (n <=? 13)%nat).

Fixpoint lstrip (s : string) : string :=
  match s with
  | String c s' => if is_space c then lstrip s' else s
  | "" => ""
  end.

Fixpoint rstrip (s : string) : string :=
  match s with
  | String c s' =>
      match rstrip s' with
      | "" => if is_space c then "" else String c ""
      | r => String c r
      end
  | "" => ""
  end.

Definition is_digit (c : ascii) : bool :=
  let n := nat_of_ascii c in (48 <=? n)%nat && (n <=? 57)%nat.

Definition csv_int (field : string) : option Z :=
  let t := rstrip (lstrip field) in
  let digits := match t with
                | String c t' =>
                    if Ascii.eqb c (ascii_of_nat 43) || Ascii.eqb c (ascii_of_nat 45)
                    then t' else t
                | "" => ""
                end in
  match digits with
  | "" => None
  | _ =>
      if all_chars is_digit digits
      then Z.of_int <$> NilZero.int_of_string
                          (match t with
                           | String c t' =>
                               if Ascii.eqb c (ascii_of_nat 43) then t' else t
                           | "" => ""
                           end)
      else None
  end.

(** The strings that [read_csv] takes for a missing value (the default
    [na_values]), and for a boolean. *)
Definition na_values : list string :=
  [ ""; "#N/A"; "#N/A N/A"; "#NA"; "-1.#IND"; "-1.#QNAN"; "-NaN"; "-nan";
    "1.#IND"; "1.#QNAN"; "<NA>"; "N/A"; "NA"; "NULL"; "NaN"; "None"; "n/a";
    "nan"; "null" ].

Definition is_na (field : string) : bool :=
  existsb (String.eqb field) na_values.

Definition is_bool (field : string) : bool :=
  existsb (String.eqb field) ["True"; "TRUE"; "true"; "False"; "FALSE"; "false"].

Section Conversions.

(** [repr] of a binary64 number, which [to_csv] writes, and the reader's
    conversion of a field to a binary64 number, [None] when the field is no
    number.  Floating point and its decimal notation are outside this
    development: the two are parameters. *)
Variable show_float : Q → string.
Variable csv_float : string → option Q.

(** Whether lines end with CR LF ([os.linesep] on Windows) or with LF. *)
Variable crlf : bool.

(** *** Writing *)

(** The text of a cell; a missing value is written as nothing
    ([na_rep='']). *)
Definition field_of (v : value) : string :=
  match v with
  | VStr s => s
  | VInt n => show_int n
  | VFloat q => show_float q
  | VNaN => ""
  end.

Definition eol : string :=
  if crlf then String cr (String lf "") else String lf "".

(** [QUOTE_MINIMAL]: a field is quoted when it holds the delimiter, the
    quote character or a character of the line terminator; the quotes in it
    are doubled. *)
Definition is_special (c : ascii) : bool :=
  Ascii.eqb c comma || Ascii.eqb c dquote || Ascii.eqb c lf
  || (crlf && Ascii.eqb c cr).

Definition needs_quotes (field : string) : bool :=
  negb (all_chars (λ c, negb (is_special c)) field).

Fixpoint escape (s : string) : string :=
  match s with
  | "" => ""
  | String c s' =>
      if Ascii.eqb c dquote then String dquote (String dquote (escape s'))
      else String c (escape s')
  end.

Definition write_field (field : string) : string :=
  if needs_quotes field
  then String dquote (escape field ++ String dquote "")
  else field.

Fixpoint write_fields (fields : list string) : string :=
  match fields with
  | [] => ""
  | [f] => write_field f
  | f :: fields' => write_field f ++ String comma (write_fields fields')
  end.

(** A line.  A record of one empty field is written as two quotes, so that
    the line is not blank. *)
Definition write_row (fields : list string) : string :=
  match fields with
  | [""] => String dquote (String dquote eol)
  | _ => write_fields fields ++ eol
  end.

(** The cells of a row as the frame has them, one per column. *)
Definition row_cells (width : nat) (r : Row) : list value :=
  (λ j, Pd.cell_at j r) <$> seq 0 width.

(** [df.to_csv(index=False).encode('utf-8')]: the header line, then one
    line per row. *)
Definition to_csv (df : DataFrame) : string :=
  foldr append ""
    (write_row <$>
       (columns df
          :: ((λ r, field_of <$> row_cells (length (columns df)) r) <$> rows df))).

(** *** Reading *)

(** The tokenizer: fields are separated by commas and lines by CR, LF or
    CR LF; a field that starts with a quote runs to the closing quote, a
    doubled quote in it standing for one quote; blank lines are skipped
    ([skip_blank_lines=True]). *)
Inductive state := StartField | InField | InQuotes | QuoteInQuotes.

Fixpoint tokenize (st : state) (field : string) (row : list string)
    (s : string) : list (list string) :=
  match s with
  | "" =>
      match st, row with
      | StartField, [] => []
      | _, _ => [(row ++ [field])%list]
      end
  | String c s' =>
      match st with
      | StartField =>
          if Ascii.eqb c comma then tokenize StartField "" (row ++ [""])%list s'
          else if is_eol c then
            match row with
            | [] => tokenize StartField "" [] s'
            | _ => (row ++ [""])%list :: tokenize StartField "" [] s'
            end
          else if Ascii.eqb c dquote then tokenize InQuotes "" row s'
          else tokenize InField (String c "") row s'
      | InField =>
          if Ascii.eqb c comma then tokenize StartField "" (row ++ [field])%list s'
          else if is_eol c then (row ++ [field])%list :: tokenize StartField "" [] s'
          else tokenize InField (field ++ String c "") row s'
      | InQuotes =>
          if Ascii.eqb c dquote then tokenize QuoteInQuotes field row s'
          else tokenize InQuotes (field ++ String c "") row s'
      | QuoteInQuotes =>
          if Ascii.eqb c dquote then tokenize InQuotes (field ++ String dquote "") row s'
          else if Ascii.eqb c comma then
            tokenize StartField "" (row ++ [field])%list s'
          else if is_eol c then
            (row ++ [field])%list :: tokenize StartField "" [] s'
          else tokenize InField (field ++ String c "") row s'
      end
  end.

(** The dtype inferred for a column from its fields, tried in this order:
    integers, when every field is one; numbers, when every field is a
    number or a missing value; booleans; else texts. *)
Inductive kind := KInt | KFloat | KBool | KText.

Definition is_int64_field (field : string) : bool :=
  match csv_int field with
  | Some n => Pd.in_int64 n
  | None => false
  end.

Definition is_number (field : string) : bool :=
  bool_decide (is_Some (csv_int field))
  || bool_decide (is_Some (csv_float field)).

Definition infer (fields : list string) : kind :=
  match fields with
  | [] => KText
  | _ =>
      if forallb is_int64_field fields then KInt
      else if forallb (λ f, is_na f || is_number f) fields then KFloat
      else if forallb (λ f, is_na f || is_bool f) fields then KBool
      else KText
  end.

(** The cell read from a field of a column of the given dtype. *)
Definition cell_of_field (k : kind) (field : string) : value :=
  match k with
  | KInt => match csv_int field with Some n => VInt n | None => VNaN end
  | KFloat =>
      if is_na field then VNaN
      else match csv_int field, csv_float field with
           | Some n, _ => VFloat (inject_Z n)
           | None, Some q => VFloat q
           | None, None => VNaN
           end
  | _ => if is_na field then VNaN else VStr field
  end.

(** [pd.read_csv(text)]: the first line is the header; every column of the
    other lines is given a dtype and converted; the rows are numbered from
    0. *)
Definition read_csv (text : string) : result DataFrame :=
  match tokenize StartField "" [] text with
  | [] => Raise (ValueError "No columns to parse from file")
  | header :: data =>
      if negb (bool_decide (NoDup header)) || bool_decide ("" ∈ header)
      then Raise (ValueError "column names outside the model")
      else if negb (forallb (λ line, (length line =? length header)%nat) data)
      then Raise (ParserError "Error tokenizing data")
      else
        let kinds :=
          (λ j, infer ((λ line, nth j line "") <$> data))
            <$> seq 0 (length header) in
        if existsb (λ k, match k with KBool => true | _ => false end) kinds
        then Raise (TypeError "boolean column outside the model")
        else Ok (mkDataFrame header
                   (imap (λ i line, mkRow i (zip_with cell_of_field kinds line))
                         data))
  end.

(** The table that the round trip is expected to give: the same columns and
    the same cells, the rows numbered from 0. *)
Definition reindexed (df : DataFrame) : DataFrame :=
  mkDataFrame (columns df)
    (imap (λ i r, mkRow i (row_cells (length (columns df)) r)) (rows df)).

End Conversions.

End Csv.

(** The download button.  [convert_df] is
    [df.to_csv(index=False).encode('utf-8')]; the button, and with it the
    export, is there only when the subset has a row. *)
Section Download.

Variable show_float : Q → string.
Variable crlf : bool.

Definition convert_df (df : DataFrame) : string :=
  Csv.to_csv show_float crlf df.

Definition download_button (filtered_df : DataFrame) : option string :=
  if negb (Pd.empty filtered_df) then Some (convert_df filtered_df) else None.

End Download.

(** ** Vocabulary of the statements *)

(** The cell of row [r] under the column [name] of [df] (NaN when there is
    no such column). *)
Definition cell (df : DataFrame) (name : string) (r : Row) : value :=
  match Pd.column_index name (columns df) with
  | Some j => Pd.cell_at j r
  | None => VNaN
  end.

(** A test that returned [True], and a computation that raised. *)
Definition holds (c : result bool) : bool :=
  match c with Ok true => true | _ => false end.

Definition raises {A} (c : result A) : bool :=
  match c with Raise _ => true | Ok _ => false end.

Section RowPredicates.

Variable type_filter : list value.
Variable genre_filter : list string.
Variable year_range : Z * Z.
Variable df : DataFrame.

(** The three tests of [apply_filters] read on one row. *)
Definition type_ok (r : Row) : bool :=
  existsb (Pd.value_eqb (cell df "Type" r)) type_filter.

Definition year_ok (r : Row) : bool :=
  holds (Pd.between_cell year_range.1 year_range.2 (cell df "Year" r)).

Definition genre_ok (r : Row) : bool :=
  match genre_filter with
  | [] => true
  | _ => holds (any_genre_in genre_filter (cell df "Genre(s)" r))
  end.

Definition keep (r : Row) : bool := type_ok r && year_ok r && genre_ok r.

(** Whether the subset keeps the header of the table.  It does unless some
    genre is selected and no row passes the Type and Year tests: the genre
    test is then applied to no row. *)
Definition keeps_header : bool :=
  match genre_filter with
  | [] => true
  | _ => existsb (λ r, type_ok r && year_ok r) (rows df)
  end.

End RowPredicates.

(** The conditions under which no line of [apply_filters] raises: the
    columns it reads are there, and the rows that reach the year test and
    the genre test hold cells these tests accept. *)
Definition runs (tf : list value) (gf : list string) (yr : Z * Z)
    (df : DataFrame) : Prop :=
  is_Some (Pd.column_index "Type" (columns df)) ∧
  is_Some (Pd.column_index "Year" (columns df)) ∧
  (gf ≠ [] → is_Some (Pd.column_index "Genre(s)" (columns df))) ∧
  Forall (λ r, type_ok tf df r = true →
               raises (Pd.between_cell yr.1 yr.2 (cell df "Year" r)) = false)
         (rows df) ∧
  Forall (λ r, type_ok tf df r = true → year_ok yr df r = true → gf ≠ [] →
               raises (any_genre_in gf (cell df "Genre(s)" r)) = false)
         (rows df).

Definition is_int (v : value) : bool :=
  match v with VInt _ => true | _ => false end.

Definition is_str (v : value) : bool :=
  match v with VStr _ => true | _ => false end.

(** A Content Table of the data model: the four columns are there, every
    Year is an integer, every Genre(s) a string, no Rating a string. *)
Definition content_table (df : DataFrame) : bool :=
  match Pd.getitem df "Type", Pd.getitem df "Year",
        Pd.getitem df "Genre(s)", Pd.getitem df "Rating (Out of 5)" with
  | Ok _, Ok year, Ok g, Ok rating =>
      forallb is_int year && forallb is_str g
      && forallb (λ v, negb (is_str v)) rating
  | _, _, _, _ => false
  end.

(** How the Year [w] of a loaded table stands to the Year [v] that was read:
    [w] is an integer that fits in 64 bits; it is [v] when [v] is such an
    integer, [int(v)] when [v] is a text, and [v] truncated towards zero
    when [v] is a number that truncates to such an integer.  A missing Year
    is never loaded. *)
Definition loaded_year (int_of_str : string → option Z) (v w : value) : Prop :=
  ∃ n, w = VInt n ∧ - 2 ^ 63 ≤ n < 2 ^ 63 ∧
    match v with
    | VInt m => - 2 ^ 63 ≤ m < 2 ^ 63 → n = m
    | VStr s => int_of_str s = Some n
    | VFloat q => - 2 ^ 63 ≤ trunc q < 2 ^ 63 → n = trunc q
    | VNaN => False
    end.

(** A number that fits in 64 bits once truncated. *)
Definition fits_int64 (v : value) : Prop :=
  match v with
  | VInt m => - 2 ^ 63 ≤ m < 2 ^ 63
  | VFloat q => - 2 ^ 63 ≤ trunc q < 2 ^ 63
  | _ => True
  end.

(** A cell of a split table as a cell of a series: a text, or a missing
    value. *)
Definition cell_of (c : option string) : value :=
  match c with Some x => VStr x | None => VNaN end.

(** The text of a cell, if it is one. *)
Definition text_of (v : value) : option string :=
  match v with VStr x => Some x | _ => None end.

(** The genre tokens of a row, its Genre(s) string split on [", "], and of
    a frame, row after row. *)
Definition tokens_of (v : value) : list string :=
  match v with VStr x => Py.split ", " x | _ => [] end.

Definition genre_tokens (df : DataFrame) : list string :=
  concat ((λ r, tokens_of (cell df "Genre(s)" r)) <$> rows df).

(** The Year of a row (0 when the cell is no integer), whether a row has a
    rating, and the rating as a number. *)
Definition year_of (df : DataFrame) (r : Row) : Z :=
  match cell df "Year" r with VInt y => y | _ => 0 end.

Definition rated (df : DataFrame) (r : Row) : bool :=
  negb (Pd.is_nan (cell df "Rating (Out of 5)" r)).

Definition rating_of (v : value) : option Q :=
  match v with
  | VInt n => Some (inject_Z n)
  | VFloat q => Some q
  | _ => None
  end.

(** [v == "Movie"] and [v == "TV Show"] on a Type cell. *)
Definition is_movie (df : DataFrame) (r : Row) : bool :=
  Pd.value_eqb (cell df "Type" r) (VStr "Movie").

Definition is_tv_show (df : DataFrame) (r : Row) : bool :=
  Pd.value_eqb (cell df "Type" r) (VStr "TV Show").

(** *** Subsets that the export gives back

    The columns that [read_csv] gives the dtype they had, with their cells,
    when it reads what [to_csv] wrote. *)
Section Exportable.

Variable show_float : Q → string.
Variable csv_float : string → option Q.

Definition no_line_break (s : string) : bool :=
  Csv.all_chars (λ c, negb (Csv.is_eol c)) s.

Definition same_number (a : option Q) (q : Q) : bool :=
  match a with
  | Some p => (Qnum p =? Qnum q) && (Qden p =? Qden q)%positive
  | None => false
  end.

(** A number whose text the reader converts back to it, or a missing
    value. *)
Definition float_cell (v : value) : bool :=
  match v with
  | VNaN => true
  | VFloat q =>
      let f := show_float q in
      no_line_break f && negb (Csv.is_na f)
      && negb (bool_decide (is_Some (Csv.csv_int f)))
      && same_number (csv_float f) q
  | _ => false
  end.

(** A text without line break that the reader does not take for a missing
    value, or a missing value. *)
Definition text_cell (v : value) : bool :=
  match v with
  | VNaN => true
  | VStr s => no_line_break s && negb (Csv.is_na s)
  | _ => false
  end.

(** A text that the reader takes neither for a number nor for a boolean. *)
Definition plain_text (v : value) : bool :=
  match v with
  | VStr s => negb (Csv.is_number csv_float s) && negb (Csv.is_bool s)
  | _ => false
  end.

(** A column of 64-bit integers, a column of numbers and missing values, or
    a column of texts and missing values that holds a plain text. *)
Definition survives (c : Series) : bool :=
  forallb Pd.is_int64 c
  || forallb float_cell c
  || (forallb text_cell c && existsb plain_text c).

Definition exportable (df : DataFrame) : bool :=
  negb (Pd.empty df)
  && bool_decide (NoDup (columns df))
  && forallb (λ name, negb (String.eqb name "") && no_line_break name)
       (columns df)
  && forallb (λ j, survives ((λ r, Pd.cell_at j r) <$> rows df))
       (seq 0 (length (columns df))).

End Exportable.

(** ** Sample inputs *)

(** [int] on plain decimal literals, an instance of the parameter
    [int_of_str] for the examples: digits with an optional minus sign. *)
Definition digit (c : ascii) : option Z :=
  let n := nat_of_ascii c in
  if (48 <=? n)%nat && (n <=? 57)%nat then Some (Z.of_nat (n - 48)) else None.

Fixpoint digits (acc : Z) (s : string) : option Z :=
  match s with
  | "" => Some acc
  | String c s' =>
      match digit c with
      | Some d => digits (10 * acc + d) s'
      | None => None
      end
  end.

Definition int_of_decimal (s : string) : option Z :=
  match s with
  | "" | "-" => None
  | String "-" s' => Z.opp <$> digits 0 s'
  | _ => digits 0 s
  end.

Definition header : list string :=
  ["Title"; "Type"; "Year"; "Genre(s)"; "Rating (Out of 5)"].

Definition record (i : nat) (title type : string) (year : Z)
    (genres : string) (rating : Q) : Row :=
  mkRow i [VStr title; VStr type; VInt year; VStr genres; VFloat rating].

Definition sample_table : DataFrame :=
  mkDataFrame header
    [ record 0 "Alpha" "Movie" 2019 "Comedy, Drama" 4.5;
      record 1 "Bravo" "TV Show" 2020 "Drama, Action" 3;
      record 2 "Charlie" "Movie" 2021 "Romantic Comedy" 4 ].

(** The conversion of an out-of-range number on x86-64, an instance of the
    parameter [cast_out_of_range] for the examples. *)
Definition cast_x86_64 (q : Q) : Z := - 2 ^ 63.

(** A table as [pd.read_csv] returns it when the Year column holds text. *)
Definition text_years (second : string) : DataFrame :=
  mkDataFrame ["Type"; "Year"]
    [ mkRow 0 [VStr "Movie"; VStr "2019"];
      mkRow 1 [VStr "Movie"; VStr second] ].

(** Three records with ratings 4, 5 and 3. *)
Definition three_ratings : DataFrame :=
  mkDataFrame header
    [ record 0 "Alpha" "Movie" 2019 "Comedy" 4;
      record 1 "Bravo" "TV Show" 2020 "Drama" 5;
      record 2 "Charlie" "Movie" 2021 "Action" 3 ].

(** The subset of the genre rollup example: two records, Genre(s)
    ["Comedy, Drama"] and ["Comedy"]. *)
Definition two_records : DataFrame :=
  mkDataFrame header
    [ record 0 "Alpha" "Movie" 2019 "Comedy, Drama" 4.5;
      record 1 "Delta" "Movie" 2020 "Comedy" 4 ].

(** A table with a record whose Genre(s) is missing (read as NaN). *)
Definition missing_genre_table : DataFrame :=
  mkDataFrame header
    [ record 0 "Alpha" "Movie" 2019 "Comedy, Drama" 4.5;
      mkRow 1 [VStr "Echo"; VStr "Movie"; VInt 2020; VNaN; VFloat 3] ].


(** The notation of numbers with one decimal digit, an instance of the
    parameters [show_float] and [csv_float] for the examples: [4.5] is
    written ["4.5"] and [3.0] is written ["3.0"], as [repr] does. *)
Definition show_tenths (q : Q) : string :=
  let m := Z.quot (Qnum q * 10) (Z.pos (Qden q)) in
  ((if (m <? 0)%Z then "-" else "") ++ Csv.show_int (Z.abs m / 10)%Z ++ "."
   ++ Csv.show_int (Z.abs m mod 10)%Z)%string.

Definition csv_tenths (field : string) : option Q :=
  match Py.split "." field with
  | [a; b] =>
      match Csv.csv_int a, Csv.csv_int b with
      | Some x, Some y =>
          if (String.length b =? 1)%nat && (0 <=? y)
          then Some (Qmake ((if String.prefix "-" a then -1 else 1)
                            * (10 * Z.abs x + y)) 10)
          else None
      | _, _ => None
      end
  | _ => None
  end.

(** A table with a title that is a number, and the subset of its movies. *)
Definition war_table : DataFrame :=
  mkDataFrame header
    [ record 0 "Alpha" "TV Show" 2020 "Drama" 3.5;
      record 1 "1917" "Movie" 2019 "Drama, War" 4.5 ].

Definition the_1917 : DataFrame :=
  mkDataFrame header [ record 1 "1917" "Movie" 2019 "Drama, War" 4.5 ].

(** A subset with a genre list, a quoted word and a missing rating. *)
Definition two_exports : DataFrame :=
  mkDataFrame header
    [ record 3 "Alpha" "Movie" 2019 "Comedy, Drama" 4.5;
      mkRow 8 [VStr "Bravo, the 2nd"; VStr "TV Show"; VInt 2020; VStr "Drama";
               VNaN] ].

(** * Properties *)

(** ** Strings *)

Module PyFacts.
Import Py.

Lemma prefix_length p s :
  String.prefix p s = true → (String.length p ≤ String.length s)%nat.
Proof.
  revert s. induction p as [|a p IH]; intros [|b s]; simpl; try lia; try done.
  destruct (ascii_dec a b); [|done]. intros H. apply IH in H. lia.
Qed.

Lemma prefix_refl s : String.prefix s s = true.
Proof.
  induction s as [|a s IH]; simpl; [done|].
  by destruct (ascii_dec a a).
Qed.

Lemma prefix_take n s : String.prefix (take n s) s = true.
Proof.
  revert s. induction n as [|n IH]; intros [|a s]; simpl; try done.
  by destruct (ascii_dec a a).
Qed.

Lemma length_drop n s : String.length (drop n s) = (String.length s - n)%nat.
Proof.
  revert s. induction n as [|n IH]; intros [|a s]; simpl; try lia. apply IH.
Qed.

Lemma contains_prefix p s : String.prefix p s = true → contains p s = true.
Proof. destruct s; simpl; intros ->; done. Qed.

Lemma contains_refl s : contains s s = true.
Proof. apply contains_prefix, prefix_refl. Qed.

Lemma contains_cons t a s : contains t s = true → contains t (String a s) = true.
Proof. simpl. intros ->. apply orb_true_r. Qed.

Lemma contains_drop t n s : contains t (drop n s) = true → contains t s = true.
Proof.
  revert s. induction n as [|n IH]; intros [|a s]; simpl drop; try done.
  intros H. apply contains_cons. by apply IH.
Qed.

Lemma find_None_empty sep : sep ≠ "" → find sep "" = None.
Proof. by destruct sep. Qed.

Lemma find_Some_bound sep s i :
  find sep s = Some i → (i + String.length sep ≤ String.length s)%nat.
Proof.
  revert i. induction s as [|a s IH]; intros i; cbn [find].
  - destruct (String.prefix sep "") eqn:Hp; [|done].
    intros [= <-]. apply prefix_length in Hp. simpl in *. lia.
  - destruct (String.prefix sep (String a s)) eqn:Hp.
    + intros [= <-]. apply prefix_length in Hp. simpl in *. lia.
    + destruct (find sep s) as [j|]; simpl; [|done].
      intros [= <-]. specialize (IH j eq_refl). lia.
Qed.

Lemma length_pos s : s ≠ "" → (0 < String.length s)%nat.
Proof. destruct s; simpl; [done|lia]. Qed.

(** Any amount of fuel from the length of the string on gives the same
    cuts. *)
Lemma split_fuel_enough sep : sep ≠ "" →
  ∀ n m s, (String.length s ≤ n)%nat → (String.length s ≤ m)%nat →
    split_fuel n sep s = split_fuel m sep s.
Proof.
  intros Hsep. induction n as [|n IH]; intros m s Hn Hm.
  - assert (s = "") as -> by (destruct s; simpl in *; [done|lia]).
    destruct m; cbn [split_fuel]; [done|]. by rewrite find_None_empty.
  - cbn [split_fuel]. destruct (find sep s) as [i|] eqn:Hf;
      [|destruct m; cbn [split_fuel]; by rewrite ?Hf].
    pose proof (find_Some_bound _ _ _ Hf) as Hb.
    pose proof (length_pos _ Hsep) as Hpos.
    destruct m as [|m]; [lia|]. cbn [split_fuel]. rewrite Hf. f_equal.
    apply IH; rewrite length_drop; lia.
Qed.

(** The equation of [str.split]: the text before the first separator, then
    the cuts of what follows it. *)
Lemma split_unfold sep s : sep ≠ "" →
  split sep s =
    match find sep s with
    | Some i => take i s :: split sep (drop (i + String.length sep) s)
    | None => [s]
    end.
Proof.
  intros Hsep. unfold split.
  destruct (find sep s) as [i|] eqn:Hf.
  - pose proof (find_Some_bound _ _ _ Hf) as Hb.
    pose proof (length_pos _ Hsep) as Hpos.
    destruct (String.length s) as [|n] eqn:Hl; [lia|].
    cbn [split_fuel]. rewrite Hf. f_equal.
    apply split_fuel_enough; [done|rewrite length_drop; lia..].
  - destruct (String.length s); cbn [split_fuel]; by rewrite ?Hf.
Qed.

(** Every token of a split occurs in the string that was split. *)
Lemma split_contains sep t s :
  sep ≠ "" → t ∈ split sep s → contains t s = true.
Proof.
  intros Hsep. remember (String.length s) as n eqn:Hn.
  revert s Hn. induction (lt_wf n) as [n _ IH]; intros s -> Ht.
  rewrite split_unfold in Ht by done.
  destruct (find sep s) as [i|] eqn:Hf.
  - apply elem_of_cons in Ht as [->|Ht].
    + apply contains_prefix, prefix_take.
    + pose proof (find_Some_bound _ _ _ Hf) as Hb.
      pose proof (length_pos _ Hsep) as Hpos.
      eapply contains_drop, IH; [|done..].
      rewrite length_drop. lia.
  - apply list_elem_of_singleton in Ht as ->. apply contains_refl.
Qed.

End PyFacts.

(** ** The error monad, masks and element-wise tests *)

Lemma bind_Ok {A B} (m : result A) (f : A → result B) b :
  m ≫= f = Ok b ↔ ∃ a, m = Ok a ∧ f a = Ok b.
Proof.
  destruct m as [a|e]; simpl; split.
  - eauto.
  - by intros (? & [= <-] & ?).
  - done.
  - by intros (? & ? & ?).
Qed.

Lemma mask_fmap {A} (g : A → bool) (l : list A) :
  Pd.mask (g <$> l) l = List.filter g l.
Proof. induction l as [|x l IH]; csimpl; [done|]. by rewrite IH. Qed.

Lemma filter_sublist {A} (g : A → bool) (l : list A) :
  List.filter g l `sublist_of` l.
Proof.
  induction l as [|x l IH]; simpl; [done|].
  destruct (g x); by constructor.
Qed.

Lemma filter_filter {A} (g h : A → bool) (l : list A) :
  List.filter h (List.filter g l) = List.filter (λ x, g x && h x) l.
Proof.
  induction l as [|x l IH]; simpl; [done|].
  destruct (g x); simpl; rewrite IH; done.
Qed.

Lemma filter_all {A} (g : A → bool) (l : list A) :
  Forall (λ x, g x = true) l → List.filter g l = l.
Proof. induction 1 as [|x l Hx _ IH]; simpl; [done|]. by rewrite Hx, IH. Qed.

Lemma filter_sublist_mono {A} (g h : A → bool) (l : list A) :
  (∀ x, x ∈ l → g x = true → h x = true) →
  List.filter g l `sublist_of` List.filter h l.
Proof.
  induction l as [|x l IH]; intros Hgh; simpl; [done|].
  assert (List.filter g l `sublist_of` List.filter h l) as Hl.
  { apply IH. intros y Hy. apply Hgh. by right. }
  destruct (g x) eqn:Hg.
  - rewrite (Hgh x) by (done || left). by constructor.
  - destruct (h x); [by constructor|done].
Qed.

Lemma elem_of_filter_bool {A} (g : A → bool) (l : list A) x :
  x ∈ List.filter g l ↔ x ∈ l ∧ g x = true.
Proof. rewrite !list_elem_of_In. apply filter_In. Qed.

Lemma Forall_filter_bool {A} (P : A → Prop) (g : A → bool) (l : list A) :
  Forall P (List.filter g l) ↔ Forall (λ x, g x = true → P x) l.
Proof.
  rewrite !Forall_forall. setoid_rewrite elem_of_filter_bool.
  split; intros H x; [intros Hx Hg; by apply H|intros [Hx Hg]; by apply H].
Qed.

(** An element-wise test over a series runs iff it raises on no entry, and
    then answers entry by entry. *)
Lemma mapM_test_Ok {A} (f : A → result bool) (l : list A) (m : list bool) :
  mapM f l = Ok m ↔
  Forall (λ x, raises (f x) = false) l ∧ m = (λ x, holds (f x)) <$> l.
Proof.
  revert m. induction l as [|x l IH]; intros m; simpl.
  - split; [intros [= <-]; by split|intros [_ ->]; done].
  - destruct (f x) as [b|e] eqn:Hx; simpl.
    + destruct (mapM f l) as [k|e] eqn:Hl; simpl.
      * destruct (IH k) as [[Hall ->] _]; [done|]. split.
        -- intros [= <-]. split; [constructor; [by rewrite Hx|done]|].
           by destruct b.
        -- intros [_ ->]. by destruct b.
      * split; [done|]. intros [Hall _]. inversion Hall; subst.
        exfalso. destruct (IH ((λ x, holds (f x)) <$> l)) as [_ HI].
        discriminate HI. by split.
    + split; [done|]. intros [Hall _]. inversion Hall as [|?? Hr]; subst.
      by rewrite Hx in Hr.
Qed.

Lemma getitem_Ok df name s :
  Pd.getitem df name = Ok s ↔
  is_Some (Pd.column_index name (columns df)) ∧ s = cell df name <$> rows df.
Proof.
  unfold Pd.getitem, cell.
  destruct (Pd.column_index name (columns df)) as [j|]; split.
  - intros [= <-]. eauto.
  - by intros [_ ->].
  - done.
  - by intros [[? [=]] _].
Qed.

Lemma getitem_cell df name :
  is_Some (Pd.column_index name (columns df)) →
  Pd.getitem df name = Ok (cell df name <$> rows df).
Proof. intros ?. by apply getitem_Ok. Qed.

Lemma getitem_missing df name :
  Pd.column_index name (columns df) = None →
  Pd.getitem df name = Raise (KeyError name).
Proof. unfold Pd.getitem. by intros ->. Qed.

Lemma getitem_bool_fmap df (g : Row → bool) :
  Pd.getitem_bool df (g <$> rows df)
  = Ok (mkDataFrame (columns df) (List.filter g (rows df))).
Proof.
  unfold Pd.getitem_bool. rewrite length_fmap, mask_fmap.
  by destruct (decide _).
Qed.

Lemma getitem_bool_Ok df m S :
  Pd.getitem_bool df m = Ok S →
  columns S = columns df ∧ rows S = Pd.mask m (rows df).
Proof. unfold Pd.getitem_bool. destruct (decide _); [|done]. by intros [= <-]. Qed.

(** One filtering step: a test [f] on the cells of a column, the rows that
    pass kept. *)
Lemma test_step_Ok (f : value → result bool) df name S :
  (s ← Pd.getitem df name; m ← mapM f s; Pd.getitem_bool df m) = Ok S ↔
  is_Some (Pd.column_index name (columns df)) ∧
  Forall (λ r, raises (f (cell df name r)) = false) (rows df) ∧
  S = mkDataFrame (columns df)
        (List.filter (λ r, holds (f (cell df name r))) (rows df)).
Proof.
  rewrite bind_Ok. setoid_rewrite getitem_Ok. setoid_rewrite bind_Ok.
  setoid_rewrite mapM_test_Ok. split.
  - intros (s & [Hc ->] & m & [Hall ->] & HS).
    rewrite Forall_fmap in Hall. rewrite <- list_fmap_compose in HS.
    rewrite getitem_bool_fmap in HS. by injection HS as <-.
  - intros (Hc & Hall & ->). eexists; split; [done|].
    eexists; split; [split; [by rewrite Forall_fmap|done]|].
    rewrite <- list_fmap_compose. apply getitem_bool_fmap.
Qed.

Lemma getitem_applied_fmap df (g : Row → bool) :
  Pd.getitem_applied df (g <$> rows df)
  = Ok (mkDataFrame (match rows df with [] => [] | _ => columns df end)
          (List.filter g (rows df))).
Proof.
  pose proof (getitem_bool_fmap df g) as Hb. unfold Pd.getitem_applied.
  destruct (rows df) as [|r l]; [done|]. exact Hb.
Qed.

(** The genre step: a test [f] applied to the cells of a column, the rows
    that pass kept; over no row, the header is lost. *)
Lemma applied_step_Ok (f : value → result bool) df name S :
  (s ← Pd.getitem df name; m ← mapM f s; Pd.getitem_applied df m) = Ok S ↔
  is_Some (Pd.column_index name (columns df)) ∧
  Forall (λ r, raises (f (cell df name r)) = false) (rows df) ∧
  S = mkDataFrame (match rows df with [] => [] | _ => columns df end)
        (List.filter (λ r, holds (f (cell df name r))) (rows df)).
Proof.
  rewrite bind_Ok. setoid_rewrite getitem_Ok. setoid_rewrite bind_Ok.
  setoid_rewrite mapM_test_Ok. split.
  - intros (s & [Hc ->] & m & [Hall ->] & HS).
    rewrite Forall_fmap in Hall. rewrite <- list_fmap_compose in HS.
    rewrite getitem_applied_fmap in HS. by injection HS as <-.
  - intros (Hc & Hall & ->). eexists; split; [done|].
    eexists; split; [split; [by rewrite Forall_fmap|done]|].
    rewrite <- list_fmap_compose. apply getitem_applied_fmap.
Qed.

Lemma filter_nil_existsb {A B} (p : A → bool) (l : list A) (a b : B) :
  match List.filter p l with [] => a | _ => b end = if existsb p l then b else a.
Proof.
  induction l as [|x l IH]; simpl; [done|]. by destruct (p x).
Qed.

(** ** What [apply_filters] computes *)

Section ApplyFilters.

Variable tf : list value.
Variable gf : list string.
Variable yr : Z * Z.

Lemma apply_filters_steps df :
  apply_filters tf gf yr df =
    f1 ← (ty ← Pd.getitem df "Type"; Pd.getitem_bool df (Pd.isin ty tf));
    f2 ← (s ← Pd.getitem f1 "Year";
          m ← mapM (Pd.between_cell yr.1 yr.2) s;
          Pd.getitem_bool f1 m);
    match gf with
    | [] => Ok f2
    | _ => s ← Pd.getitem f2 "Genre(s)";
           m ← mapM (any_genre_in gf) s;
           Pd.getitem_applied f2 m
    end.
Proof.
  unfold apply_filters, Pd.between, Pd.apply.
  destruct (Pd.getitem df "Type") as [ty|]; [|done].
  change (Ok ty ≫= ?f) with (f ty). cbv beta.
  destruct (Pd.getitem_bool df _) as [f1|]; [|done].
  change (Ok f1 ≫= ?f) with (f f1). cbv beta.
  destruct (Pd.getitem f1 "Year") as [year|]; [|done].
  change (Ok year ≫= ?f) with (f year). cbv beta.
  destruct (mapM _ year) as [m|]; [|done].
  change (Ok m ≫= ?f) with (f m). cbv beta.
  destruct (Pd.getitem_bool f1 m) as [f2|]; [|done].
  by destruct gf.
Qed.

Lemma type_step_Ok df S :
  (ty ← Pd.getitem df "Type"; Pd.getitem_bool df (Pd.isin ty tf)) = Ok S ↔
  is_Some (Pd.column_index "Type" (columns df)) ∧
  S = mkDataFrame (columns df) (List.filter (type_ok tf df) (rows df)).
Proof.
  rewrite bind_Ok. setoid_rewrite getitem_Ok. unfold Pd.isin. split.
  - intros (s & [Hc ->] & HS). rewrite <- list_fmap_compose in HS.
    rewrite getitem_bool_fmap in HS. by injection HS as <-.
  - intros [Hc ->]. eexists; split; [done|].
    rewrite <- list_fmap_compose. apply getitem_bool_fmap.
Qed.

(** [apply_filters] returns exactly when [runs] holds, and then returns the
    rows that pass the three tests, in the order of the table, under the
    header of the table, or under no header when the genre test was applied
    to no row. *)
Lemma apply_filters_Ok df S :
  apply_filters tf gf yr df = Ok S ↔
  runs tf gf yr df ∧
  S = mkDataFrame (if keeps_header tf gf yr df then columns df else [])
        (List.filter (keep tf gf yr df) (rows df)).
Proof.
  rewrite apply_filters_steps, bind_Ok.
  setoid_rewrite type_step_Ok. setoid_rewrite bind_Ok.
  setoid_rewrite test_step_Ok. unfold runs, keep, keeps_header. split.
  - intros (f1 & [Ht ->] & f2 & (Hy & Hally & ->) & HS). simpl in *.
    rewrite Forall_filter_bool in Hally.
    rewrite filter_filter in HS.
    destruct gf as [|g gs] eqn:Hgf.
    + injection HS as <-. repeat split; try done.
      * apply Forall_true. done.
      * f_equal. apply filter_ext. intros r. unfold genre_ok.
        by rewrite andb_true_r.
    + apply applied_step_Ok in HS as (Hg & Hallg & ->). simpl in *.
      rewrite Forall_filter_bool in Hallg. rewrite filter_filter.
      rewrite filter_nil_existsb.
      repeat split; try done.
      eapply Forall_impl; [exact Hallg|]. simpl. intros r Hr H1 H2 _.
      apply Hr. unfold year_ok, cell in *. simpl. by rewrite H1, H2.
  - intros ((Ht & Hy & Hg & Hally & Hallg) & ->).
    eexists; split; [done|]. eexists; split.
    { split; [done|]. split; [|reflexivity].
      apply Forall_filter_bool. exact Hally. }
    simpl. rewrite filter_filter.
    destruct gf as [|g gs] eqn:Hgf.
    + f_equal. f_equal. apply filter_ext. intros r. unfold genre_ok.
      by rewrite andb_true_r.
    + apply applied_step_Ok. simpl. repeat split; [by apply Hg| |].
      * rewrite Forall_filter_bool. eapply Forall_impl; [exact Hallg|].
        simpl. intros r Hr [H1 H2]%andb_true_iff. by apply Hr.
      * by rewrite filter_filter, filter_nil_existsb.
Qed.

(** Whatever the header, the rows returned are the rows that pass the three
    tests. *)
Lemma apply_filters_rows df S :
  apply_filters tf gf yr df = Ok S →
  rows S = List.filter (keep tf gf yr df) (rows df).
Proof. by intros [_ ->]%apply_filters_Ok. Qed.

(** When [runs] holds [apply_filters] returns. *)
Lemma apply_filters_returns df :
  runs tf gf yr df →
  apply_filters tf gf yr df
  = Ok (mkDataFrame (if keeps_header tf gf yr df then columns df else [])
          (List.filter (keep tf gf yr df) (rows df))).
Proof. intros Hruns. by apply apply_filters_Ok. Qed.

End ApplyFilters.

Lemma column_index_is_Some name cols :
  is_Some (Pd.column_index name cols) ↔ name ∈ cols.
Proof.
  unfold Pd.column_index. rewrite fmap_is_Some. split.
  - intros [[i x] (Hl & -> & _)%list_find_Some]. by eapply list_elem_of_lookup_2.
  - intros H. by eapply list_find_elem_of.
Qed.

Lemma any_genre_in_str genres s :
  any_genre_in genres (VStr s) = Ok (existsb (λ g, Py.contains g s) genres).
Proof.
  induction genres as [|g genres IH]; simpl; [done|].
  by destruct (Py.contains g s).
Qed.

Lemma any_genre_in_runs genres x :
  genres ≠ [] → raises (any_genre_in genres x) = false → is_str x = true.
Proof. destruct genres; [done|]. by destruct x. Qed.

(** The genre test of the script on a string cell: some selected genre
    occurs in the cell as a substring. *)
Lemma genre_ok_substring gf df r s :
  gf ≠ [] → cell df "Genre(s)" r = VStr s →
  genre_ok gf df r = true ↔ ∃ g, g ∈ gf ∧ Py.contains g s = true.
Proof.
  intros Hgf Hs. unfold genre_ok. rewrite Hs, any_genre_in_str.
  destruct gf as [|g0 gf]; [done|]. cbn [holds].
  destruct (existsb _ _) eqn:He.
  - apply existsb_exists in He as (g & Hg & Hc). split; [|done].
    intros _. exists g. by rewrite list_elem_of_In.
  - split; [done|]. intros (g & Hg & Hc).
    assert (existsb (λ g, Py.contains g s) (g0 :: gf) = true) as He'; [|congruence].
    apply existsb_exists. exists g. by rewrite <- list_elem_of_In.
Qed.

(** A row one of whose tokens is a selected genre passes the genre test. *)
Lemma genre_ok_exact_token gf df r s g :
  cell df "Genre(s)" r = VStr s → g ∈ gf → g ∈ Py.split ", " s →
  genre_ok gf df r = true.
Proof.
  intros Hs Hg Ht. apply (genre_ok_substring gf df r s); [by intros ->; inversion Hg|done|].
  exists g. split; [done|]. by apply (PyFacts.split_contains ", ").
Qed.

Lemma year_ok_int lo hi df r y :
  cell df "Year" r = VInt y → year_ok (lo, hi) df r = true ↔ lo ≤ y ≤ hi.
Proof.
  intros Hy. unfold year_ok. rewrite Hy. simpl.
  destruct (bool_decide (lo ≤ y)) eqn:H1, (bool_decide (y ≤ hi)) eqn:H2; simpl;
    try apply bool_decide_eq_true in H1; try apply bool_decide_eq_false in H1;
    try apply bool_decide_eq_true in H2; try apply bool_decide_eq_false in H2;
    split; (done || lia).
Qed.

Lemma content_table_inv df :
  content_table df = true →
  "Type" ∈ columns df ∧ "Year" ∈ columns df ∧ "Genre(s)" ∈ columns df ∧
  "Rating (Out of 5)" ∈ columns df ∧
  Forall (λ r, is_int (cell df "Year" r) = true) (rows df) ∧
  Forall (λ r, is_str (cell df "Genre(s)" r) = true) (rows df) ∧
  Forall (λ r, is_str (cell df "Rating (Out of 5)" r) = false) (rows df).
Proof.
  unfold content_table.
  destruct (Pd.getitem df "Type") as [ty|] eqn:Ht; [|done].
  destruct (Pd.getitem df "Year") as [year|] eqn:Hy; [|done].
  destruct (Pd.getitem df "Genre(s)") as [g|] eqn:Hg; [|done].
  destruct (Pd.getitem df "Rating (Out of 5)") as [rt|] eqn:Hr; [|done].
  apply getitem_Ok in Ht as [Ht _], Hy as [Hy ->], Hg as [Hg ->], Hr as [Hr ->].
  rewrite !andb_true_iff, !forallb_forall. intros [[H1 H2] H3].
  rewrite <- !column_index_is_Some. repeat split; try done.
  - apply Forall_forall. intros r Hr'. apply H1, list_elem_of_In.
    apply list_elem_of_fmap. eauto.
  - apply Forall_forall. intros r Hr'. apply H2, list_elem_of_In.
    apply list_elem_of_fmap. eauto.
  - apply Forall_forall. intros r Hr'. apply negb_true_iff, H3, list_elem_of_In.
    apply list_elem_of_fmap. eauto.
Qed.

(** On a Content Table no line of [apply_filters] raises. *)
Lemma content_table_runs tf gf yr df :
  content_table df = true → runs tf gf yr df.
Proof.
  intros (Ht & Hy & Hg & _ & Hyear & Hgenre & _)%content_table_inv.
  unfold runs. rewrite !column_index_is_Some. repeat split; try done.
  - eapply Forall_impl; [exact Hyear|]. simpl. intros r Hr _.
    by destruct (cell df "Year" r).
  - eapply Forall_impl; [exact Hgenre|]. simpl. intros r Hr _ _ _.
    destruct (cell df "Genre(s)" r); try done. by rewrite any_genre_in_str.
Qed.

Lemma content_table_intro df :
  "Type" ∈ columns df → "Year" ∈ columns df → "Genre(s)" ∈ columns df →
  "Rating (Out of 5)" ∈ columns df →
  Forall (λ r, is_int (cell df "Year" r) = true) (rows df) →
  Forall (λ r, is_str (cell df "Genre(s)" r) = true) (rows df) →
  Forall (λ r, is_str (cell df "Rating (Out of 5)" r) = false) (rows df) →
  content_table df = true.
Proof.
  intros Ht Hy Hg Hr H1 H2 H3. unfold content_table.
  rewrite !getitem_cell by by apply column_index_is_Some.
  rewrite !andb_true_iff, !forallb_forall.
  setoid_rewrite <- list_elem_of_In. setoid_rewrite list_elem_of_fmap.
  rewrite Forall_forall in H1, H2, H3.
  repeat split; intros v (r & -> & Hin); auto.
  apply negb_true_iff; auto.
Qed.

(** A subset with a row in it, or obtained with no genre selected, has the
    header of the table. *)
Lemma keeps_header_true tf gf yr df :
  gf = [] ∨ List.filter (keep tf gf yr df) (rows df) ≠ [] →
  keeps_header tf gf yr df = true.
Proof.
  unfold keeps_header. intros [->|Hne]; [done|]. destruct gf as [|g gs]; [done|].
  destruct (List.filter _ _) as [|r l] eqn:Hf; [done|].
  assert (r ∈ List.filter (keep tf (g :: gs) yr df) (rows df)) as Hr
    by (rewrite Hf; by left).
  apply elem_of_filter_bool in Hr as [Hr Hk]. unfold keep in Hk.
  apply andb_true_iff in Hk as [Hk _].
  apply existsb_exists. exists r. split; [by apply list_elem_of_In|done].
Qed.

(** The subset returned by [apply_filters] on a Content Table is a Content
    Table when it has kept the header. *)
Lemma apply_filters_content_table tf gf yr df S :
  content_table df = true → apply_filters tf gf yr df = Ok S →
  keeps_header tf gf yr df = true →
  content_table S = true.
Proof.
  intros (Ht & Hy & Hg & Hr & H1 & H2 & H3)%content_table_inv
         [_ ->]%apply_filters_Ok ->.
  apply content_table_intro; try done; simpl; apply Forall_filter_bool.
  - eapply Forall_impl; [exact H1|]. by intros.
  - eapply Forall_impl; [exact H2|]. by intros.
  - eapply Forall_impl; [exact H3|]. by intros.
Qed.

(** The rows of the result are the rows of the table that pass the three
    tests. *)
Lemma apply_filters_elem_of tf gf yr df S r :
  apply_filters tf gf yr df = Ok S →
  r ∈ rows S ↔ r ∈ rows df ∧ keep tf gf yr df r = true.
Proof. intros [_ ->]%apply_filters_Ok. simpl. apply elem_of_filter_bool. Qed.

(** Filtering again a subset that has a row in it, or that was obtained
    with no genre selected, changes nothing. *)
Lemma apply_filters_again tf gf yr df S :
  apply_filters tf gf yr df = Ok S →
  gf = [] ∨ rows S ≠ [] →
  columns S = columns df ∧ apply_filters tf gf yr S = Ok S.
Proof.
  intros [(Ht & Hy & Hg & Hally & Hallg) ->]%apply_filters_Ok Hne. simpl in Hne.
  rewrite (keeps_header_true tf gf yr df Hne). split; [done|].
  set (S := mkDataFrame (columns df) (List.filter (keep tf gf yr df) (rows df))).
  assert (List.filter (keep tf gf yr S) (rows S) = rows S) as Hfix.
  { apply filter_all. apply Forall_filter_bool, Forall_true. done. }
  apply apply_filters_Ok. split.
  - unfold runs. simpl. repeat split; try done.
    + apply Forall_filter_bool. eapply Forall_impl; [exact Hally|].
      simpl. intros r Hr _. exact Hr.
    + apply Forall_filter_bool. eapply Forall_impl; [exact Hallg|].
      simpl. intros r Hr _. exact Hr.
  - rewrite keeps_header_true by (rewrite Hfix; exact Hne).
    by rewrite Hfix.
Qed.

(** Filtering again a subset without any row, obtained with some genre
    selected: a subset that has kept the header loses it, and a subset that
    has lost it makes the first line of [apply_filters] raise. *)
Lemma apply_filters_again_no_row tf gf yr df S :
  apply_filters tf gf yr df = Ok S →
  gf ≠ [] → rows S = [] →
  if keeps_header tf gf yr df
  then columns S = columns df ∧ apply_filters tf gf yr S = Ok Pd.empty_frame
  else S = Pd.empty_frame ∧ apply_filters tf gf yr S = Raise (KeyError "Type").
Proof.
  intros [(Ht & Hy & Hg & Hally & Hallg) ->]%apply_filters_Ok Hgf Hrows.
  simpl in Hrows. rewrite Hrows.
  destruct (keeps_header tf gf yr df); (split; [done|]).
  - apply apply_filters_Ok. split.
    + unfold runs. simpl. repeat split; try done; by apply Forall_nil.
    + unfold keeps_header. simpl. by destruct gf.
  - unfold apply_filters. by rewrite getitem_missing.
Qed.

(** ** The script on the sample inputs *)

Example split_comedy_drama : Py.split ", " "Comedy, Drama" = ["Comedy"; "Drama"].
Proof. reflexivity. Qed.

Example split_empty : Py.split ", " "" = [""].
Proof. reflexivity. Qed.

Example split_adjacent : Py.split ", " "a, , b" = ["a"; ""; "b"].
Proof. reflexivity. Qed.

Example contains_substring :
  Py.contains "Comedy" "Romantic Comedy" = true
  ∧ Py.contains "Comedy" "Drama, Action" = false.
Proof. split; reflexivity. Qed.

Example sidebar_sample :
  sidebar int_of_decimal true sample_table
  = Ok (mkOptions [VStr "Movie"; VStr "TV Show"]
          [VStr "Comedy"; VStr "Drama"; VStr "Action"; VStr "Romantic Comedy"]
          2019 2021).
Proof. reflexivity. Qed.

(** The third record lists one genre and the others two: when [stack]
    keeps the padding, the Genres widget is also offered a missing value. *)
Example sidebar_sample_padding_kept :
  sidebar int_of_decimal false sample_table
  = Ok (mkOptions [VStr "Movie"; VStr "TV Show"]
          [VStr "Comedy"; VStr "Drama"; VStr "Action"; VStr "Romantic Comedy"; VNaN]
          2019 2021).
Proof. reflexivity. Qed.

(** A subset of no row under a genre selection has no column, and filtering
    it again raises. *)
Example apply_filters_no_row_no_column :
  apply_filters [] ["Comedy"] (2019, 2021) sample_table = Ok Pd.empty_frame
  ∧ apply_filters [] ["Comedy"] (2019, 2021) Pd.empty_frame
    = Raise (KeyError "Type").
Proof. split; reflexivity. Qed.

Example load_text_years :
  load_data int_of_decimal cast_x86_64 (Ok (text_years "2020"))
  = (mkDataFrame ["Type"; "Year"]
       [ mkRow 0 [VStr "Movie"; VInt 2019]; mkRow 1 [VStr "Movie"; VInt 2020] ],
     []).
Proof. reflexivity. Qed.

Example load_bad_year :
  load_data int_of_decimal cast_x86_64 (Ok (text_years "n/a"))
  = (Pd.empty_frame,
     [StError "Error loading data: "
        (ValueError "invalid literal for int() with base 10")]).
Proof. reflexivity. Qed.

(** A column of integers that holds a Year of [2 ^ 63] is a [uint64]
    column: the conversion is not checked and the Year is loaded as
    [- 2 ^ 63], without any error. *)
Example load_wraps_unsigned :
  load_data int_of_decimal cast_x86_64
    (Ok (mkDataFrame ["Type"; "Year"]
           [ mkRow 0 [VStr "Movie"; VInt 2019];
             mkRow 1 [VStr "Movie"; VInt (2 ^ 63)] ]))
  = (mkDataFrame ["Type"; "Year"]
       [ mkRow 0 [VStr "Movie"; VInt 2019];
         mkRow 1 [VStr "Movie"; VInt (- 2 ^ 63)] ],
     []).
Proof. reflexivity. Qed.

(** A column of numbers with a missing Year is a [float64] column, and the
    conversion raises. *)
Example load_missing_year_value :
  load_data int_of_decimal cast_x86_64
    (Ok (mkDataFrame ["Type"; "Year"]
           [ mkRow 0 [VStr "Movie"; VFloat 2019];
             mkRow 1 [VStr "Movie"; VNaN] ]))
  = (Pd.empty_frame,
     [StError "Error loading data: "
        (ValueError "Cannot convert non-finite values (NA or inf) to integer")]).
Proof. reflexivity. Qed.

Example load_missing_file :
  load_data int_of_decimal cast_x86_64 (Raise (FileNotFoundError "data.csv"))
  = (Pd.empty_frame,
     [StError "Error loading data: " (FileNotFoundError "data.csv")]).
Proof. reflexivity. Qed.

(** Headline metrics on three records with ratings 4, 5 and 3: count 3,
    mean 4. *)
Example key_metrics_three_ratings :
  key_metrics three_ratings
  = Ok [ StMetric "Total Content" (VInt 3); StMetric "Average Rating" (VFloat 4);
         StMetric "Movies" (VInt 2); StMetric "TV Shows" (VInt 1) ].
Proof. reflexivity. Qed.

Example yearly_data_sample :
  yearly_data sample_table
  = Ok [ (2019, VFloat (9 # 2), 1%nat); (2020, VFloat 3, 1%nat);
         (2021, VFloat 4, 1%nat) ].
Proof. reflexivity. Qed.

(** ** The filter engine *)

(** C1, on the code: the genre test is a substring test on the whole
    Genre(s) field.  Under the selection {"Comedy"} the script keeps the
    record whose only genre token is "Romantic Comedy", although no token of
    that record equals "Comedy"; the records "Comedy, Drama" and
    "Drama, Action" of the same table are kept and dropped as stated. *)
Theorem genre_filter_keeps_substring_match :
  apply_filters [VStr "Movie"; VStr "TV Show"] ["Comedy"] (2019, 2021) sample_table
  = Ok (mkDataFrame header
          [ record 0 "Alpha" "Movie" 2019 "Comedy, Drama" 4.5;
            record 2 "Charlie" "Movie" 2021 "Romantic Comedy" 4 ])
  ∧ Py.split ", " "Romantic Comedy" = ["Romantic Comedy"]
  ∧ "Comedy" ∉ Py.split ", " "Romantic Comedy".
Proof.
  split; [reflexivity|]. split; [reflexivity|].
  change (Py.split ", " "Romantic Comedy") with ["Romantic Comedy"].
  by intros ?%list_elem_of_singleton.
Qed.

(** C4: with no Type selected, [apply_filters] returns the empty subset,
    whatever the genre selection and the year range. *)
Theorem empty_type_selection_matches_nothing gf yr df :
  "Type" ∈ columns df → "Year" ∈ columns df →
  (gf ≠ [] → "Genre(s)" ∈ columns df) →
  ∃ S, apply_filters [] gf yr df = Ok S ∧ rows S = [] ∧ Pd.empty S = true.
Proof.
  intros Ht Hy Hg.
  assert (runs [] gf yr df) as Hruns.
  { unfold runs. rewrite !column_index_is_Some.
    repeat split; try done; by apply Forall_true. }
  assert (List.filter (keep [] gf yr df) (rows df) = []) as Hnone.
  { induction (rows df) as [|r l IH]; [done|]. exact IH. }
  eexists. split; [by apply apply_filters_returns|]. simpl. rewrite Hnone.
  split; [done|]. unfold Pd.empty. simpl.
  by destruct (if keeps_header [] gf yr df then columns df else []).
Qed.

Lemma empty_type_selection_witness :
  ∃ S, apply_filters [] ["Comedy"] (2019, 2021) sample_table = Ok S
       ∧ rows S = [] ∧ Pd.empty S = true.
Proof.
  apply (empty_type_selection_matches_nothing ["Comedy"] (2019, 2021) sample_table);
    intros; unfold sample_table, header; simpl; repeat constructor.
Defined.

(** C5, on the code: the rows returned are rows of the table, in their
    order, but filtering is not idempotent.  Applying the same filters to
    the subset returns it unchanged when no genre is selected or when the
    subset has a row.  When some genre is selected and the subset has no
    row, the second application reaches the genre test with no row:
    [Series.apply] over no row returns a series that is not boolean, which
    [filtered[genre_mask]] reads as a list of no column label.  A subset
    that had kept the header comes back without any column; a subset that
    had lost it already (no row had passed the Type and Year tests) makes
    the second application raise [KeyError] at [df["Type"]]. *)
Theorem apply_filters_not_idempotent_without_rows tf gf yr df :
  content_table df = true →
  ∃ S, apply_filters tf gf yr df = Ok S
       ∧ rows S `sublist_of` rows df
       ∧ (gf = [] ∨ rows S ≠ [] →
            columns S = columns df ∧ apply_filters tf gf yr S = Ok S)
       ∧ (gf ≠ [] → rows S = [] →
            if keeps_header tf gf yr df
            then columns S = columns df
                 ∧ apply_filters tf gf yr S = Ok Pd.empty_frame
            else S = Pd.empty_frame
                 ∧ apply_filters tf gf yr S = Raise (KeyError "Type")).
Proof.
  intros Hct.
  pose proof (content_table_runs tf gf yr df Hct) as Hruns.
  pose proof (apply_filters_returns tf gf yr df Hruns) as HS.
  eexists. split; [exact HS|].
  split; [apply filter_sublist|]. split.
  - intros Hne. by apply (apply_filters_again tf gf yr df).
  - intros Hgf Hrows. by apply (apply_filters_again_no_row tf gf yr df).
Qed.

Lemma apply_filters_not_idempotent_witness :
  apply_filters [] ["Comedy"] (2019, 2021) sample_table = Ok Pd.empty_frame
  ∧ apply_filters [] ["Comedy"] (2019, 2021) Pd.empty_frame
    = Raise (KeyError "Type")
  ∧ apply_filters [VStr "Movie"] ["Horror"] (2019, 2021) sample_table
    = Ok (mkDataFrame header [])
  ∧ apply_filters [VStr "Movie"] ["Horror"] (2019, 2021) (mkDataFrame header [])
    = Ok Pd.empty_frame.
Proof.
  destruct (apply_filters_not_idempotent_without_rows
              [] ["Comedy"] (2019, 2021) sample_table eq_refl)
    as (S & HS & _ & _ & Hbad).
  destruct (apply_filters_not_idempotent_without_rows
              [VStr "Movie"] ["Horror"] (2019, 2021) sample_table eq_refl)
    as (S' & HS' & _ & _ & Hbad').
  change (Ok Pd.empty_frame = Ok S) in HS. injection HS as <-.
  change (Ok (mkDataFrame header []) = Ok S') in HS'. injection HS' as <-.
  specialize (Hbad ltac:(done) eq_refl). specialize (Hbad' ltac:(done) eq_refl).
  change (Pd.empty_frame = Pd.empty_frame
          ∧ apply_filters [] ["Comedy"] (2019, 2021) Pd.empty_frame
            = Raise (KeyError "Type")) in Hbad.
  change (header = header
          ∧ apply_filters [VStr "Movie"] ["Horror"] (2019, 2021)
              (mkDataFrame header []) = Ok Pd.empty_frame) in Hbad'.
  split; [reflexivity|]. split; [apply Hbad|].
  split; [reflexivity|apply Hbad'].
Defined.

(** C6: the year test is inclusive at both ends.  On a Content Table, a row
    of year [y] passes the year test exactly when [lo ≤ y ≤ hi]; among the
    rows that pass the Type and genre tests, those kept are exactly those
    with [lo ≤ y ≤ hi]; so a row whose year is [lo] or [hi] is kept. *)
Theorem year_filter_inclusive tf gf lo hi df :
  content_table df = true →
  ∃ S, apply_filters tf gf (lo, hi) df = Ok S ∧
    ∀ r y, r ∈ rows df → cell df "Year" r = VInt y →
      (year_ok (lo, hi) df r = true ↔ lo ≤ y ≤ hi) ∧
      (type_ok tf df r = true → genre_ok gf df r = true →
         (r ∈ rows S ↔ lo ≤ y ≤ hi) ∧
         (lo ≤ hi → y = lo ∨ y = hi → r ∈ rows S)).
Proof.
  intros Hct.
  pose proof (content_table_runs tf gf (lo, hi) df Hct) as Hruns.
  eexists. split; [apply apply_filters_Ok; by split|].
  intros r y Hr Hy. pose proof (year_ok_int lo hi df r y Hy) as Hiff.
  split; [done|]. intros Ht Hg.
  assert (r ∈ List.filter (keep tf gf (lo, hi) df) (rows df) ↔ lo ≤ y ≤ hi) as Hin.
  { rewrite elem_of_filter_bool. unfold keep. rewrite Ht, Hg, andb_true_r.
    simpl. rewrite Hiff. tauto. }
  split; [exact Hin|]. intros Hle Hb. apply Hin. lia.
Qed.

Lemma year_filter_inclusive_witness :
  ∃ S, apply_filters [VStr "Movie"] [] (2019, 2021) sample_table = Ok S ∧
    ∀ r y, r ∈ rows sample_table → cell sample_table "Year" r = VInt y →
      (year_ok (2019, 2021) sample_table r = true ↔ 2019 ≤ y ≤ 2021) ∧
      (type_ok [VStr "Movie"] sample_table r = true →
       genre_ok [] sample_table r = true →
         (r ∈ rows S ↔ 2019 ≤ y ≤ 2021) ∧
         (2019 ≤ 2021 → y = 2019 ∨ y = 2021 → r ∈ rows S)).
Proof.
  apply (year_filter_inclusive [VStr "Movie"] [] 2019 2021 sample_table).
  reflexivity.
Defined.

(** C10: enlarging a non-empty genre selection only adds rows.  When
    [apply_filters] returns under the selection [G], it returns under every
    larger selection [G'], and every row kept under [G] is kept under [G'],
    in the same order. *)
Theorem genre_filter_monotone tf yr df (G G' : list string) S :
  G ≠ [] → G ⊆ G' →
  apply_filters tf G yr df = Ok S →
  ∃ S', apply_filters tf G' yr df = Ok S'
        ∧ rows S `sublist_of` rows S'
        ∧ ∀ r, r ∈ rows S → r ∈ rows S'.
Proof.
  intros HG Hsub [(Ht & Hy & Hg & Hally & Hallg) ->]%apply_filters_Ok.
  assert (G' ≠ []) as HG'.
  { destruct G as [|g G]; [done|]. intros ->.
    specialize (Hsub g). rewrite elem_of_nil in Hsub. apply Hsub. by left. }
  assert (∀ r, r ∈ rows df → keep tf G yr df r = true → keep tf G' yr df r = true)
    as Hkeep.
  { intros r Hr. unfold keep. rewrite !andb_true_iff. intros [[H1 H2] H3].
    repeat split; try done.
    rewrite Forall_forall in Hallg. specialize (Hallg r Hr H1 H2 HG).
    apply any_genre_in_runs in Hallg; [|done].
    destruct (cell df "Genre(s)" r) as [s| | |] eqn:Hs; try done.
    apply (genre_ok_substring G df r s) in H3 as (g & Hin & Hc); [|done..].
    apply (genre_ok_substring G' df r s); [done..|]. exists g. split; [|done].
    by apply Hsub. }
  assert (List.filter (keep tf G yr df) (rows df)
            `sublist_of` List.filter (keep tf G' yr df) (rows df)) as Hsl.
  { by apply filter_sublist_mono. }
  exists (mkDataFrame (if keeps_header tf G' yr df then columns df else [])
            (List.filter (keep tf G' yr df) (rows df))).
  split; [|split; [exact Hsl|]].
  - apply apply_filters_returns.
    unfold runs. split; [done|]. split; [done|].
    split; [intros _; by apply Hg|]. split; [done|].
    rewrite Forall_forall in Hallg |- *. intros r Hr H1 H2 _.
    specialize (Hallg r Hr H1 H2 HG). apply any_genre_in_runs in Hallg; [|done].
    destruct (cell df "Genre(s)" r); try done. by rewrite any_genre_in_str.
  - intros r Hr. by eapply elem_of_sublist.
Qed.

Lemma genre_filter_monotone_witness :
  ∃ S', apply_filters [VStr "Movie"; VStr "TV Show"] ["Action"; "Comedy"]
          (2019, 2021) sample_table = Ok S'
        ∧ rows (mkDataFrame header [record 1 "Bravo" "TV Show" 2020 "Drama, Action" 3])
            `sublist_of` rows S'
        ∧ ∀ r, r ∈ rows (mkDataFrame header
                           [record 1 "Bravo" "TV Show" 2020 "Drama, Action" 3]) →
               r ∈ rows S'.
Proof.
  apply (genre_filter_monotone [VStr "Movie"; VStr "TV Show"] (2019, 2021)
           sample_table ["Action"] ["Action"; "Comedy"]).
  - done.
  - intros g ->%list_elem_of_singleton. by left.
  - reflexivity.
Defined.

(** ** The sidebar *)

(** C2, on the code: after a failed load the table is [pd.DataFrame()],
    which has no column, and the first line of the sidebar, [df["Type"]],
    raises [KeyError].  A table with the header and no row gets through the
    Type and genre options and raises at [int(df["Year"].min())], the
    minimum of no value being NaN. *)
Theorem sidebar_raises_on_empty_table
    int_of_str cast_out_of_range stack_dropna e :
  (load_data int_of_str cast_out_of_range (Raise e)).1 = Pd.empty_frame
  ∧ sidebar int_of_str stack_dropna
      (load_data int_of_str cast_out_of_range (Raise e)).1
    = Raise (KeyError "Type")
  ∧ raises (sidebar int_of_str stack_dropna (mkDataFrame header [])) = true.
Proof. repeat split. Qed.

(** ** The aggregation views *)

Lemma empty_no_rows df : rows df = [] → Pd.empty df = true.
Proof. unfold Pd.empty. intros ->. by destruct (columns df). Qed.

(** C3, on the code: on a subset with no row the Key Metrics block shows
    the warning and the genre rollup is skipped, but the yearly rollup is
    not guarded: [groupby('Year').agg(...)] is evaluated over zero rows and
    its (empty) result is charted. *)
Theorem yearly_rollup_computed_on_empty_subset df :
  "Year" ∈ columns df → "Rating (Out of 5)" ∈ columns df → rows df = [] →
  key_metrics df = Ok [StWarning "No data available with current filters"]
  ∧ genre_breakdown df = Ok []
  ∧ yearly_data df = Ok []
  ∧ views df = Ok [StWarning "No data available with current filters";
                   TrendsChart []].
Proof.
  intros Hy Hr Hrows.
  assert (key_metrics df = Ok [StWarning "No data available with current filters"])
    as Hk by (unfold key_metrics; by rewrite empty_no_rows).
  assert (genre_breakdown df = Ok []) as Hg
    by (unfold genre_breakdown; by rewrite empty_no_rows).
  assert (yearly_data df = Ok []) as Hyd.
  { unfold yearly_data.
    rewrite !getitem_cell by by apply column_index_is_Some.
    by rewrite Hrows. }
  repeat split; try done.
  unfold views, temporal_trends. by rewrite Hk, Hg, Hyd.
Qed.

Lemma yearly_rollup_computed_on_empty_subset_witness :
  apply_filters [] [] (2019, 2021) sample_table = Ok (mkDataFrame header [])
  ∧ key_metrics (mkDataFrame header [])
    = Ok [StWarning "No data available with current filters"]
  ∧ genre_breakdown (mkDataFrame header []) = Ok []
  ∧ yearly_data (mkDataFrame header []) = Ok []
  ∧ views (mkDataFrame header [])
    = Ok [StWarning "No data available with current filters"; TrendsChart []].
Proof.
  split; [reflexivity|].
  apply (yearly_rollup_computed_on_empty_subset (mkDataFrame header []));
    unfold header; simpl; repeat constructor.
Defined.

(** ** The data loader *)

Lemma mapM_Ok_Forall2 {A B} (f : A → result B) l k :
  mapM f l = Ok k ↔ Forall2 (λ x y, f x = Ok y) l k.
Proof.
  revert k. induction l as [|x l IH]; intros k; simpl.
  - split; [intros [= <-]; constructor|by inversion 1].
  - destruct (f x) as [y|e] eqn:Hx; simpl.
    + destruct (mapM f l) as [k'|e]; simpl.
      * split.
        -- intros [= <-]. constructor; [done|]. by apply IH.
        -- inversion 1 as [|?? y' k'' Hy Hk]; subst.
           apply IH in Hk. change (Ok (y :: k') = Ok (y0 :: k'')). congruence.
      * split; [done|]. inversion 1 as [|?? y' k'' Hy Hk]; subst.
        by apply IH in Hk.
    + split; [done|]. inversion 1; congruence.
Qed.

Lemma mapM_Ok_total {A B} (f : A → result B) l :
  Forall (λ x, raises (f x) = false) l → ∃ k, mapM f l = Ok k.
Proof.
  induction 1 as [|x l Hx _ [k Hk]]; [by exists []|].
  destruct (f x) as [y|] eqn:Hy; [|done].
  exists (y :: k). simpl. by rewrite Hy, Hk.
Qed.

Section Loader.

Variable int_of_str : string → option Z.
Variable cast_out_of_range : Q → Z.

Lemma wrap_int64_range n : - 2 ^ 63 ≤ wrap_int64 n < 2 ^ 63.
Proof.
  unfold wrap_int64.
  pose proof (Z.mod_pos_bound (n + 2 ^ 63) (2 ^ 64) ltac:(lia)). lia.
Qed.

Lemma wrap_int64_fits n : - 2 ^ 63 ≤ n < 2 ^ 63 → wrap_int64 n = n.
Proof. intros Hn. unfold wrap_int64. rewrite Z.mod_small; lia. Qed.

Lemma in_int64_spec n : Pd.in_int64 n = true ↔ - 2 ^ 63 ≤ n < 2 ^ 63.
Proof. unfold Pd.in_int64. apply bool_decide_eq_true. Qed.

Lemma astype_int_cell_Ok v w :
  astype_int_cell int_of_str v = Ok w ↔
  ∃ n, w = VInt n ∧ - 2 ^ 63 ≤ n < 2 ^ 63 ∧ py_int int_of_str v = Ok n.
Proof.
  unfold astype_int_cell. destruct (py_int int_of_str v) as [n|]; simpl.
  - destruct (bool_decide _) eqn:Hn.
    + apply bool_decide_eq_true in Hn. split.
      * intros [= <-]. eauto.
      * by intros (? & -> & _ & [= <-]).
    + apply bool_decide_eq_false in Hn. split; [done|].
      intros (? & _ & ? & [= <-]). done.
  - split; [done|]. by intros (? & _ & _ & ?).
Qed.

Lemma astype_int_cell_loaded v w :
  astype_int_cell int_of_str v = Ok w → loaded_year int_of_str v w.
Proof.
  intros (n & -> & Hn & Hv)%astype_int_cell_Ok. exists n.
  split; [done|]. split; [done|].
  destruct v as [s|m|q|]; simpl in Hv.
  - by destruct (int_of_str s) as [k|]; [injection Hv as ->|].
  - by injection Hv as <-.
  - by injection Hv as <-.
  - done.
Qed.

(** The dtype of a column is [object] exactly when it holds a string. *)
Lemma dtype_of_Object s :
  Pd.dtype_of s = Pd.Object ↔ ∃ x, VStr x ∈ s.
Proof.
  assert (existsb Pd.holds_str s = true ↔ ∃ x, VStr x ∈ s) as Hstr.
  { rewrite existsb_exists. setoid_rewrite <- list_elem_of_In. split.
    - intros ([x| | |] & Hin & Hv); try done. eauto.
    - intros (x & Hin). by exists (VStr x). }
  unfold Pd.dtype_of.
  destruct (forallb Pd.is_int64 s) eqn:H1.
  { split; [done|]. intros (x & Hin%list_elem_of_In). exfalso.
    rewrite forallb_forall in H1. by specialize (H1 _ Hin). }
  destruct (forallb Pd.is_uint64 s) eqn:H2.
  { split; [done|]. intros (x & Hin%list_elem_of_In). exfalso.
    rewrite forallb_forall in H2. by specialize (H2 _ Hin). }
  destruct (existsb Pd.holds_str s) eqn:H3.
  - split; [intros _; by apply Hstr|done].
  - split; [done|]. intros Hx%Hstr. done.
Qed.

(** What [astype(int)] returns when it returns: entry by entry, the loaded
    Year of the Year read. *)
Lemma astype_int_Ok s k :
  astype_int int_of_str cast_out_of_range s = Ok k →
  Forall2 (loaded_year int_of_str) s k.
Proof.
  unfold astype_int, Pd.dtype_of.
  destruct (forallb Pd.is_int64 s) eqn:H1.
  { intros [= <-]. apply Forall_Forall2_diag, Forall_forall. intros v Hv.
    rewrite forallb_forall in H1. specialize (H1 v). rewrite <- list_elem_of_In in H1.
    specialize (H1 Hv). destruct v as [|n| |]; try done.
    apply in_int64_spec in H1. by exists n. }
  destruct (forallb Pd.is_uint64 s) eqn:H2.
  { intros [= <-]. apply Forall2_fmap_r, Forall_Forall2_diag, Forall_forall.
    intros v Hv. rewrite forallb_forall in H2. specialize (H2 v).
    rewrite <- list_elem_of_In in H2. specialize (H2 Hv).
    destruct v as [|n| |]; try done. exists (wrap_int64 n).
    split; [done|]. split; [apply wrap_int64_range|].
    intros Hn. by apply wrap_int64_fits. }
  destruct (existsb Pd.holds_str s) eqn:H3.
  { intros Hk%mapM_Ok_Forall2. eapply Forall2_impl; [exact Hk|].
    apply astype_int_cell_loaded. }
  destruct (existsb Pd.is_nan s) eqn:H4; [done|]. intros [= <-].
  apply Forall2_fmap_r, Forall_Forall2_diag, Forall_forall. intros v Hv.
  assert (Pd.holds_str v = false ∧ Pd.is_nan v = false) as [Hs Hn].
  { split.
    - destruct (Pd.holds_str v) eqn:E; [|done].
      rewrite <- H3. symmetry. apply existsb_exists. exists v.
      by rewrite <- list_elem_of_In.
    - destruct (Pd.is_nan v) eqn:E; [|done].
      rewrite <- H4. symmetry. apply existsb_exists. exists v.
      by rewrite <- list_elem_of_In. }
  destruct v as [|n|q|]; try done; simpl.
  - destruct (Pd.in_int64 n) eqn:E.
    + apply in_int64_spec in E. by exists n.
    + eexists. split; [done|]. split; [apply wrap_int64_range|].
      intros Hfit%in_int64_spec. congruence.
  - destruct (Pd.in_int64 (trunc q)) eqn:E.
    + apply in_int64_spec in E. by exists (trunc q).
    + eexists. split; [done|]. split; [apply wrap_int64_range|].
      intros Hfit%in_int64_spec. congruence.
Qed.

(** A column of 64-bit integers is returned as it is. *)
Lemma astype_int_int64 s :
  Forall (λ v, ∃ n, v = VInt n ∧ - 2 ^ 63 ≤ n < 2 ^ 63) s →
  astype_int int_of_str cast_out_of_range s = Ok s.
Proof.
  intros Hs. unfold astype_int, Pd.dtype_of.
  assert (forallb Pd.is_int64 s = true) as ->; [|done].
  apply forallb_forall. intros v Hv%list_elem_of_In.
  rewrite Forall_forall in Hs. destruct (Hs v Hv) as (n & -> & Hn).
  by apply in_int64_spec.
Qed.

Lemma astype_int_fixed s k :
  astype_int int_of_str cast_out_of_range s = Ok k →
  astype_int int_of_str cast_out_of_range k = Ok k.
Proof.
  intros Hk%astype_int_Ok. apply astype_int_int64.
  induction Hk as [|v w s k (n & -> & Hn & _) _ IH]; constructor; eauto.
Qed.

(** When [astype(int)] returns: no entry is missing, every text is an
    integer literal that fits in 64 bits, and, in a column that holds a
    text, every number fits as well.  A column of numbers only is never
    checked against the range. *)
Lemma astype_int_returns s :
  (∃ k, astype_int int_of_str cast_out_of_range s = Ok k) ↔
  Forall (λ v, v ≠ VNaN) s
  ∧ ∀ x, VStr x ∈ s →
      (∃ n, int_of_str x = Some n ∧ - 2 ^ 63 ≤ n < 2 ^ 63)
      ∧ Forall fits_int64 s.
Proof.
  split.
  - intros [k Hk]. pose proof (astype_int_Ok s k Hk) as Hall. split.
    + apply Forall_forall. intros v Hv ->.
      apply list_elem_of_lookup in Hv as [i Hi].
      destruct (Forall2_lookup_l _ _ _ _ _ Hall Hi) as (w & _ & n & _ & _ & []).
    + intros x Hx. split.
      * apply list_elem_of_lookup in Hx as [i Hi].
        destruct (Forall2_lookup_l _ _ _ _ _ Hall Hi) as (w & _ & n & _ & Hn & Hs).
        eauto.
      * assert (Pd.dtype_of s = Pd.Object) as Hd by (apply dtype_of_Object; eauto).
        unfold astype_int in Hk. rewrite Hd in Hk.
        apply mapM_Ok_Forall2 in Hk. apply Forall_forall. intros v Hv.
        apply list_elem_of_lookup in Hv as [i Hi].
        destruct (Forall2_lookup_l _ _ _ _ _ Hk Hi)
          as (w & _ & (n & _ & Hn & Hp)%astype_int_cell_Ok).
        destruct v as [|m|q|]; simpl in *; try done; by injection Hp as <-.
  - intros [Hnan Hstr]. unfold astype_int.
    destruct (Pd.dtype_of s) eqn:Hd; eauto.
    + assert (existsb Pd.is_nan s = false) as ->; [|eauto].
      destruct (existsb Pd.is_nan s) eqn:E; [|done].
      apply existsb_exists in E as ([| | |] & Hin%list_elem_of_In & Hv); try done.
      rewrite Forall_forall in Hnan. by destruct (Hnan VNaN Hin).
    + apply dtype_of_Object in Hd as [x Hx].
      destruct (Hstr x Hx) as [_ Hfit].
      apply mapM_Ok_total, Forall_forall. intros v Hv.
      rewrite Forall_forall in Hnan, Hfit.
      specialize (Hnan v Hv). specialize (Hfit v Hv).
      unfold astype_int_cell. destruct v as [y|m|q|]; simpl in *; try done.
      * destruct (Hstr y Hv) as [(n & -> & Hn) _]. simpl.
        by rewrite bool_decide_true.
      * by rewrite bool_decide_true.
      * by rewrite bool_decide_true.
Qed.

Lemma setitem_existing df name j s :
  Pd.column_index name (columns df) = Some j →
  length s = length (rows df) →
  Pd.setitem df name s
  = Ok (mkDataFrame (columns df)
          (zip_with (λ r v, mkRow (label r)
                              (<[j:=v]> (resize (length (columns df)) VNaN (cells r))))
                    (rows df) s)).
Proof. intros Hj Hl. unfold Pd.setitem. rewrite Hj. by destruct (decide _). Qed.

Lemma column_index_lookup name cols j :
  Pd.column_index name cols = Some j → cols !! j = Some name.
Proof.
  unfold Pd.column_index. destruct (list_find _ _) as [[i x]|] eqn:Hf; [|done].
  apply list_find_Some in Hf as (Hl & -> & _). by intros [= <-].
Qed.

(** The cells of a row after the assignment of column [j]. *)
Lemma cell_at_assigned width j v (r : Row) k :
  (j < width)%nat → (k < width)%nat →
  Pd.cell_at k (mkRow (label r) (<[j:=v]> (resize width VNaN (cells r))))
  = if decide (k = j) then v else Pd.cell_at k r.
Proof.
  intros Hj Hk. unfold Pd.cell_at. simpl. destruct (decide (k = j)) as [->|Hne].
  - by rewrite list_lookup_insert_eq by by rewrite length_resize.
  - rewrite list_lookup_insert_ne by done.
    destruct (decide (k < length (cells r))%nat) as [Hlt|Hge].
    + by rewrite lookup_resize by done.
    + rewrite lookup_resize_new by lia.
      by rewrite (lookup_ge_None_2 (cells r) k) by lia.
Qed.

(** What the body of the [try] returns when it returns: the table read,
    with every Year converted and nothing else touched. *)
Lemma load_data_try_Ok read_csv df :
  load_data_try int_of_str cast_out_of_range read_csv = Ok df →
  ∃ df0, read_csv = Ok df0 ∧ columns df = columns df0 ∧
    Forall2 (λ r0 r,
               label r = label r0
               ∧ loaded_year int_of_str (cell df0 "Year" r0) (cell df "Year" r)
               ∧ is_int (cell df "Year" r) = true
               ∧ ∀ name, name ≠ "Year" → cell df name r = cell df0 name r0)
            (rows df0) (rows df).
Proof.
  unfold load_data_try. destruct read_csv as [df0|]; [|done].
  change (Ok df0 ≫= ?f) with (f df0). cbv beta.
  destruct (Pd.column_index "Year" (columns df0)) as [j|] eqn:Hj;
    [|by rewrite getitem_missing].
  rewrite getitem_cell by by rewrite Hj.
  change (Ok ?s ≫= ?f) with (f s). cbv beta.
  destruct (astype_int int_of_str cast_out_of_range _) as [year|] eqn:Hy; [|done].
  change (Ok year ≫= ?f) with (f year). cbv beta.
  apply astype_int_Ok in Hy. rewrite Forall2_fmap_l in Hy.
  pose proof (Forall2_length _ _ _ Hy) as Hlen.
  rewrite (setitem_existing _ _ j) by done. intros [= <-].
  exists df0. split; [done|]. split; [done|].
  pose proof (column_index_lookup _ _ _ Hj) as Hlj.
  apply lookup_lt_Some in Hlj as Hjw.
  unfold cell in *. simpl. rewrite Hj in *. clear Hlen.
  induction Hy as [|r0 v rs vs Hv _ IH]; simpl; constructor; [|exact IH].
  split; [done|].
  rewrite cell_at_assigned by done. rewrite decide_True by done.
  split; [done|]. split; [by destruct Hv as (n & -> & _)|].
  intros name Hname.
  destruct (Pd.column_index name (columns df0)) as [k|] eqn:Hk; [|done].
  pose proof (column_index_lookup _ _ _ Hk) as Hlk.
  apply lookup_lt_Some in Hlk as Hkw.
  rewrite cell_at_assigned by done. rewrite decide_False; [done|].
  intros ->. congruence.
Qed.

(** C9: [load_data] always hands a table to its caller.  Either nothing is
    shown and the table is the one read, row for row, with every Year an
    integer that fits in 64 bits; or one error is shown and the table is
    the empty one.  The second happens whenever the read fails, and
    whenever the Year of some row is missing or is a text that [int]
    rejects: the rows are never silently dropped. *)
Theorem load_data_fail_fast read_csv :
  let out := load_data int_of_str cast_out_of_range read_csv in
  (out.2 = [] ∨
   (out.1 = Pd.empty_frame ∧ ∃ e, out.2 = [StError "Error loading data: " e]))
  ∧ (∀ e, read_csv = Raise e →
       out = (Pd.empty_frame, [StError "Error loading data: " e]))
  ∧ (∀ df0 r, read_csv = Ok df0 → r ∈ rows df0 →
       cell df0 "Year" r = VNaN
       ∨ (∃ s, cell df0 "Year" r = VStr s ∧ int_of_str s = None) →
       out.1 = Pd.empty_frame ∧ ∃ e, out.2 = [StError "Error loading data: " e])
  ∧ (out.2 = [] →
       ∃ df0, read_csv = Ok df0 ∧ columns out.1 = columns df0 ∧
         Forall2 (λ r0 r,
                    label r = label r0
                    ∧ loaded_year int_of_str (cell df0 "Year" r0)
                        (cell out.1 "Year" r)
                    ∧ is_int (cell out.1 "Year" r) = true
                    ∧ ∀ name, name ≠ "Year" → cell out.1 name r = cell df0 name r0)
                 (rows df0) (rows out.1)).
Proof.
  unfold load_data.
  destruct (load_data_try int_of_str cast_out_of_range read_csv)
    as [df|e0] eqn:Htry; simpl.
  - split; [by left|]. split.
    { intros e ->. done. }
    split.
    { intros df0 r -> Hr Hbad. exfalso.
      apply load_data_try_Ok in Htry as (df0' & [= <-] & _ & Hall).
      apply list_elem_of_lookup in Hr as [i Hi].
      destruct (Forall2_lookup_l _ _ _ _ _ Hall Hi)
        as (r' & _ & _ & (n & _ & _ & Hc) & _).
      destruct Hbad as [Hnan|(s & Hs & Hnone)].
      - by rewrite Hnan in Hc.
      - rewrite Hs in Hc. congruence. }
    intros _. by apply load_data_try_Ok.
  - split; [right; eauto|]. split.
    { intros e ->. simpl in Htry. by injection Htry as <-. }
    split; [eauto|done].
Qed.

End Loader.

(** ** The genre rollup *)

Lemma omap_id_Some {A} (l : list A) : omap (M:=list) id (Some <$> l) = l.
Proof. induction l as [|x l IH]; csimpl; [done|]. by rewrite IH. Qed.

Lemma omap_id_None {A} n : omap (M:=list) id (replicate n (@None A)) = [].
Proof. induction n as [|n IH]; csimpl; done. Qed.

(** Splitting with [expand=True] and stacking gives the tokens of the
    entries one after the other: the padding is dropped again. *)
Lemma stack_str_split_expand sep (s : Series) :
  Pd.stack (Pd.str_split_expand sep s)
  = concat ((λ v, match v with VStr x => Py.split sep x | _ => [] end) <$> s).
Proof.
  unfold Pd.stack, Pd.str_split_expand. cbv zeta.
  rewrite <- !list_fmap_compose. f_equal. apply list_fmap_ext.
  intros _ v _. simpl. by rewrite omap_app, omap_id_Some, omap_id_None, app_nil_r.
Qed.

(** Under either implementation, the entries of the stacked series that
    are not missing are the cells that [stack] gives. *)
Lemma stack_cells_present dropna (table : list (list (option string))) :
  omap text_of (Pd.stack_cells dropna table) = Pd.stack table.
Proof.
  unfold Pd.stack_cells, Pd.stack.
  induction table as [|line table IH]; [done|]. csimpl.
  rewrite omap_app, IH. f_equal. clear IH.
  induction line as [|c line IH]; [done|]. csimpl.
  destruct c as [x|]; csimpl; [by rewrite IH|].
  destruct dropna; csimpl; by rewrite IH.
Qed.

Section Unique.

Context {A : Type} (eqb : A → A → bool).
Hypothesis eqb_eq : ∀ x y, eqb x y = true ↔ x = y.

Lemma existsb_eqb x seen : existsb (eqb x) seen = true ↔ x ∈ seen.
Proof.
  rewrite existsb_exists. setoid_rewrite eqb_eq.
  setoid_rewrite <- list_elem_of_In. split; [by intros (? & ? & ->)|eauto].
Qed.

Lemma elem_of_unique_from seen l x :
  x ∈ Pd.unique_from eqb seen l ↔ x ∈ l ∧ x ∉ seen.
Proof.
  revert seen. induction l as [|y l IH]; intros seen; simpl.
  - rewrite elem_of_nil. tauto.
  - destruct (existsb (eqb y) seen) eqn:He.
    + apply existsb_eqb in He. rewrite IH, elem_of_cons.
      split; [tauto|]. intros [[->|?] ?]; tauto.
    + assert (y ∉ seen) as Hy by (rewrite <- existsb_eqb; congruence).
      rewrite !elem_of_cons, IH, elem_of_cons.
      destruct (existsb (eqb x) [y]) eqn:Hxy.
      * apply existsb_eqb, list_elem_of_singleton in Hxy as ->. tauto.
      * assert (x ≠ y).
        { intros ->. rewrite <- not_true_iff_false in Hxy. apply Hxy.
          apply existsb_eqb. by left. }
        tauto.
Qed.

Lemma NoDup_unique_from seen l : NoDup (Pd.unique_from eqb seen l).
Proof.
  revert seen. induction l as [|y l IH]; intros seen; simpl; [constructor|].
  destruct (existsb (eqb y) seen); [done|]. constructor; [|done].
  rewrite elem_of_unique_from, elem_of_cons. tauto.
Qed.

Lemma elem_of_unique l x : x ∈ Pd.unique eqb l ↔ x ∈ l.
Proof.
  unfold Pd.unique. rewrite elem_of_unique_from, elem_of_nil. tauto.
Qed.

Lemma NoDup_unique l : NoDup (Pd.unique eqb l).
Proof. apply NoDup_unique_from. Qed.

End Unique.

Global Instance by_count_desc_total : Total Pd.by_count_desc.
Proof. intros a b. unfold Pd.by_count_desc. lia. Qed.

Global Instance by_count_desc_trans : Transitive Pd.by_count_desc.
Proof. intros a b c. unfold Pd.by_count_desc. lia. Qed.

(** [value_counts]: one line per distinct entry, carrying its number of
    occurrences, the lines in descending order of count. *)
Lemma value_counts_spec (l : list string) :
  (∀ g n, (g, n) ∈ Pd.value_counts l ↔ g ∈ l ∧ n = Pd.count_of g l)
  ∧ NoDup (Pd.value_counts l).*1
  ∧ StronglySorted Pd.by_count_desc (Pd.value_counts l).
Proof.
  unfold Pd.value_counts.
  set (lines := (λ g, (g, Pd.count_of g l)) <$> Pd.unique String.eqb l).
  pose proof (merge_sort_Permutation Pd.by_count_desc lines) as Hperm.
  split; [|split].
  - intros g n. rewrite Hperm. unfold lines. rewrite list_elem_of_fmap.
    setoid_rewrite (elem_of_unique String.eqb String.eqb_eq). split.
    + by intros (g' & [= -> ->] & Hg).
    + intros [Hg ->]. eauto.
  - rewrite Hperm. unfold lines. rewrite <- list_fmap_compose.
    rewrite (list_fmap_ext _ id (Pd.unique String.eqb l)) by done.
    rewrite list_fmap_id. apply (NoDup_unique String.eqb String.eqb_eq).
  - apply StronglySorted_merge_sort; apply _.
Qed.

Lemma count_of_pos g l : g ∈ l → (0 < Pd.count_of g l)%nat.
Proof.
  unfold Pd.count_of. intros Hg.
  assert (g ∈ filter (λ t, t = g) l) as Hin by by apply list_elem_of_filter.
  destruct (filter _ l); [by apply elem_of_nil in Hin|simpl; lia].
Qed.



(** * Further properties of the script *)

(** ** The filter engine, row by row *)

Lemma type_ok_exists tf df r :
  type_ok tf df r = true ↔
  ∃ t, t ∈ tf ∧ Pd.value_eqb (cell df "Type" r) t = true.
Proof.
  unfold type_ok. rewrite existsb_exists.
  by setoid_rewrite list_elem_of_In.
Qed.

(** What the filter engine keeps: on a Content Table, a row is in the result
    exactly when it is a row of the table whose Type is among the selected
    ones, whose Year lies in the range, bounds included, and, when some
    genre is selected, whose Genre(s) text contains a selected genre as a
    substring. *)
Theorem apply_filters_keeps_exactly tf gf lo hi df :
  content_table df = true →
  ∃ S, apply_filters tf gf (lo, hi) df = Ok S ∧
    ∀ r, r ∈ rows S ↔
      r ∈ rows df
      ∧ (∃ t, t ∈ tf ∧ Pd.value_eqb (cell df "Type" r) t = true)
      ∧ (∃ y, cell df "Year" r = VInt y ∧ lo ≤ y ≤ hi)
      ∧ (gf = [] ∨ ∃ g s, g ∈ gf ∧ cell df "Genre(s)" r = VStr s
                          ∧ Py.contains g s = true).
Proof.
  intros Hct.
  pose proof (content_table_runs tf gf (lo, hi) df Hct) as Hruns.
  apply content_table_inv in Hct as (_ & _ & _ & _ & Hyear & Hgenre & _).
  rewrite Forall_forall in Hyear, Hgenre.
  eexists. split; [apply apply_filters_Ok; by split|].
  intros r. simpl. rewrite elem_of_filter_bool. unfold keep.
  rewrite !andb_true_iff, type_ok_exists.
  split.
  - intros (Hr & [Ht Hy] & Hg). split; [done|]. split; [done|].
    specialize (Hyear r Hr). specialize (Hgenre r Hr).
    destruct (cell df "Year" r) as [| y | |] eqn:Hcy; try done.
    destruct (cell df "Genre(s)" r) as [s| | |] eqn:Hcg; try done.
    split; [exists y; split; [done|]; by apply (year_ok_int lo hi df r y)|].
    destruct gf as [|g0 gf']; [by left|right].
    apply (genre_ok_substring (g0 :: gf') df r s) in Hg as (g & Hin & Hc); [|done..].
    eauto.
  - intros (Hr & Ht & (y & Hcy & Hy) & Hg). split; [done|].
    split; [split; [done|by apply (year_ok_int lo hi df r y)]|].
    destruct Hg as [->|(g & s & Hin & Hcg & Hc)]; [done|].
    apply (genre_ok_substring gf df r s); [by intros ->; inversion Hin|done|eauto].
Qed.

Lemma apply_filters_keeps_exactly_witness :
  ∃ S, apply_filters [VStr "Movie"] ["Comedy"] (2019, 2021) sample_table = Ok S ∧
    ∀ r, r ∈ rows S ↔
      r ∈ rows sample_table
      ∧ (∃ t, t ∈ [VStr "Movie"]
              ∧ Pd.value_eqb (cell sample_table "Type" r) t = true)
      ∧ (∃ y, cell sample_table "Year" r = VInt y ∧ 2019 ≤ y ≤ 2021)
      ∧ (["Comedy"] = [] ∨
         ∃ g s, g ∈ ["Comedy"] ∧ cell sample_table "Genre(s)" r = VStr s
                ∧ Py.contains g s = true).
Proof.
  apply (apply_filters_keeps_exactly [VStr "Movie"] ["Comedy"] 2019 2021 sample_table).
  reflexivity.
Defined.

Lemma column_index_None name cols :
  name ∉ cols → Pd.column_index name cols = None.
Proof.
  intros Hn. destruct (Pd.column_index name cols) as [j|] eqn:Hj; [|done].
  exfalso. apply Hn, column_index_is_Some. by rewrite Hj.
Qed.

(** A table that lacks the Type or the Year column makes the filter engine
    raise [KeyError] on the first of the two that is missing, whatever the
    selection. *)
Theorem apply_filters_missing_column tf gf yr df :
  "Type" ∉ columns df ∨ "Year" ∉ columns df →
  apply_filters tf gf yr df
  = Raise (KeyError (if decide ("Type" ∈ columns df) then "Year" else "Type")).
Proof.
  intros Hmiss. unfold apply_filters.
  destruct (decide ("Type" ∈ columns df)) as [Ht|Ht].
  - destruct Hmiss as [?|Hy]; [done|].
    rewrite getitem_cell by by apply column_index_is_Some.
    change (Ok ?s ≫= ?f) with (f s). cbv beta.
    unfold Pd.isin. rewrite <- list_fmap_compose, getitem_bool_fmap.
    change (Ok ?s ≫= ?f) with (f s). cbv beta.
    rewrite getitem_missing; [done|]. by apply column_index_None.
  - rewrite getitem_missing; [done|]. by apply column_index_None.
Qed.

Lemma apply_filters_missing_column_witness :
  apply_filters [VStr "Movie"] [] (2019, 2021) Pd.empty_frame
  = Raise (KeyError "Type")
  ∧ apply_filters [VStr "Movie"] [] (2019, 2021) (mkDataFrame ["Type"] [])
    = Raise (KeyError "Year").
Proof.
  split.
  - apply (apply_filters_missing_column [VStr "Movie"] [] (2019, 2021) Pd.empty_frame).
    left. by intros ?%elem_of_nil.
  - apply (apply_filters_missing_column [VStr "Movie"] [] (2019, 2021)
             (mkDataFrame ["Type"] [])).
    right. simpl. by intros [=]%list_elem_of_singleton.
Defined.

(** A record without a genre breaks the genre filter: when some genre is
    selected and a row that passes the Type and Year tests holds no text in
    Genre(s) (a missing value), [apply_filters] raises instead of returning
    a subset. *)
Theorem apply_filters_missing_genre_raises tf gf yr df r :
  gf ≠ [] → r ∈ rows df →
  type_ok tf df r = true → year_ok yr df r = true →
  is_str (cell df "Genre(s)" r) = false →
  raises (apply_filters tf gf yr df) = true.
Proof.
  intros Hgf Hr Ht Hy Hg.
  destruct (apply_filters tf gf yr df) as [S|e] eqn:Ha; [|done].
  apply apply_filters_Ok in Ha as [(_ & _ & _ & _ & Hall) _].
  rewrite Forall_forall in Hall. specialize (Hall r Hr Ht Hy Hgf).
  apply any_genre_in_runs in Hall; [congruence|done].
Qed.

Lemma apply_filters_missing_genre_raises_witness :
  raises (apply_filters [VStr "Movie"] ["Comedy"] (2019, 2021) missing_genre_table)
  = true.
Proof.
  apply (apply_filters_missing_genre_raises [VStr "Movie"] ["Comedy"] (2019, 2021)
           missing_genre_table
           (mkRow 1 [VStr "Echo"; VStr "Movie"; VInt 2020; VNaN; VFloat 3]));
    [done|unfold missing_genre_table; simpl; repeat constructor|reflexivity..].
Defined.

Lemma filter_ext_bool {A} (g h : A → bool) (l : list A) :
  (∀ x, g x = h x) → List.filter g l = List.filter h l.
Proof. intros Hgh. induction l as [|x l IH]; simpl; [done|]. by rewrite Hgh, IH. Qed.

Lemma apply_filters_content_Ok tf gf yr df :
  content_table df = true →
  apply_filters tf gf yr df
  = Ok (mkDataFrame (if keeps_header tf gf yr df then columns df else [])
          (List.filter (keep tf gf yr df) (rows df))).
Proof. intros Hct. by apply apply_filters_returns, content_table_runs. Qed.

(** Filtering a subset that has the header of the table. *)
Lemma apply_filters_subset tf gf yr df l :
  content_table df = true →
  gf = [] ∨ List.filter (keep tf gf yr df) l ≠ [] →
  l `sublist_of` rows df →
  apply_filters tf gf yr (mkDataFrame (columns df) l)
  = Ok (mkDataFrame (columns df) (List.filter (keep tf gf yr df) l)).
Proof.
  intros (Ht & Hy & Hg & Hr & H1 & H2 & H3)%content_table_inv Hne Hsub.
  set (T := mkDataFrame (columns df) l).
  assert (content_table T = true) as HctT.
  { apply content_table_intro; try done; simpl.
    - eapply (Forall_impl (λ r, r ∈ rows df)).
      + apply Forall_forall. intros r Hin. by eapply elem_of_sublist.
      + intros r Hin. rewrite Forall_forall in H1. by apply H1.
    - eapply (Forall_impl (λ r, r ∈ rows df)).
      + apply Forall_forall. intros r Hin. by eapply elem_of_sublist.
      + intros r Hin. rewrite Forall_forall in H2. by apply H2.
    - eapply (Forall_impl (λ r, r ∈ rows df)).
      + apply Forall_forall. intros r Hin. by eapply elem_of_sublist.
      + intros r Hin. rewrite Forall_forall in H3. by apply H3. }
  rewrite (apply_filters_content_Ok tf gf yr T HctT).
  by rewrite (keeps_header_true tf gf yr T Hne).
Qed.

(** Two selections applied one after the other give the same subset in
    either order, the rows of the table that both selections keep, when no
    genre is selected in either or when some row is kept by both.  (With a
    genre selected and no row left, the header is lost on the way and the
    order matters.) *)
Theorem apply_filters_commute tf1 gf1 yr1 tf2 gf2 yr2 df S1 S2 :
  content_table df = true →
  apply_filters tf1 gf1 yr1 df = Ok S1 →
  apply_filters tf2 gf2 yr2 df = Ok S2 →
  (gf1 = [] ∧ gf2 = []) ∨ (∃ r, r ∈ rows S1 ∧ r ∈ rows S2) →
  ∃ S, apply_filters tf2 gf2 yr2 S1 = Ok S
       ∧ apply_filters tf1 gf1 yr1 S2 = Ok S
       ∧ columns S = columns df
       ∧ ∀ r, r ∈ rows S ↔ r ∈ rows S1 ∧ r ∈ rows S2.
Proof.
  intros Hct H1 H2 Hcommon.
  set (k1 := keep tf1 gf1 yr1 df). set (k2 := keep tf2 gf2 yr2 df).
  assert (∀ r, r ∈ rows S1 ↔ r ∈ rows df ∧ k1 r = true) as M1
    by (intros r; by apply apply_filters_elem_of).
  assert (∀ r, r ∈ rows S2 ↔ r ∈ rows df ∧ k2 r = true) as M2
    by (intros r; by apply apply_filters_elem_of).
  assert (gf1 = [] ∧ gf2 = []
          ∨ ∃ r, r ∈ rows df ∧ k1 r = true ∧ k2 r = true) as Hboth.
  { destruct Hcommon as [?|(r & Hr1%M1 & Hr2%M2)]; [by left|right].
    exists r. tauto. }
  assert (∀ r, r ∈ List.filter k2 (List.filter k1 (rows df))
               ↔ r ∈ rows df ∧ k1 r = true ∧ k2 r = true) as M12.
  { intros r. rewrite !elem_of_filter_bool. tauto. }
  assert (∀ r, r ∈ List.filter k1 (List.filter k2 (rows df))
               ↔ r ∈ rows df ∧ k1 r = true ∧ k2 r = true) as M21.
  { intros r. rewrite !elem_of_filter_bool. tauto. }
  clear M1 M2 Hcommon.
  apply apply_filters_Ok in H1 as [_ ->]. apply apply_filters_Ok in H2 as [_ ->].
  fold k1 k2.
  rewrite (keeps_header_true tf1 gf1 yr1 df), (keeps_header_true tf2 gf2 yr2 df).
  2:{ destruct Hboth as [[_ ->]|(r & Hr & _ & Hk)]; [by left|right].
      fold k2. intros E. assert (r ∈ List.filter k2 (rows df)) as Hin
        by by apply elem_of_filter_bool.
      rewrite E in Hin. by apply elem_of_nil in Hin. }
  2:{ destruct Hboth as [[-> _]|(r & Hr & Hk & _)]; [by left|right].
      fold k1. intros E. assert (r ∈ List.filter k1 (rows df)) as Hin
        by by apply elem_of_filter_bool.
      rewrite E in Hin. by apply elem_of_nil in Hin. }
  exists (mkDataFrame (columns df) (List.filter k2 (List.filter k1 (rows df)))).
  split; [|split; [|split; [done|]]].
  - apply (apply_filters_subset tf2 gf2 yr2 df); [done| |apply filter_sublist].
    destruct Hboth as [[_ ->]|(r & Hr)]; [by left|right].
    fold k2. intros E. apply M12 in Hr. rewrite E in Hr.
    by apply elem_of_nil in Hr.
  - rewrite (apply_filters_subset tf1 gf1 yr1 df); [|done| |apply filter_sublist].
    + fold k1. rewrite !filter_filter. do 2 f_equal. apply filter_ext_bool.
      intros r. apply andb_comm.
    + destruct Hboth as [[-> _]|(r & Hr)]; [by left|right].
      fold k1. intros E. apply M21 in Hr. rewrite E in Hr.
      by apply elem_of_nil in Hr.
  - intros r. simpl. rewrite M12, !elem_of_filter_bool. tauto.
Qed.

Lemma apply_filters_commute_witness :
  ∃ S,
    apply_filters [VStr "Movie"; VStr "TV Show"] ["Drama"] (2019, 2020)
      (mkDataFrame header
         [ record 0 "Alpha" "Movie" 2019 "Comedy, Drama" 4.5;
           record 2 "Charlie" "Movie" 2021 "Romantic Comedy" 4 ]) = Ok S
    ∧ apply_filters [VStr "Movie"] [] (2019, 2021)
        (mkDataFrame header
           [ record 0 "Alpha" "Movie" 2019 "Comedy, Drama" 4.5;
             record 1 "Bravo" "TV Show" 2020 "Drama, Action" 3 ]) = Ok S
    ∧ columns S = columns sample_table
    ∧ ∀ r, r ∈ rows S ↔
           r ∈ [ record 0 "Alpha" "Movie" 2019 "Comedy, Drama" 4.5;
                 record 2 "Charlie" "Movie" 2021 "Romantic Comedy" 4 ]
           ∧ r ∈ [ record 0 "Alpha" "Movie" 2019 "Comedy, Drama" 4.5;
                   record 1 "Bravo" "TV Show" 2020 "Drama, Action" 3 ].
Proof.
  apply (apply_filters_commute [VStr "Movie"] [] (2019, 2021)
           [VStr "Movie"; VStr "TV Show"] ["Drama"] (2019, 2020) sample_table
           (mkDataFrame header
              [ record 0 "Alpha" "Movie" 2019 "Comedy, Drama" 4.5;
                record 2 "Charlie" "Movie" 2021 "Romantic Comedy" 4 ])
           (mkDataFrame header
              [ record 0 "Alpha" "Movie" 2019 "Comedy, Drama" 4.5;
                record 1 "Bravo" "TV Show" 2020 "Drama, Action" 3 ]));
    [reflexivity..|].
  right. exists (record 0 "Alpha" "Movie" 2019 "Comedy, Drama" 4.5).
  split; simpl; by left.
Defined.

(** Selecting more Types or widening the Year range only adds rows: the
    subset under the smaller selection is a sub-sequence of the subset under
    the larger one. *)
Theorem apply_filters_monotone_types_years tf tf' gf lo hi lo' hi' df :
  content_table df = true →
  tf ⊆ tf' → lo' ≤ lo → hi ≤ hi' →
  ∃ S S', apply_filters tf gf (lo, hi) df = Ok S
          ∧ apply_filters tf' gf (lo', hi') df = Ok S'
          ∧ rows S `sublist_of` rows S'.
Proof.
  intros Hct Hsub Hlo Hhi.
  do 2 eexists. split; [by apply apply_filters_content_Ok|].
  split; [by apply apply_filters_content_Ok|]. simpl.
  apply content_table_inv in Hct as (_ & _ & _ & _ & Hyear & _).
  rewrite Forall_forall in Hyear.
  apply filter_sublist_mono. intros r Hr. unfold keep.
  rewrite !andb_true_iff, !type_ok_exists. intros [[(t & Hin & Ht) Hy] Hg].
  split; [split|done].
  - exists t. split; [by apply Hsub|done].
  - specialize (Hyear r Hr).
    destruct (cell df "Year" r) as [| y | |] eqn:Hcy; try done.
    apply (year_ok_int lo' hi' df r y Hcy).
    apply (year_ok_int lo hi df r y Hcy) in Hy. lia.
Qed.

Lemma apply_filters_monotone_types_years_witness :
  ∃ S S', apply_filters [VStr "Movie"] [] (2020, 2021) sample_table = Ok S
          ∧ apply_filters [VStr "Movie"; VStr "TV Show"] [] (2019, 2021)
              sample_table = Ok S'
          ∧ rows S `sublist_of` rows S'.
Proof.
  apply (apply_filters_monotone_types_years
           [VStr "Movie"] [VStr "Movie"; VStr "TV Show"] [] 2020 2021 2019 2021
           sample_table); [reflexivity| |lia|lia].
  intros t ->%list_elem_of_singleton. by left.
Defined.

(** ** The sidebar options *)

Lemma unique_from_elem_of {A} (eqb : A → A → bool) seen l y :
  y ∈ Pd.unique_from eqb seen l → y ∈ l.
Proof.
  revert seen. induction l as [|x l IH]; intros seen; simpl; [done|].
  destruct (existsb (eqb x) seen).
  - intros ?%IH. by right.
  - intros [->|?%IH]%elem_of_cons; [by left|by right].
Qed.

(** Every entry is matched by an entry that [unique] kept. *)
Lemma unique_from_covers {A} (eqb : A → A → bool) seen l x :
  (∀ a, eqb a a = true) → x ∈ l →
  ∃ y, (y ∈ seen ∨ y ∈ Pd.unique_from eqb seen l) ∧ eqb x y = true.
Proof.
  intros Hrefl. revert seen. induction l as [|a l IH]; intros seen Hx; simpl.
  { by apply elem_of_nil in Hx. }
  apply elem_of_cons in Hx as [->|Hx].
  - destruct (existsb (eqb a) seen) eqn:He.
    + apply existsb_exists in He as (y & Hy & Hay).
      exists y. split; [left; by apply list_elem_of_In|done].
    + exists a. split; [right; by left|done].
  - destruct (existsb (eqb a) seen) eqn:He.
    + by apply IH.
    + destruct (IH (a :: seen) Hx) as (y & [Hy|Hy] & Hxy).
      * apply elem_of_cons in Hy as [->|Hy].
        -- exists a. split; [right; by left|done].
        -- exists y. by split; [left|].
      * exists y. split; [right; by right|done].
Qed.

Lemma value_eqb_refl v : Pd.value_eqb v v = true.
Proof.
  destruct v; simpl; try by apply bool_decide_eq_true.
  - by apply Qeq_bool_iff.
  - done.
Qed.

Lemma ints_of_series (l : Series) :
  Forall (λ v, is_int v = true) l → ∃ ys, l = VInt <$> ys.
Proof.
  induction 1 as [|v l Hv _ [ys ->]]; [by exists []|].
  destruct v as [| y | |]; try done. by exists (y :: ys).
Qed.

(** The extremum of a non-empty integer series is one of its entries and is
    in relation with all of them. *)
Lemma extremum_ints (better : value → value → bool) (R : relation Z)
    `{!RelDecision R} ys :
  (∀ a b, better (VInt a) (VInt b) = bool_decide (R a b)) →
  (∀ a, R a a) → (∀ a b c, R a b → R b c → R a c) → (∀ a b, R a b ∨ R b a) →
  ys ≠ [] →
  ∃ m, Pd.extremum better (VInt <$> ys) = Ok (VInt m) ∧ m ∈ ys
       ∧ ∀ y, y ∈ ys → R m y.
Proof.
  intros Hb Hrefl Htrans Htotal. induction ys as [|a ys IH]; [done|]. intros _.
  destruct ys as [|b ys].
  - exists a. split; [done|]. split; [by left|].
    by intros y ->%list_elem_of_singleton.
  - destruct IH as (m & Hm & Hin & Hle); [done|].
    change (Pd.extremum better (VInt <$> a :: b :: ys))
      with (m' ← Pd.extremum better (VInt <$> b :: ys);
            match VInt a, m' with
            | VStr _, _ | _, VStr _ =>
                Raise (TypeError "'<=' not supported between instances of 'str' and 'int'")
            | VNaN, _ => Ok m'
            | _, VNaN => Ok (VInt a)
            | _, _ => Ok (if better (VInt a) m' then VInt a else m')
            end).
    rewrite Hm. change (Ok ?s ≫= ?f) with (f s). cbv beta iota.
    rewrite Hb. destruct (bool_decide (R a m)) eqn:Ham.
    + apply bool_decide_eq_true in Ham. exists a. split; [done|].
      split; [by left|]. intros y [->|Hy]%elem_of_cons; [done|].
      eapply Htrans; [exact Ham|by apply Hle].
    + apply bool_decide_eq_false in Ham. exists m. split; [done|].
      split; [by right|]. intros y [->|Hy]%elem_of_cons; [|by apply Hle].
      destruct (Htotal m a); [done|contradiction].
Qed.

Lemma genre_tokens_stack df :
  Pd.stack (Pd.str_split_expand ", " (cell df "Genre(s)" <$> rows df))
  = genre_tokens df.
Proof.
  rewrite stack_str_split_expand, <- list_fmap_compose. done.
Qed.

Lemma split_nonempty sep s : ∃ t ts, Py.split sep s = t :: ts.
Proof.
  unfold Py.split. destruct (String.length s) as [|n]; cbn [Py.split_fuel].
  - eauto.
  - destruct (Py.find sep s); eauto.
Qed.

Lemma elem_of_genre_tokens df g :
  g ∈ genre_tokens df ↔
  ∃ r, r ∈ rows df ∧ g ∈ tokens_of (cell df "Genre(s)" r).
Proof.
  unfold genre_tokens. rewrite list_elem_of_In, in_concat. split.
  - intros (ts & Hts & Hg). apply list_elem_of_In, list_elem_of_fmap in Hts
      as (r & -> & Hr). exists r. split; [done|by apply list_elem_of_In].
  - intros (r & Hr & Hg). eexists. split; [|by apply list_elem_of_In].
    apply list_elem_of_In, list_elem_of_fmap. eauto.
Qed.

(** *** What [stack] returns on the split genres *)

Lemma lt_max_list k (l : list nat) :
  (k < max_list l)%nat ↔ ∃ n, n ∈ l ∧ (k < n)%nat.
Proof.
  induction l as [|m l IH]; simpl.
  - split; [lia|]. by intros (n & ?%elem_of_nil & _).
  - split.
    + intros Hk. destruct (decide (k < m)%nat) as [Hm|Hm].
      * exists m. split; [by left|done].
      * destruct IH as [(n & Hn & Hkn) _]; [lia|].
        exists n. split; [by right|done].
    + intros (n & [->|Hn]%elem_of_cons & Hkn); [lia|].
      assert (k < max_list l)%nat by (apply IH; eauto). lia.
Qed.

(** One line of the split table, stacked: its tokens, followed by the
    padding when it is kept. *)
Lemma stack_cells_line dropna (t : list string) k :
  omap (M:=list) (Pd.stack_cell dropna) ((Some <$> t) ++ replicate k None)%list
  = ((VStr <$> t) ++ if dropna then [] else replicate k VNaN)%list.
Proof.
  induction t as [|x t IH]; csimpl.
  - induction k as [|k IH]; csimpl; [by destruct dropna|].
    rewrite IH. by destruct dropna.
  - by rewrite IH.
Qed.

Lemma stack_cells_split dropna df :
  Pd.stack_cells dropna (Pd.str_split_expand ", " (cell df "Genre(s)" <$> rows df))
  = concat ((λ r, let t := tokens_of (cell df "Genre(s)" r) in
                  (VStr <$> t) ++
                  if dropna then []
                  else replicate
                         (max_list ((λ r, length (tokens_of (cell df "Genre(s)" r)))
                                      <$> rows df) - length t) VNaN)%list
              <$> rows df).
Proof.
  unfold Pd.stack_cells, Pd.str_split_expand. cbv zeta.
  rewrite <- !list_fmap_compose. f_equal. apply list_fmap_ext.
  intros _ r _. simpl. rewrite stack_cells_line. done.
Qed.

(** The entries of the stacked series: the genre tokens, and a missing
    value when the padding is kept and some record lists fewer genres than
    another. *)
Lemma elem_of_stack_cells dropna df v :
  v ∈ Pd.stack_cells dropna
        (Pd.str_split_expand ", " (cell df "Genre(s)" <$> rows df)) ↔
  (∃ g, v = VStr g ∧ g ∈ genre_tokens df)
  ∨ (v = VNaN ∧ dropna = false
     ∧ ∃ r r', r ∈ rows df ∧ r' ∈ rows df
         ∧ (length (tokens_of (cell df "Genre(s)" r))
            < length (tokens_of (cell df "Genre(s)" r')))%nat).
Proof.
  rewrite stack_cells_split. cbv zeta.
  set (width := max_list _).
  assert (∀ r, (length (tokens_of (cell df "Genre(s)" r)) < width)%nat ↔
               ∃ r', r' ∈ rows df
                 ∧ (length (tokens_of (cell df "Genre(s)" r))
                    < length (tokens_of (cell df "Genre(s)" r')))%nat) as Hw.
  { intros r. unfold width. rewrite lt_max_list.
    setoid_rewrite list_elem_of_fmap. split.
    - intros (n & (r' & -> & Hr') & Hlt). eauto.
    - intros (r' & Hr' & Hlt). eauto. }
  rewrite list_elem_of_In, in_concat. setoid_rewrite <- list_elem_of_In.
  setoid_rewrite list_elem_of_fmap. split.
  - intros (line & (r & -> & Hr) & [Hv|Hv]%elem_of_app).
    + apply list_elem_of_fmap in Hv as (g & -> & Hg). left. exists g.
      split; [done|]. apply elem_of_genre_tokens. eauto.
    + right. destruct dropna; [by apply elem_of_nil in Hv|].
      apply elem_of_replicate in Hv as [-> Hk]. split; [done|]. split; [done|].
      destruct (Hw r) as [(r' & Hr' & Hlt) _]; [lia|]. eauto.
  - intros [(g & -> & (r & Hr & Hg)%elem_of_genre_tokens)
           |(-> & -> & r & r' & Hr & Hr' & Hlt)].
    + eexists. split; [exists r; split; [reflexivity|exact Hr]|].
      apply elem_of_app. left. apply list_elem_of_fmap. eauto.
    + eexists. split; [exists r; split; [reflexivity|exact Hr]|].
      apply elem_of_app. right.
      apply elem_of_replicate. split; [done|].
      destruct (Hw r) as [_ Hlt']. specialize (Hlt' (ex_intro _ r' (conj Hr' Hlt))).
      lia.
Qed.

(** *** [unique] on a series of texts and missing values *)

Lemma unique_from_fmap {A B} (f : A → B) (eqa : A → A → bool)
    (eqb : B → B → bool) seen l :
  (∀ a b, eqb (f a) (f b) = eqa a b) →
  Pd.unique_from eqb (f <$> seen) (f <$> l) = f <$> Pd.unique_from eqa seen l.
Proof.
  intros Hf. revert seen. induction l as [|x l IH]; intros seen; csimpl; [done|].
  assert (existsb (eqb (f x)) (f <$> seen) = existsb (eqa x) seen) as ->.
  { induction seen as [|y seen IHs]; csimpl; [done|]. by rewrite Hf, IHs. }
  destruct (existsb (eqa x) seen); [apply IH|].
  csimpl. f_equal. apply (IH (x :: seen)).
Qed.

Lemma stack_cells_texts dropna table :
  ∃ l, Pd.stack_cells dropna table = cell_of <$> l.
Proof.
  unfold Pd.stack_cells. induction table as [|line table [l Hl]]; csimpl.
  - by exists [].
  - rewrite Hl.
    assert (∃ k, omap (M:=list) (Pd.stack_cell dropna) line = cell_of <$> k)
      as [k ->].
    { induction line as [|c line [k Hk]]; csimpl; [by exists []|].
      rewrite Hk. destruct c as [x|]; [by exists (Some x :: k)|].
      destruct dropna; [by exists k|by exists (None :: k)]. }
    exists (k ++ l)%list. by rewrite fmap_app.
Qed.

(** [unique] keeps one copy of every entry of such a series. *)
Lemma unique_texts (l : list (option string)) :
  NoDup (Pd.unique Pd.value_eqb (cell_of <$> l))
  ∧ ∀ v, v ∈ Pd.unique Pd.value_eqb (cell_of <$> l) ↔ v ∈ cell_of <$> l.
Proof.
  set (eqa := λ a b : option string, bool_decide (a = b)).
  assert (∀ a b, eqa a b = true ↔ a = b) as Heq
    by (intros; apply bool_decide_eq_true).
  assert (Pd.unique Pd.value_eqb (cell_of <$> l) = cell_of <$> Pd.unique eqa l)
    as ->.
  { apply (unique_from_fmap cell_of eqa Pd.value_eqb [] l).
    intros [x|] [y|]; unfold eqa; simpl; try done.
    apply bool_decide_ext. split; congruence. }
  split.
  - apply NoDup_fmap_2; [|apply (NoDup_unique eqa Heq)].
    intros [x|] [y|]; simpl; congruence.
  - intros v. rewrite !list_elem_of_fmap.
    by setoid_rewrite (elem_of_unique eqa Heq).
Qed.

Section Sidebar.

Variable int_of_str : string → option Z.
Variable stack_dropna : bool.

(** The sidebar of a Content Table with at least one row. *)
Lemma sidebar_content_table df :
  content_table df = true → rows df ≠ [] →
  ∃ lo hi,
    sidebar int_of_str stack_dropna df
    = Ok (mkOptions (Pd.unique Pd.value_eqb (cell df "Type" <$> rows df))
            (Pd.unique Pd.value_eqb
               (Pd.stack_cells stack_dropna
                  (Pd.str_split_expand ", " (cell df "Genre(s)" <$> rows df))))
            lo hi)
    ∧ (∃ r, r ∈ rows df ∧ cell df "Year" r = VInt lo)
    ∧ (∃ r, r ∈ rows df ∧ cell df "Year" r = VInt hi)
    ∧ ∀ r y, r ∈ rows df → cell df "Year" r = VInt y → lo ≤ y ≤ hi.
Proof.
  intros (Ht & Hy & Hg & _ & Hyear & _)%content_table_inv Hrows.
  assert (Forall (λ v, is_int v = true) (cell df "Year" <$> rows df)) as Hints
    by by rewrite Forall_fmap.
  destruct (ints_of_series _ Hints) as [ys Hys].
  assert (ys ≠ []) as Hne.
  { intros ->. destruct (rows df); [done|discriminate]. }
  destruct (extremum_ints Pd.num_le Z.le ys) as (lo & Hlo & Hloin & Hlole);
    [done|intros; lia..|done|].
  destruct (@extremum_ints (flip Pd.num_le) (λ a b, b ≤ a)
              (λ a b, decide (b ≤ a)) ys)
    as (hi & Hhi & Hhiin & Hhile);
    [done|intros; lia..|done|].
  assert (∀ y, y ∈ ys ↔ ∃ r, r ∈ rows df ∧ cell df "Year" r = VInt y) as Hmem.
  { intros y. transitivity (VInt y ∈ cell df "Year" <$> rows df).
    - rewrite Hys, list_elem_of_fmap. split; [eauto|].
      by intros (y' & [= ->] & ?).
    - rewrite list_elem_of_fmap. split; intros (r & ? & ?); eauto. }
  exists lo, hi. split; [|split; [by apply Hmem|split; [by apply Hmem|]]].
  - unfold sidebar. rewrite !getitem_cell by by apply column_index_is_Some.
    repeat (change (Ok ?s ≫= ?f) with (f s); cbv beta zeta).
    unfold Pd.min, Pd.max. rewrite Hys, Hlo.
    repeat (change (Ok ?s ≫= ?f) with (f s); cbv beta zeta).
    rewrite Hhi. done.
  - intros r y Hr Hcy. assert (y ∈ ys) as Hin by (apply Hmem; eauto).
    specialize (Hlole y Hin). specialize (Hhile y Hin). simpl in Hhile. lia.
Qed.

(** The options derived on a Content Table with at least one row.  The
    Genres options hold no entry twice; the texts among them are the genre
    tokens of the table; besides texts they hold at most a missing value,
    which is there exactly when [stack] keeps the padding and some record
    lists fewer genres than another.  Every Type of the table is among the
    Type options and every Type option is the Type of some row; the slider
    bounds are the least and the greatest Year of the table. *)
Theorem sidebar_options_spec df :
  content_table df = true → rows df ≠ [] →
  ∃ o, sidebar int_of_str stack_dropna df = Ok o
    ∧ NoDup (genre_options o)
    ∧ (∀ g, VStr g ∈ genre_options o ↔ g ∈ genre_tokens df)
    ∧ (∀ v, v ∈ genre_options o → v = VNaN ∨ ∃ g, v = VStr g)
    ∧ (VNaN ∈ genre_options o ↔
         stack_dropna = false
         ∧ ∃ r r', r ∈ rows df ∧ r' ∈ rows df
             ∧ (length (tokens_of (cell df "Genre(s)" r))
                < length (tokens_of (cell df "Genre(s)" r')))%nat)
    ∧ (∀ r, r ∈ rows df →
         ∃ t, t ∈ type_options o ∧ Pd.value_eqb (cell df "Type" r) t = true)
    ∧ (∀ t, t ∈ type_options o → ∃ r, r ∈ rows df ∧ cell df "Type" r = t)
    ∧ (∃ r, r ∈ rows df ∧ cell df "Year" r = VInt (year_min o))
    ∧ (∃ r, r ∈ rows df ∧ cell df "Year" r = VInt (year_max o))
    ∧ (∀ r y, r ∈ rows df → cell df "Year" r = VInt y →
         year_min o ≤ y ≤ year_max o).
Proof.
  intros Hct Hrows.
  destruct (sidebar_content_table df Hct Hrows) as (lo & hi & Hs & Hlo & Hhi & Hb).
  eexists. split; [exact Hs|]. simpl.
  set (cells := Pd.stack_cells stack_dropna _).
  destruct (stack_cells_texts stack_dropna
              (Pd.str_split_expand ", " (cell df "Genre(s)" <$> rows df)))
    as [l Hl].
  destruct (unique_texts l) as [Hnd Hin]. rewrite <- Hl in Hnd, Hin.
  fold cells in Hnd, Hin.
  pose proof (elem_of_stack_cells stack_dropna df) as Hcells. fold cells in Hcells.
  split; [exact Hnd|]. split; [|split; [|split]].
  - intros g. rewrite Hin, Hcells. split.
    + by intros [(g' & [= ->] & Hg)|(? & _)].
    + intros Hg. left. eauto.
  - intros v. rewrite Hin, Hcells. intros [(g & -> & _)|(-> & _)]; eauto.
  - rewrite Hin, Hcells. split.
    + by intros [(g & ? & _)|(_ & ? & ?)].
    + intros [? ?]. by right.
  - split; [|split; [|done]].
    + intros r Hr.
      destruct (unique_from_covers Pd.value_eqb [] (cell df "Type" <$> rows df)
                  (cell df "Type" r) value_eqb_refl) as (t & [Hin'|Hin'] & Ht).
      * apply list_elem_of_fmap. eauto.
      * by apply elem_of_nil in Hin'.
      * eauto.
    + intros t Hin'%unique_from_elem_of.
      apply list_elem_of_fmap in Hin' as (r & -> & Hr). eauto.
Qed.

(** With the widgets in their initial state (every Type option selected, no
    genre selected, the slider on its two bounds) the filter engine returns
    the whole table. *)
Theorem default_selection_keeps_all df :
  content_table df = true → rows df ≠ [] →
  ∃ o, sidebar int_of_str stack_dropna df = Ok o
       ∧ apply_filters (type_options o) [] (year_min o, year_max o) df = Ok df.
Proof.
  intros Hct Hrows.
  destruct (sidebar_content_table df Hct Hrows) as (lo & hi & Hs & _ & _ & Hb).
  eexists. split; [exact Hs|]. simpl.
  rewrite (apply_filters_content_Ok _ _ _ _ Hct).
  apply content_table_inv in Hct as (_ & _ & _ & _ & Hyear & _).
  rewrite filter_all; [by destruct df|].
  rewrite Forall_forall in Hyear |- *. intros r Hr.
  unfold keep. rewrite !andb_true_iff. split; [split|done].
  - apply type_ok_exists.
    destruct (unique_from_covers Pd.value_eqb [] (cell df "Type" <$> rows df)
                (cell df "Type" r) value_eqb_refl) as (t & [Hin|Hin] & Ht).
    + apply list_elem_of_fmap. eauto.
    + by apply elem_of_nil in Hin.
    + eauto.
  - specialize (Hyear r Hr).
    destruct (cell df "Year" r) as [| y | |] eqn:Hcy; try done.
    apply (year_ok_int lo hi df r y Hcy). by apply (Hb r).
Qed.

End Sidebar.

Lemma sidebar_options_spec_witness :
  ∃ o, sidebar int_of_decimal false sample_table = Ok o
    ∧ NoDup (genre_options o)
    ∧ (∀ g, VStr g ∈ genre_options o ↔ g ∈ genre_tokens sample_table)
    ∧ (∀ v, v ∈ genre_options o → v = VNaN ∨ ∃ g, v = VStr g)
    ∧ (VNaN ∈ genre_options o ↔
         false = false
         ∧ ∃ r r', r ∈ rows sample_table ∧ r' ∈ rows sample_table
             ∧ (length (tokens_of (cell sample_table "Genre(s)" r))
                < length (tokens_of (cell sample_table "Genre(s)" r')))%nat)
    ∧ (∀ r, r ∈ rows sample_table →
         ∃ t, t ∈ type_options o
              ∧ Pd.value_eqb (cell sample_table "Type" r) t = true)
    ∧ (∀ t, t ∈ type_options o →
         ∃ r, r ∈ rows sample_table ∧ cell sample_table "Type" r = t)
    ∧ (∃ r, r ∈ rows sample_table ∧ cell sample_table "Year" r = VInt (year_min o))
    ∧ (∃ r, r ∈ rows sample_table ∧ cell sample_table "Year" r = VInt (year_max o))
    ∧ (∀ r y, r ∈ rows sample_table → cell sample_table "Year" r = VInt y →
         year_min o ≤ y ≤ year_max o).
Proof.
  apply (sidebar_options_spec int_of_decimal false sample_table);
    [reflexivity|done].
Defined.

Lemma default_selection_keeps_all_witness :
  ∃ o, sidebar int_of_decimal true sample_table = Ok o
       ∧ apply_filters (type_options o) [] (year_min o, year_max o) sample_table
         = Ok sample_table.
Proof.
  apply (default_selection_keeps_all int_of_decimal true sample_table);
    [reflexivity|done].
Defined.

(** ** Genre selection and genre options *)

(** Selecting a genre keeps every record that lists it: a row of a Content
    Table one of whose genre tokens is selected, and which passes the Type
    and Year tests, is in the result. *)
Theorem selecting_listed_genre_keeps_record tf gf yr df r g :
  content_table df = true →
  r ∈ rows df → g ∈ gf → g ∈ tokens_of (cell df "Genre(s)" r) →
  type_ok tf df r = true → year_ok yr df r = true →
  ∃ S, apply_filters tf gf yr df = Ok S ∧ r ∈ rows S.
Proof.
  intros Hct Hr Hg Htok Ht Hy.
  eexists. split; [by apply apply_filters_content_Ok|]. simpl.
  apply elem_of_filter_bool. split; [done|]. unfold keep. rewrite Ht, Hy. simpl.
  destruct (cell df "Genre(s)" r) as [s| | |] eqn:Hs;
    try by apply elem_of_nil in Htok.
  by apply (genre_ok_exact_token gf df r s g).
Qed.

Lemma selecting_listed_genre_keeps_record_witness :
  ∃ S, apply_filters [VStr "Movie"] ["Drama"] (2019, 2021) sample_table = Ok S
       ∧ record 0 "Alpha" "Movie" 2019 "Comedy, Drama" 4.5 ∈ rows S.
Proof.
  apply (selecting_listed_genre_keeps_record [VStr "Movie"] ["Drama"] (2019, 2021)
           sample_table (record 0 "Alpha" "Movie" 2019 "Comedy, Drama" 4.5) "Drama");
    [reflexivity|unfold sample_table; simpl; repeat constructor
    |repeat constructor
    |change ("Drama" ∈ ["Comedy"; "Drama"]); repeat constructor
    |reflexivity..].
Defined.

(** Selecting every genre that the table lists restricts nothing: the rows
    kept are the rows kept with no genre selected, and the two subsets are
    the same table when they have a row.  (Without any row the subset
    obtained under a genre selection has lost the header.) *)
Theorem selecting_every_genre_keeps_all tf gf yr df :
  content_table df = true →
  (∀ g, g ∈ genre_tokens df → g ∈ gf) →
  ∃ S S0, apply_filters tf gf yr df = Ok S
          ∧ apply_filters tf [] yr df = Ok S0
          ∧ rows S = rows S0
          ∧ (rows S0 ≠ [] → S = S0).
Proof.
  intros Hct Hall.
  assert (List.filter (keep tf gf yr df) (rows df)
          = List.filter (keep tf [] yr df) (rows df)) as Hrows.
  { apply content_table_inv in Hct as (_ & _ & _ & _ & _ & Hgenre & _).
    rewrite Forall_forall in Hgenre.
    apply filter_ext_in. intros r Hr%list_elem_of_In. unfold keep. f_equal.
    specialize (Hgenre r Hr).
    destruct (cell df "Genre(s)" r) as [s| | |] eqn:Hcs; try done.
    destruct (split_nonempty ", " s) as (t & ts & Hsplit).
    assert (t ∈ gf) as Hopt.
    { apply Hall, elem_of_genre_tokens.
      exists r. split; [done|]. rewrite Hcs. simpl. rewrite Hsplit. by left. }
    apply (genre_ok_exact_token _ df r s t); [done..|].
    rewrite Hsplit. by left. }
  do 2 eexists. split; [by apply apply_filters_content_Ok|].
  split; [by apply apply_filters_content_Ok|]. simpl.
  split; [exact Hrows|]. intros Hne.
  rewrite keeps_header_true by (right; by rewrite Hrows).
  by rewrite Hrows.
Qed.

Lemma selecting_every_genre_keeps_all_witness :
  ∃ S S0,
    apply_filters [VStr "Movie"] ["Comedy"; "Drama"; "Action"; "Romantic Comedy"]
      (2019, 2021) sample_table = Ok S
    ∧ apply_filters [VStr "Movie"] [] (2019, 2021) sample_table = Ok S0
    ∧ rows S = rows S0
    ∧ (rows S0 ≠ [] → S = S0).
Proof.
  apply (selecting_every_genre_keeps_all [VStr "Movie"]
           ["Comedy"; "Drama"; "Action"; "Romantic Comedy"] (2019, 2021)
           sample_table); [reflexivity|].
  intros g Hg.
  change (g ∈ ["Comedy"; "Drama"; "Drama"; "Action"; "Romantic Comedy"]) in Hg.
  rewrite !elem_of_cons in Hg |- *. rewrite list_elem_of_singleton in Hg. tauto.
Defined.

(** ** The data loader: success, missing column, reloading *)

Section LoaderMore.

Variable int_of_str : string → option Z.
Variable cast_out_of_range : Q → Z.

(** The shape of a loaded table: the table read, with the Year column
    replaced by its conversion. *)
Lemma load_data_try_shape df0 df :
  load_data_try int_of_str cast_out_of_range (Ok df0) = Ok df ↔
  ∃ j year,
    Pd.column_index "Year" (columns df0) = Some j
    ∧ astype_int int_of_str cast_out_of_range (cell df0 "Year" <$> rows df0)
      = Ok year
    ∧ df = mkDataFrame (columns df0)
             (zip_with (λ r v, mkRow (label r)
                                 (<[j:=v]> (resize (length (columns df0)) VNaN (cells r))))
                       (rows df0) year).
Proof.
  unfold load_data_try. change (Ok df0 ≫= ?f) with (f df0). cbv beta.
  destruct (Pd.column_index "Year" (columns df0)) as [j|] eqn:Hj.
  - rewrite getitem_cell by by rewrite Hj.
    change (Ok ?s ≫= ?f) with (f s). cbv beta.
    destruct (astype_int int_of_str cast_out_of_range _) as [year|] eqn:Hy.
    + change (Ok year ≫= ?f) with (f year). cbv beta.
      pose proof (Forall2_length _ _ _ (astype_int_Ok _ _ _ _ Hy)) as Hlen.
      rewrite length_fmap in Hlen.
      rewrite (setitem_existing _ _ j) by done. split.
      * intros [= <-]. eauto.
      * by intros (j' & year' & [= <-] & [= <-] & ->).
    + split; [done|]. by intros (? & ? & _ & ? & _).
  - rewrite getitem_missing by done. split; [done|]. by intros (? & ? & ? & _).
Qed.

(** A table read without a Year column fails the load with [KeyError]: the
    error is shown and the empty table returned. *)
Theorem load_data_missing_year df0 :
  "Year" ∉ columns df0 →
  load_data int_of_str cast_out_of_range (Ok df0)
  = (Pd.empty_frame, [StError "Error loading data: " (KeyError "Year")]).
Proof.
  intros Hy. unfold load_data, load_data_try.
  change (Ok df0 ≫= ?f) with (f df0). cbv beta.
  rewrite getitem_missing; [done|]. by apply column_index_None.
Qed.

(** When the load shows no error.  It shows none exactly when the table
    read has a Year column in which no Year is missing, every Year that is
    a text is an integer literal that fits in 64 bits and, if some Year is
    a text, every Year that is a number fits as well.  In a column of
    numbers only the range is not checked: the load shows no error whatever
    the numbers are.  The table returned then has the header and the number
    of rows of the table read. *)
Theorem load_data_succeeds_iff df0 :
  ((load_data int_of_str cast_out_of_range (Ok df0)).2 = [] ↔
   "Year" ∈ columns df0
   ∧ (∀ r, r ∈ rows df0 → cell df0 "Year" r ≠ VNaN)
   ∧ (∀ r s, r ∈ rows df0 → cell df0 "Year" r = VStr s →
        (∃ n, int_of_str s = Some n ∧ - 2 ^ 63 ≤ n < 2 ^ 63)
        ∧ ∀ r', r' ∈ rows df0 → fits_int64 (cell df0 "Year" r')))
  ∧ ((load_data int_of_str cast_out_of_range (Ok df0)).2 = [] →
     columns (load_data int_of_str cast_out_of_range (Ok df0)).1 = columns df0
     ∧ length (rows (load_data int_of_str cast_out_of_range (Ok df0)).1)
       = length (rows df0)).
Proof.
  set (year := cell df0 "Year" <$> rows df0).
  assert ((∃ k, astype_int int_of_str cast_out_of_range year = Ok k) ↔
          (∀ r, r ∈ rows df0 → cell df0 "Year" r ≠ VNaN)
          ∧ (∀ r s, r ∈ rows df0 → cell df0 "Year" r = VStr s →
               (∃ n, int_of_str s = Some n ∧ - 2 ^ 63 ≤ n < 2 ^ 63)
               ∧ ∀ r', r' ∈ rows df0 → fits_int64 (cell df0 "Year" r')))
    as Hconv.
  { rewrite astype_int_returns. unfold year. rewrite !Forall_fmap, !Forall_forall.
    setoid_rewrite list_elem_of_fmap. split.
    - intros [Hnan Hstr]. split; [exact Hnan|]. intros r s Hr Hs.
      destruct (Hstr s) as [Hn Hfit]; [exists r; by rewrite Hs|].
      split; [done|]. intros r' Hr'.
      rewrite Forall_fmap, Forall_forall in Hfit. by apply Hfit.
    - intros [Hnan Hstr]. split; [exact Hnan|]. intros s (r & Hs & Hr).
      destruct (Hstr r s Hr) as [Hn Hfit]; [done|]. split; [done|].
      rewrite Forall_fmap, Forall_forall. intros r' Hr'. by apply Hfit. }
  unfold load_data.
  destruct (load_data_try int_of_str cast_out_of_range (Ok df0))
    as [df|e] eqn:Htry; simpl.
  - apply load_data_try_shape in Htry as (j & k & Hj & Hk & ->).
    pose proof (Forall2_length _ _ _ (astype_int_Ok _ _ _ _ Hk)) as Hlen.
    rewrite length_fmap in Hlen. split.
    + split; [intros _|done]. split.
      * apply column_index_is_Some. by rewrite Hj.
      * apply Hconv. eauto.
    + intros _. simpl. split; [done|]. rewrite length_zip_with. lia.
  - split; [|done]. split; [done|]. intros [Hy Hok]. exfalso.
    apply column_index_is_Some in Hy as [j Hj].
    apply Hconv in Hok as [k Hk].
    assert (load_data_try int_of_str cast_out_of_range (Ok df0)
            = Ok (mkDataFrame (columns df0)
                    (zip_with (λ r v, mkRow (label r)
                                 (<[j:=v]> (resize (length (columns df0)) VNaN
                                                   (cells r))))
                              (rows df0) k))) as Hload
      by (apply load_data_try_shape; eauto).
    congruence.
Qed.

(** Loading is idempotent: a table that [load_data] returned without error
    is returned unchanged when it is given to the loader again. *)
Theorem load_data_idempotent df0 df :
  load_data int_of_str cast_out_of_range (Ok df0) = (df, []) →
  load_data int_of_str cast_out_of_range (Ok df) = (df, []).
Proof.
  unfold load_data.
  destruct (load_data_try int_of_str cast_out_of_range (Ok df0))
    as [df'|e] eqn:Htry; [|done].
  intros [= ->].
  apply load_data_try_shape in Htry as (j & year & Hj & Hyear & ->).
  pose proof (Forall2_length _ _ _ (astype_int_Ok _ _ _ _ Hyear)) as Hlen.
  rewrite length_fmap in Hlen.
  pose proof (astype_int_fixed _ _ _ _ Hyear) as Hfixed.
  pose proof (column_index_lookup _ _ _ Hj) as Hlj.
  apply lookup_lt_Some in Hlj as Hjw.
  set (w := length (columns df0)) in *.
  set (F := λ (r : Row) (v : value),
              mkRow (label r) (<[j:=v]> (resize w VNaN (cells r)))).
  assert (∀ rs vs, length vs = length rs →
            Pd.cell_at j <$> zip_with F rs vs = vs
            ∧ zip_with F (zip_with F rs vs) vs = zip_with F rs vs) as Hzip.
  { induction rs as [|r0 rs IH]; intros [|v vs] Hl; try done.
    destruct (IH vs) as [IH1 IH2]; [simpl in Hl; lia|]. split.
    - csimpl. rewrite IH1. f_equal. unfold Pd.cell_at. simpl.
      by rewrite list_lookup_insert_eq by by rewrite length_resize.
    - simpl. rewrite IH2. f_equal. unfold F at 1. simpl. unfold F. f_equal.
      rewrite resize_all_alt by by rewrite length_insert, length_resize.
      apply list_insert_insert_eq. }
  destruct (Hzip (rows df0) year (eq_sym Hlen)) as [Hcol Hrows].
  set (T := mkDataFrame (columns df0) (zip_with F (rows df0) year)).
  assert (load_data_try int_of_str cast_out_of_range (Ok T) = Ok T) as ->; [|done].
  apply load_data_try_shape. exists j, year.
  split; [exact Hj|]. split.
  - assert (cell T "Year" <$> rows T = Pd.cell_at j <$> zip_with F (rows df0) year)
      as -> by (unfold cell, T; cbn [columns rows]; by rewrite Hj).
    by rewrite Hcol.
  - change (T = mkDataFrame (columns df0)
                  (zip_with F (zip_with F (rows df0) year) year)).
    by rewrite Hrows.
Qed.

End LoaderMore.

Lemma load_data_missing_year_witness :
  load_data int_of_decimal cast_x86_64 (Ok (mkDataFrame ["Type"] [mkRow 0 [VStr "Movie"]]))
  = (Pd.empty_frame, [StError "Error loading data: " (KeyError "Year")]).
Proof.
  apply (load_data_missing_year int_of_decimal cast_x86_64
           (mkDataFrame ["Type"] [mkRow 0 [VStr "Movie"]])).
  simpl. by intros [=]%list_elem_of_singleton.
Defined.

Lemma load_data_idempotent_witness :
  load_data int_of_decimal cast_x86_64
    (Ok (mkDataFrame ["Type"; "Year"]
           [ mkRow 0 [VStr "Movie"; VInt 2019]; mkRow 1 [VStr "Movie"; VInt 2020] ]))
  = (mkDataFrame ["Type"; "Year"]
       [ mkRow 0 [VStr "Movie"; VInt 2019]; mkRow 1 [VStr "Movie"; VInt 2020] ],
     []).
Proof.
  apply (load_data_idempotent int_of_decimal cast_x86_64 (text_years "2020")).
  reflexivity.
Defined.

(** ** The headline metrics *)

Lemma numeric_rating_of v :
  is_str v = false → Pd.numeric v = Ok (rating_of v).
Proof. by destruct v. Qed.

Lemma mapM_numeric (s : Series) :
  Forall (λ v, is_str v = false) s → mapM Pd.numeric s = Ok (rating_of <$> s).
Proof.
  intros Hs. apply mapM_Ok_Forall2, Forall2_fmap_r, Forall_Forall2_diag.
  eapply Forall_impl; [exact Hs|]. intros v Hv. by apply numeric_rating_of.
Qed.

(** The mean of a series without strings: NaN when no entry is a number,
    else the sum of the numbers over their count. *)
Lemma mean_numbers (s : Series) :
  Forall (λ v, is_str v = false) s →
  Pd.mean s =
    match omap rating_of s with
    | [] => Ok VNaN
    | xs => Ok (VFloat (Qred (foldr Qplus 0%Q xs / inject_Z (Z.of_nat (length xs)))))
    end.
Proof.
  intros Hs. unfold Pd.mean. rewrite (mapM_numeric s Hs).
  change (omap id <$> Ok ?x) with (Ok (omap (M:=list) id x)).
  change (Ok ?x ≫= ?f) with (f x). cbv beta.
  assert (omap (M:=list) id (rating_of <$> s) = omap rating_of s) as ->;
    [|by destruct (omap rating_of s)].
  clear Hs. induction s as [|v s IH]; [done|]. csimpl. rewrite IH.
  by destruct (rating_of v).
Qed.

Lemma omap_rating_of_nil (s : Series) :
  Forall (λ v, is_str v = false) s →
  omap rating_of s = [] ↔ Forall (λ v, Pd.is_nan v = true) s.
Proof.
  induction 1 as [|v s Hv _ IH]; csimpl.
  - split; [constructor|done].
  - rewrite Forall_cons, <- IH. destruct v; simpl; try done.
    + split; [done|]. by intros [? _].
    + split; [done|]. by intros [? _].
    + tauto.
Qed.

Lemma filter_disjoint_length {A} (p q : A → bool) (l : list A) :
  (∀ x, p x = true → q x = false) →
  (length (List.filter p l) + length (List.filter q l) ≤ length l)%nat
  ∧ (Forall (λ x, p x || q x = true) l →
     (length (List.filter p l) + length (List.filter q l))%nat = length l).
Proof.
  intros Hpq. induction l as [|x l [IH1 IH2]]; simpl; [done|].
  destruct (p x) eqn:Hp.
  - rewrite (Hpq x Hp). simpl. split; [lia|].
    intros Hall. inversion Hall; subst. rewrite <- IH2 by done. lia.
  - destruct (q x) eqn:Hq; simpl.
    + split; [lia|]. intros Hall. inversion Hall; subst.
      rewrite <- IH2 by done. lia.
    + split; [lia|]. intros Hall. inversion Hall as [|?? Hx]; subst.
      by rewrite Hp, Hq in Hx.
Qed.

Lemma value_eqb_str v a : Pd.value_eqb v (VStr a) = true ↔ v = VStr a.
Proof.
  destruct v; simpl; try by split.
  rewrite bool_decide_eq_true. split; congruence.
Qed.

(** The four metrics of a non-empty subset, the average being the mean of
    the Rating column. *)
Lemma key_metrics_Ok df :
  content_table df = true → rows df ≠ [] →
  ∃ avg,
    Pd.mean (cell df "Rating (Out of 5)" <$> rows df) = Ok avg
    ∧ key_metrics df
      = Ok [ StMetric "Total Content" (VInt (Z.of_nat (length (rows df))));
             StMetric "Average Rating" avg;
             StMetric "Movies"
               (VInt (Z.of_nat (length (List.filter (is_movie df) (rows df)))));
             StMetric "TV Shows"
               (VInt (Z.of_nat (length (List.filter (is_tv_show df) (rows df))))) ].
Proof.
  intros (Ht & _ & Hg & Hr & _ & _ & Hnum)%content_table_inv Hrows.
  assert (Pd.empty df = false) as Hne.
  { unfold Pd.empty. destruct (columns df); [by apply elem_of_nil in Hg|].
    by destruct (rows df). }
  assert (∃ avg, Pd.mean (cell df "Rating (Out of 5)" <$> rows df) = Ok avg)
    as [avg Havg].
  { rewrite mean_numbers by by apply Forall_fmap. destruct (omap _ _); eauto. }
  exists avg. split; [done|]. unfold key_metrics. rewrite Hne. cbn [negb].
  rewrite !getitem_cell by by apply column_index_is_Some.
  change (Ok ?s ≫= ?f) with (f s). cbv beta. rewrite Havg.
  change (Ok ?s ≫= ?f) with (f s). cbv beta.
  change (Ok ?s ≫= ?f) with (f s). cbv beta.
  unfold Pd.eq_scalar. rewrite <- list_fmap_compose.
  rewrite getitem_bool_fmap.
  change (Ok ?s ≫= ?f) with (f s). cbv beta.
  change (Ok ?s ≫= ?f) with (f s). cbv beta.
  rewrite <- list_fmap_compose.
  rewrite getitem_bool_fmap.
  done.
Qed.

(** The headline metrics of a non-empty subset: the total is the number of
    rows, Movies and TV Shows count the rows of each Type, the two never
    add up to more than the total, and they add up to it when every row is
    a Movie or a TV Show.  The average is NaN when no row has a rating and
    a number otherwise. *)
Theorem key_metrics_spec df :
  content_table df = true → rows df ≠ [] →
  ∃ avg,
    key_metrics df
    = Ok [ StMetric "Total Content" (VInt (Z.of_nat (length (rows df))));
           StMetric "Average Rating" avg;
           StMetric "Movies"
             (VInt (Z.of_nat (length (List.filter (is_movie df) (rows df)))));
           StMetric "TV Shows"
             (VInt (Z.of_nat (length (List.filter (is_tv_show df) (rows df))))) ]
    ∧ (length (List.filter (is_movie df) (rows df))
       + length (List.filter (is_tv_show df) (rows df)) ≤ length (rows df))%nat
    ∧ (Forall (λ r, is_movie df r || is_tv_show df r = true) (rows df) →
       (length (List.filter (is_movie df) (rows df))
        + length (List.filter (is_tv_show df) (rows df)))%nat = length (rows df))
    ∧ (Forall (λ r, rated df r = false) (rows df) → avg = VNaN)
    ∧ (Exists (λ r, rated df r = true) (rows df) → ∃ q, avg = VFloat q).
Proof.
  intros Hct Hrows.
  destruct (key_metrics_Ok df Hct Hrows) as (avg & Havg & Hkm).
  apply content_table_inv in Hct as (_ & _ & _ & _ & _ & _ & Hnum).
  set (ratings := cell df "Rating (Out of 5)" <$> rows df) in *.
  assert (Forall (λ v, is_str v = false) ratings) as Hnostr
    by by apply Forall_fmap.
  rewrite (mean_numbers ratings Hnostr) in Havg.
  destruct (filter_disjoint_length (is_movie df) (is_tv_show df) (rows df))
    as [Hle Heq].
  { intros r Hm. unfold is_movie in Hm. apply value_eqb_str in Hm.
    unfold is_tv_show. by rewrite Hm. }
  assert (omap rating_of ratings = [] ↔ Forall (λ r, rated df r = false) (rows df))
    as Hnone.
  { rewrite (omap_rating_of_nil ratings Hnostr). unfold ratings, rated.
    rewrite Forall_fmap. apply Forall_iff. intros r. simpl.
    by destruct (Pd.is_nan _). }
  exists avg. split; [done|]. split; [done|]. split; [done|].
  destruct (omap rating_of ratings) as [|x xs] eqn:Hxs.
  - injection Havg as <-. split; [done|]. intros Hex. exfalso.
    apply Exists_exists in Hex as (r & Hr' & Hrated).
    destruct Hnone as [Hn _]. specialize (Hn eq_refl).
    rewrite Forall_forall in Hn. rewrite (Hn r Hr') in Hrated. done.
  - injection Havg as <-. split.
    + intros Hall. apply Hnone in Hall. done.
    + intros _. by eexists.
Qed.

Lemma key_metrics_spec_witness :
  ∃ avg,
    key_metrics three_ratings
    = Ok [ StMetric "Total Content"
             (VInt (Z.of_nat (length (rows three_ratings))));
           StMetric "Average Rating" avg;
           StMetric "Movies"
             (VInt (Z.of_nat (length (List.filter (is_movie three_ratings)
                                        (rows three_ratings)))));
           StMetric "TV Shows"
             (VInt (Z.of_nat (length (List.filter (is_tv_show three_ratings)
                                        (rows three_ratings))))) ]
    ∧ (length (List.filter (is_movie three_ratings) (rows three_ratings))
       + length (List.filter (is_tv_show three_ratings) (rows three_ratings))
       ≤ length (rows three_ratings))%nat
    ∧ (Forall (λ r, is_movie three_ratings r || is_tv_show three_ratings r = true)
         (rows three_ratings) →
       (length (List.filter (is_movie three_ratings) (rows three_ratings))
        + length (List.filter (is_tv_show three_ratings) (rows three_ratings)))%nat
       = length (rows three_ratings))
    ∧ (Forall (λ r, rated three_ratings r = false) (rows three_ratings) →
       avg = VNaN)
    ∧ (Exists (λ r, rated three_ratings r = true) (rows three_ratings) →
       ∃ q, avg = VFloat q).
Proof. apply (key_metrics_spec three_ratings); [reflexivity|done]. Defined.

(** ** Counting by group *)

Lemma sum_list_with_add {A} (a b : A → nat) (K : list A) :
  sum_list_with (λ k, a k + b k)%nat K
  = (sum_list_with a K + sum_list_with b K)%nat.
Proof. induction K as [|k K IH]; simpl; [done|]. rewrite IH. lia. Qed.

Lemma sum_list_with_zero {A} (K : list A) : sum_list_with (λ _, 0%nat) K = 0%nat.
Proof. induction K as [|k K IH]; simpl; [done|]. by rewrite IH. Qed.

Lemma sum_list_with_ext {A} (a b : A → nat) (K : list A) :
  (∀ k, k ∈ K → a k = b k) → sum_list_with a K = sum_list_with b K.
Proof.
  induction K as [|k K IH]; intros Hab; simpl; [done|].
  rewrite (Hab k) by by left. rewrite IH; [done|].
  intros k' Hk'. apply Hab. by right.
Qed.

Lemma mapM_ext {A B} (f g : A → result B) (l : list A) :
  (∀ x, f x = g x) → mapM f l = mapM g l.
Proof. intros Hfg. induction l as [|x l IH]; simpl; [done|]. by rewrite Hfg, IH. Qed.

(** Over a list without duplicates, exactly one entry is the given one. *)
Lemma sum_indicator {A} `{EqDecision A} (K : list A) (a : A) :
  NoDup K → a ∈ K →
  sum_list_with (λ k, if bool_decide (a = k) then 1 else 0)%nat K = 1%nat.
Proof.
  induction 1 as [|k K Hk Hnd IH]; [by intros ?%elem_of_nil|].
  simpl. intros [->|Hin]%elem_of_cons.
  - rewrite bool_decide_eq_true_2 by done.
    rewrite (sum_list_with_ext _ (λ _, 0%nat)).
    + by rewrite sum_list_with_zero.
    + intros k' Hk'. rewrite bool_decide_eq_false_2; [done|]. by intros <-.
  - rewrite bool_decide_eq_false_2 by by intros <-. by rewrite IH.
Qed.

(** Splitting a list into the groups of a key and counting in each group
    counts every entry once. *)
Lemma group_counts {A B} `{EqDecision B} (g : A → B) (p : A → bool)
    (K : list B) (l : list A) :
  NoDup K → (∀ x, x ∈ l → g x ∈ K) →
  sum_list_with
    (λ k, length (List.filter p (List.filter (λ x, bool_decide (g x = k)) l))) K
  = length (List.filter p l).
Proof.
  intros Hnd. induction l as [|x l IH]; intros Hin; simpl.
  - apply sum_list_with_zero.
  - rewrite (sum_list_with_ext _
      (λ k, (if bool_decide (g x = k) then (if p x then 1 else 0) else 0)
            + length (List.filter p (List.filter (λ x, bool_decide (g x = k)) l)))%nat).
    2: { intros k _. destruct (bool_decide (g x = k)); simpl; [|done].
         by destruct (p x). }
    rewrite sum_list_with_add, IH by (intros y Hy; apply Hin; by right).
    destruct (p x); simpl.
    + rewrite (sum_indicator K (g x)) by (done || apply Hin; by left). done.
    + rewrite (sum_list_with_ext _ (λ _, 0%nat));
        [by rewrite sum_list_with_zero|].
      intros k _. by destruct (bool_decide _).
Qed.

Lemma mask_fmap_fmap {A B} (p : A → bool) (f : A → B) (l : list A) :
  Pd.mask (p <$> l) (f <$> l) = f <$> List.filter p l.
Proof.
  induction l as [|x l IH]; csimpl; [done|]. rewrite IH. by destruct (p x).
Qed.

Lemma count_not_nan (l : list value) :
  Pd.count l = length (List.filter (λ v, negb (Pd.is_nan v)) l).
Proof.
  unfold Pd.count, Series. induction l as [|v l IH]; [done|].
  rewrite filter_cons. cbn [List.filter].
  destruct (Pd.is_nan v) eqn:Hn; cbn [negb].
  - rewrite decide_False by done. exact IH.
  - rewrite decide_True by done. cbn [length]. by rewrite IH.
Qed.

Lemma count_fmap {A} (f : A → value) (l : list A) :
  Pd.count (f <$> l) = length (List.filter (λ x, negb (Pd.is_nan (f x))) l).
Proof.
  etransitivity; [apply (count_not_nan (f <$> l))|].
  induction l as [|x l IH]; [done|]. csimpl.
  destruct (Pd.is_nan (f x)); simpl; by rewrite IH.
Qed.

Lemma sorted_nodup_lt (l : list Z) :
  Sorted Z.le l → NoDup l → StronglySorted Z.lt l.
Proof.
  intros Hs%Sorted_StronglySorted Hnd; [|apply _].
  induction Hs as [|a l _ IH Hall]; [constructor|].
  apply NoDup_cons in Hnd as [Ha Hnd]. constructor; [by apply IH|].
  rewrite Forall_forall in Hall |- *. intros b Hb.
  specialize (Hall b Hb). assert (a ≠ b) by by intros ->. lia.
Qed.

Lemma Forall2_fmap_eq {A B} (g : B → A) (K : list A) (l : list B) :
  Forall2 (λ k y, g y = k) K l → g <$> l = K.
Proof. induction 1 as [|k y K l <- _ IH]; csimpl; [done|]. by rewrite IH. Qed.

Lemma Forall2_sum_list {A B} (c : A → nat) (h : B → nat) (K : list A) (l : list B) :
  Forall2 (λ k y, h y = c k) K l → sum_list (h <$> l) = sum_list_with c K.
Proof. induction 1 as [|k y K l Hy _ IH]; csimpl; [done|]. by rewrite Hy, IH. Qed.

(** ** The yearly rollup *)

Lemma mapM_group_key df :
  Forall (λ r, is_int (cell df "Year" r) = true) (rows df) →
  mapM Pd.group_key (cell df "Year" <$> rows df) = Ok (year_of df <$> rows df).
Proof.
  intros Hall. apply mapM_Ok_Forall2, Forall2_fmap, Forall_Forall2_diag.
  eapply Forall_impl; [exact Hall|]. intros r. unfold year_of.
  by destruct (cell df "Year" r).
Qed.

(** The yearly rollup line by line: one line per distinct Year, the years
    in ascending order, each with the mean and the count of the ratings of
    its rows. *)
Lemma yearly_data_lines df :
  content_table df = true →
  ∃ yd, yearly_data df = Ok yd
    ∧ Forall2 (λ k line,
         line.1.1 = k
         ∧ line.2 = length (List.filter (rated df)
                      (List.filter (λ r, bool_decide (year_of df r = k)) (rows df)))
         ∧ Pd.mean (cell df "Rating (Out of 5)"
                      <$> List.filter (λ r, bool_decide (year_of df r = k)) (rows df))
           = Ok line.1.2)
        (merge_sort Z.le (Pd.unique Z.eqb (year_of df <$> rows df))) yd.
Proof.
  intros (_ & Hy & _ & Hr & Hyear & _ & Hnum)%content_table_inv.
  set (ks := year_of df <$> rows df).
  set (K := merge_sort Z.le (Pd.unique Z.eqb ks)).
  set (grp := λ k, List.filter (λ r, bool_decide (year_of df r = k)) (rows df)).
  assert (∀ k, ∃ m, Pd.mean (cell df "Rating (Out of 5)" <$> grp k) = Ok m) as Hmean.
  { intros k. rewrite mean_numbers; [destruct (omap _ _); eauto|].
    apply Forall_fmap, Forall_filter_bool.
    eapply Forall_impl; [exact Hnum|]. by intros. }
  assert (∀ k, Pd.mask ((λ y, bool_decide (y = k)) <$> ks)
                 (cell df "Rating (Out of 5)" <$> rows df)
               = cell df "Rating (Out of 5)" <$> grp k) as Hmask.
  { intros k. unfold ks. rewrite <- list_fmap_compose. apply mask_fmap_fmap. }
  assert (yearly_data df
          = mapM (λ k, m ← Pd.mean (cell df "Rating (Out of 5)" <$> grp k);
                       Ok (k, m, length (List.filter (rated df) (grp k)))) K) as Hyd.
  { unfold yearly_data. rewrite !getitem_cell by by apply column_index_is_Some.
    repeat (change (Ok ?s ≫= ?f) with (f s); cbv beta).
    unfold Pd.groupby_agg. rewrite (mapM_group_key df Hyear).
    change (Ok ?s ≫= ?f) with (f s). cbv beta. fold ks. fold K.
    apply mapM_ext. intros k.
    cbv zeta. rewrite Hmask, count_fmap. done. }
  assert (∃ yd, yearly_data df = Ok yd
            ∧ Forall2 (λ k line,
                 (m ← Pd.mean (cell df "Rating (Out of 5)" <$> grp k);
                  Ok (k, m, length (List.filter (rated df) (grp k)))) = Ok line) K yd)
    as (yd & Hok & Hall).
  { rewrite Hyd. destruct (mapM_Ok_total
      (λ k, m ← Pd.mean (cell df "Rating (Out of 5)" <$> grp k);
            Ok (k, m, length (List.filter (rated df) (grp k)))) K) as [yd Hm].
    - apply Forall_forall. intros k _. destruct (Hmean k) as [m ->]. done.
    - exists yd. split; [done|]. by apply mapM_Ok_Forall2. }
  exists yd. split; [done|].
  eapply Forall2_impl; [exact Hall|]. intros k line.
  intros (m & Hm & [= <-])%bind_Ok. unfold grp in Hm. by rewrite Hm.
Qed.

(** The yearly rollup of a Content Table: one line per Year of the table,
    the years strictly ascending; the count of a line is the number of rows
    of that year that have a rating and its mean is the mean of their
    ratings; the counts add up to the number of rated rows. *)
Theorem yearly_data_spec df :
  content_table df = true →
  ∃ yd, yearly_data df = Ok yd
    ∧ StronglySorted Z.lt (yd.*1.*1)
    ∧ (∀ y, y ∈ yd.*1.*1 ↔ ∃ r, r ∈ rows df ∧ year_of df r = y)
    ∧ (∀ y m c, (y, m, c) ∈ yd →
         c = length (List.filter (rated df)
                       (List.filter (λ r, bool_decide (year_of df r = y)) (rows df)))
         ∧ Pd.mean (cell df "Rating (Out of 5)"
                      <$> List.filter (λ r, bool_decide (year_of df r = y)) (rows df))
           = Ok m)
    ∧ sum_list (yd.*2) = length (List.filter (rated df) (rows df)).
Proof.
  intros Hct. destruct (yearly_data_lines df Hct) as (yd & Hok & Hlines).
  set (ks := year_of df <$> rows df) in *.
  set (K := merge_sort Z.le (Pd.unique Z.eqb ks)) in *.
  set (grp := λ k, List.filter (λ r, bool_decide (year_of df r = k)) (rows df)).
  assert (K ≡ₚ Pd.unique Z.eqb ks) as HK by apply merge_sort_Permutation.
  assert (NoDup K) as Hnd.
  { rewrite HK. apply (NoDup_unique Z.eqb Z.eqb_eq). }
  assert (∀ y, y ∈ K ↔ ∃ r, r ∈ rows df ∧ year_of df r = y) as HKin.
  { intros y. rewrite HK, (elem_of_unique Z.eqb Z.eqb_eq). unfold ks.
    rewrite list_elem_of_fmap. split; intros (r & ? & ?); eauto. }
  assert (yd.*1.*1 = K) as Hkeys.
  { rewrite <- list_fmap_compose. apply Forall2_fmap_eq.
    eapply Forall2_impl; [exact Hlines|]. by intros k line (? & _). }
  exists yd. split; [done|]. rewrite Hkeys.
  split; [apply sorted_nodup_lt; [apply Sorted_merge_sort; apply _|done]|].
  split; [done|]. split.
  - intros y m c Hin. apply list_elem_of_lookup in Hin as [i Hi].
    destruct (Forall2_lookup_r _ _ _ _ _ Hlines Hi) as (k & _ & Hk1 & Hk2 & Hk3).
    simpl in *. by subst.
  - transitivity (sum_list_with (λ k, length (List.filter (rated df) (grp k))) K).
    + apply Forall2_sum_list.
      eapply Forall2_impl; [exact Hlines|]. by intros k line (_ & ? & _).
    + apply (group_counts (year_of df) (rated df) K (rows df)); [done|].
      intros r Hr'. apply HKin. eauto.
Qed.

Lemma yearly_data_spec_witness :
  ∃ yd, yearly_data sample_table = Ok yd
    ∧ StronglySorted Z.lt (yd.*1.*1)
    ∧ (∀ y, y ∈ yd.*1.*1 ↔ ∃ r, r ∈ rows sample_table ∧ year_of sample_table r = y)
    ∧ (∀ y m c, (y, m, c) ∈ yd →
         c = length (List.filter (rated sample_table)
                       (List.filter (λ r, bool_decide (year_of sample_table r = y))
                          (rows sample_table)))
         ∧ Pd.mean (cell sample_table "Rating (Out of 5)"
                      <$> List.filter
                            (λ r, bool_decide (year_of sample_table r = y))
                            (rows sample_table))
           = Ok m)
    ∧ sum_list (yd.*2) = length (List.filter (rated sample_table) (rows sample_table)).
Proof. apply (yearly_data_spec sample_table). reflexivity. Defined.

(** ** The genre rollup: totals and the top ten *)

Lemma count_of_filter g (l : list string) :
  Pd.count_of g l
  = length (List.filter (λ _, true) (List.filter (λ t, bool_decide (t = g)) l)).
Proof.
  unfold Pd.count_of. induction l as [|t l IH]; [done|].
  rewrite filter_cons. cbn [List.filter]. destruct (decide (t = g)) as [Heq|Hne].
  - rewrite bool_decide_eq_true_2 by done. cbn [List.filter length]. by rewrite IH.
  - rewrite bool_decide_eq_false_2 by done. exact IH.
Qed.

Lemma sum_list_with_fmap {A B} (f : A → B) (h : B → nat) (l : list A) :
  sum_list_with h (f <$> l) = sum_list_with (λ x, h (f x)) l.
Proof. induction l as [|x l IH]; csimpl; [done|]. by rewrite IH. Qed.

(** The counts of [value_counts] add up to the number of entries. *)
Lemma value_counts_total (l : list string) :
  sum_list (Pd.value_counts l).*2 = length l.
Proof.
  unfold Pd.value_counts. rewrite merge_sort_Permutation.
  rewrite <- list_fmap_compose, sum_list_with_fmap. simpl.
  rewrite (sum_list_with_ext _
    (λ g, length (List.filter (λ _, true)
                    (List.filter (λ t, bool_decide (id t = g)) l))))
    by (intros g _; apply count_of_filter).
  rewrite (group_counts id (λ _, true) _ l).
  - rewrite filter_all; [done|]. by apply Forall_true.
  - apply (NoDup_unique String.eqb String.eqb_eq).
  - intros t Ht. by apply (elem_of_unique String.eqb String.eqb_eq).
Qed.

(** The genre rollup counts every genre token once, and the bar chart shows
    the largest counts: the counts of the rollup add up to the number of
    genre tokens of the subset; the chart gets at most ten lines, the first
    ones of the rollup, and no line left out has a larger count than a line
    shown. *)
Theorem genre_rollup_totals df :
  content_table df = true →
  ∃ counts, genre_counts df = Ok counts
    ∧ sum_list counts.*2 = length (genre_tokens df)
    ∧ (length (Pd.head 10 counts) ≤ 10)%nat
    ∧ Pd.head 10 counts `prefix_of` counts
    ∧ ∀ a b, a ∈ Pd.head 10 counts → b ∈ drop 10 counts → (b.2 ≤ a.2)%nat.
Proof.
  intros (_ & _ & Hg & _)%content_table_inv.
  exists (Pd.value_counts (genre_tokens df)). split.
  { unfold genre_counts. rewrite getitem_cell by by apply column_index_is_Some.
    change (Ok ?s ≫= ?f) with (f s). cbv beta zeta.
    by rewrite genre_tokens_stack. }
  split; [apply value_counts_total|]. unfold Pd.head.
  split; [rewrite length_take; lia|]. split; [apply prefix_take|].
  intros a b Ha Hb.
  destruct (value_counts_spec (genre_tokens df)) as (_ & _ & Hsorted).
  rewrite <- (take_drop 10 (Pd.value_counts (genre_tokens df))) in Hsorted.
  by apply (StronglySorted_app_1_elem_of _ _ _ a b Hsorted).
Qed.

Lemma genre_rollup_totals_witness :
  ∃ counts, genre_counts sample_table = Ok counts
    ∧ sum_list counts.*2 = length (genre_tokens sample_table)
    ∧ (length (Pd.head 10 counts) ≤ 10)%nat
    ∧ Pd.head 10 counts `prefix_of` counts
    ∧ ∀ a b, a ∈ Pd.head 10 counts → b ∈ drop 10 counts → (b.2 ≤ a.2)%nat.
Proof. apply (genre_rollup_totals sample_table). reflexivity. Defined.

(** ** Splitting and joining *)

Module PyJoin.
Import Py PyFacts.

Lemma take_drop n s : take n s ++ drop n s = s.
Proof.
  revert s. induction n as [|n IH]; intros [|a s]; try done.
  cbn [take drop]. change (String a (take n s) ++ drop n s)
    with (String a (take n s ++ drop n s)). by rewrite IH.
Qed.

Lemma drop_add i n s : drop (i + n) s = drop n (drop i s).
Proof.
  revert s. induction i as [|i IH]; intros s; [done|].
  destruct s as [|a s]; simpl; [by destruct n|]. apply IH.
Qed.

Lemma prefix_split p s :
  String.prefix p s = true → s = p ++ drop (String.length p) s.
Proof.
  revert s. induction p as [|a p IH]; intros [|b s]; simpl; try done.
  destruct (ascii_dec a b) as [->|]; [|done]. intros H.
  change (String b s = String b (p ++ drop (String.length p) s)).
  f_equal. by apply IH.
Qed.

Lemma find_Some_prefix sep s i :
  find sep s = Some i → String.prefix sep (drop i s) = true.
Proof.
  revert i. induction s as [|a s IH]; intros i; cbn [find].
  - destruct (String.prefix sep "") eqn:Hp; [|done]. by intros [= <-].
  - destruct (String.prefix sep (String a s)) eqn:Hp; [by intros [= <-]|].
    destruct (find sep s) as [j|]; simpl; [|done]. intros [= <-]. by apply IH.
Qed.

(** The string is the text before the first separator, the separator, and
    what follows it. *)
Lemma find_Some_cut sep s i :
  find sep s = Some i →
  s = take i s ++ sep ++ drop (i + String.length sep) s.
Proof.
  intros Hf. rewrite drop_add.
  rewrite <- (prefix_split sep (drop i s)) by by apply find_Some_prefix.
  by rewrite take_drop.
Qed.

Lemma join_cons sep t t' ts :
  join sep (t :: t' :: ts) = t ++ sep ++ join sep (t' :: ts).
Proof. done. Qed.

Lemma prefix_take_inv p n s :
  String.prefix p (take n s) = true → String.prefix p s = true.
Proof.
  revert n s. induction p as [|a p IH]; intros n s; [by destruct s|].
  destruct n as [|n], s as [|b s]; simpl; try done.
  destruct (ascii_dec a b); [|done]. apply IH.
Qed.

Lemma contains_empty sep : sep ≠ "" → contains sep "" = false.
Proof. by destruct sep. Qed.

Lemma find_Some_before sep s i :
  sep ≠ "" → find sep s = Some i → contains sep (take i s) = false.
Proof.
  intros Hsep. revert i. induction s as [|a s IH]; intros i; cbn [find].
  - destruct (String.prefix sep "") eqn:Hp; [|done]. intros [= <-].
    by apply contains_empty.
  - destruct (String.prefix sep (String a s)) eqn:Hp.
    + intros [= <-]. by apply contains_empty.
    + destruct (find sep s) as [j|] eqn:Hj; simpl; [|done]. intros [= <-].
      cbn [take contains]. rewrite (IH j eq_refl), orb_false_r.
      destruct (String.prefix sep (String a (take j s))) eqn:Hp'; [|done].
      apply (prefix_take_inv sep (S j) (String a s)) in Hp'. congruence.
Qed.

Lemma find_None_contains sep s : find sep s = None → contains sep s = false.
Proof.
  induction s as [|a s IH]; cbn [find contains].
  - by destruct (String.prefix sep "").
  - destruct (String.prefix sep (String a s)); [done|].
    destruct (find sep s); [done|]. intros _. by rewrite IH.
Qed.

End PyJoin.

(** Splitting loses nothing and cuts at every separator: joining the tokens
    of a string with the separator gives the string back, and no token
    contains the separator.  So a Genre(s) field is its genre tokens joined
    by [", "], and no genre token contains [", "]. *)
Theorem split_join_round_trip sep s :
  sep ≠ "" →
  Py.join sep (Py.split sep s) = s
  ∧ ∀ t, t ∈ Py.split sep s → Py.contains sep t = false.
Proof.
  intros Hsep. remember (String.length s) as n eqn:Hn.
  revert s Hn. induction (lt_wf n) as [n _ IH]; intros s ->.
  rewrite PyFacts.split_unfold by done.
  destruct (Py.find sep s) as [i|] eqn:Hf.
  - pose proof (PyFacts.find_Some_bound _ _ _ Hf) as Hb.
    pose proof (PyFacts.length_pos _ Hsep) as Hpos.
    destruct (IH (String.length (Py.drop (i + String.length sep) s)))
      with (s := Py.drop (i + String.length sep) s) as [Hjoin Htok];
      [rewrite PyFacts.length_drop; lia|done|].
    split.
    + destruct (split_nonempty sep (Py.drop (i + String.length sep) s))
        as (t' & ts & Hs).
      rewrite Hs in Hjoin |- *. rewrite PyJoin.join_cons, Hjoin.
      symmetry. by apply PyJoin.find_Some_cut.
    + intros t [->|Ht]%elem_of_cons; [by apply PyJoin.find_Some_before|].
      by apply Htok.
  - split; [done|]. intros t ->%list_elem_of_singleton.
    by apply PyJoin.find_None_contains.
Qed.

Lemma split_join_round_trip_witness :
  Py.join ", " (Py.split ", " "Comedy, Drama") = "Comedy, Drama"
  ∧ ∀ t, t ∈ Py.split ", " "Comedy, Drama" → Py.contains ", " t = false.
Proof. by apply (split_join_round_trip ", " "Comedy, Drama"). Defined.

(** ** The data explorer *)

Global Instance by_entry_desc_total : Total Pd.by_entry_desc.
Proof.
  intros [[p|] a] [[q|] b]; unfold Pd.by_entry_desc; simpl; auto.
  destruct (Qlt_le_dec p q) as [Hlt|Hle].
  - right. apply Qle_bool_iff. by apply Qlt_le_weak.
  - left. by apply Qle_bool_iff.
Qed.

Global Instance by_entry_desc_trans : Transitive Pd.by_entry_desc.
Proof.
  intros [[p|] a] [[q|] b] [[r|] c]; unfold Pd.by_entry_desc; simpl; try done.
  rewrite !Qle_bool_iff. intros H1 H2. by eapply Qle_trans.
Qed.

Lemma zip_fmap_self {A B} (f : A → B) (l : list A) :
  zip (f <$> l) l = (λ x, (f x, x)) <$> l.
Proof. induction l as [|x l IH]; csimpl; [done|]. by rewrite IH. Qed.

Lemma StronglySorted_snd {A B} (key : B → A) (R : relation A) (l : list (A * B)) :
  Forall (λ p, p.1 = key p.2) l →
  StronglySorted (λ a b, R a.1 b.1) l →
  StronglySorted (λ a b, R (key a) (key b)) (l.*2).
Proof.
  intros Hkey Hs. induction Hs as [|p l _ IH Hall]; csimpl; [constructor|].
  apply Forall_cons in Hkey as [Hp Hkey]. constructor; [by apply IH|].
  rewrite Forall_fmap. rewrite Forall_forall in Hall, Hkey |- *.
  intros q Hq. simpl. rewrite <- Hp, <- (Hkey q Hq). by apply Hall.
Qed.

(** The data explorer shows the whole subset, best rated first: its table
    has the header of the subset and the same rows, each as many times,
    ordered so that no row comes before a row with a higher rating and the
    rows without a rating come last. *)
Theorem data_explorer_spec df :
  content_table df = true →
  ∃ T, data_explorer df = Ok T
    ∧ columns T = columns df
    ∧ rows T ≡ₚ rows df
    ∧ StronglySorted
        (λ a b, Pd.entry_ge (rating_of (cell df "Rating (Out of 5)" a))
                            (rating_of (cell df "Rating (Out of 5)" b)) = true)
        (rows T).
Proof.
  intros (_ & _ & _ & Hr & _ & _ & Hnum)%content_table_inv.
  set (key := λ r, rating_of (cell df "Rating (Out of 5)" r)).
  set (pairs := (λ r, (key r, r)) <$> rows df).
  assert (data_explorer df
          = Ok (mkDataFrame (columns df) (merge_sort Pd.by_entry_desc pairs).*2))
    as Hde.
  { unfold data_explorer, Pd.sort_values_desc.
    rewrite getitem_cell by by apply column_index_is_Some.
    change (Ok ?s ≫= ?f) with (f s). cbv beta.
    rewrite mapM_numeric by by apply Forall_fmap.
    change (Ok ?s ≫= ?f) with (f s). cbv beta.
    by rewrite <- list_fmap_compose, zip_fmap_self. }
  pose proof (merge_sort_Permutation Pd.by_entry_desc pairs) as Hperm.
  eexists. split; [exact Hde|]. split; [done|]. simpl. split.
  - rewrite Hperm. unfold pairs. rewrite <- list_fmap_compose.
    by rewrite list_fmap_id.
  - apply (StronglySorted_snd key (λ x y, Pd.entry_ge x y = true)).
    + rewrite Hperm. unfold pairs. by apply Forall_fmap, Forall_true.
    + apply (StronglySorted_merge_sort Pd.by_entry_desc).
Qed.

Lemma data_explorer_spec_witness :
  ∃ T, data_explorer three_ratings = Ok T
    ∧ columns T = columns three_ratings
    ∧ rows T ≡ₚ rows three_ratings
    ∧ StronglySorted
        (λ a b, Pd.entry_ge
                  (rating_of (cell three_ratings "Rating (Out of 5)" a))
                  (rating_of (cell three_ratings "Rating (Out of 5)" b)) = true)
        (rows T).
Proof. apply (data_explorer_spec three_ratings). reflexivity. Defined.

Example data_explorer_three_ratings :
  data_explorer three_ratings
  = Ok (mkDataFrame header
          [ record 1 "Bravo" "TV Show" 2020 "Drama" 5;
            record 0 "Alpha" "Movie" 2019 "Comedy" 4;
            record 2 "Charlie" "Movie" 2021 "Action" 3 ]).
Proof. reflexivity. Qed.

(** ** The three views together *)

(** On a Content Table none of the three aggregation views raises.  On an
    empty subset the page shows the warning and an empty trend chart; on a
    non-empty one it shows the four metrics, the trend chart of the yearly
    rollup, and the two genre charts of the genre rollup, and no warning. *)
Theorem views_never_raise df :
  content_table df = true →
  ∃ els, views df = Ok els
    ∧ (rows df = [] →
       els = [StWarning "No data available with current filters"; TrendsChart []])
    ∧ (rows df ≠ [] →
       ∃ avg yd counts,
         yearly_data df = Ok yd ∧ genre_counts df = Ok counts
         ∧ els = [ StMetric "Total Content" (VInt (Z.of_nat (length (rows df))));
                   StMetric "Average Rating" avg;
                   StMetric "Movies"
                     (VInt (Z.of_nat (length (List.filter (is_movie df) (rows df)))));
                   StMetric "TV Shows"
                     (VInt (Z.of_nat (length (List.filter (is_tv_show df) (rows df)))));
                   TrendsChart yd;
                   GenreBar (Pd.head 10 counts);
                   GenreTreemap counts ]).
Proof.
  intros Hct.
  destruct (yearly_data_lines df Hct) as (yd & Hyd & _).
  pose proof Hct as (_ & Hy & Hg & Hr & _)%content_table_inv.
  assert (genre_counts df = Ok (Pd.value_counts (genre_tokens df))) as Hgc.
  { unfold genre_counts. rewrite getitem_cell by by apply column_index_is_Some.
    change (Ok ?s ≫= ?f) with (f s). cbv beta zeta.
    by rewrite genre_tokens_stack. }
  destruct (decide (rows df = [])) as [Hrows|Hrows].
  - exists [StWarning "No data available with current filters"; TrendsChart yd].
    assert (yd = []) as ->.
    { unfold yearly_data in Hyd.
      rewrite !getitem_cell in Hyd by by apply column_index_is_Some.
      rewrite Hrows in Hyd. by injection Hyd as <-. }
    split; [|split; [done|done]].
    unfold views, temporal_trends, key_metrics, genre_breakdown.
    rewrite (empty_no_rows df Hrows), Hyd. done.
  - destruct (key_metrics_Ok df Hct Hrows) as (avg & _ & Hkm).
    set (counts := Pd.value_counts (genre_tokens df)) in *.
    exists [ StMetric "Total Content" (VInt (Z.of_nat (length (rows df))));
             StMetric "Average Rating" avg;
             StMetric "Movies"
               (VInt (Z.of_nat (length (List.filter (is_movie df) (rows df)))));
             StMetric "TV Shows"
               (VInt (Z.of_nat (length (List.filter (is_tv_show df) (rows df)))));
             TrendsChart yd;
             GenreBar (Pd.head 10 counts);
             GenreTreemap counts ].
    split; [|split; [done|]].
    + unfold views, temporal_trends, genre_breakdown. rewrite Hkm, Hyd.
      assert (Pd.empty df = false) as ->.
      { unfold Pd.empty. destruct (columns df); [by apply elem_of_nil in Hg|].
        by destruct (rows df). }
      cbn [negb]. rewrite Hgc. reflexivity.
    + intros _. by exists avg, yd, counts.
Qed.

Lemma views_never_raise_witness :
  ∃ els, views sample_table = Ok els
    ∧ (rows sample_table = [] →
       els = [StWarning "No data available with current filters"; TrendsChart []])
    ∧ (rows sample_table ≠ [] →
       ∃ avg yd counts,
         yearly_data sample_table = Ok yd ∧ genre_counts sample_table = Ok counts
         ∧ els = [ StMetric "Total Content"
                     (VInt (Z.of_nat (length (rows sample_table))));
                   StMetric "Average Rating" avg;
                   StMetric "Movies"
                     (VInt (Z.of_nat (length (List.filter (is_movie sample_table)
                                                (rows sample_table)))));
                   StMetric "TV Shows"
                     (VInt (Z.of_nat (length (List.filter (is_tv_show sample_table)
                                                (rows sample_table)))));
                   TrendsChart yd;
                   GenreBar (Pd.head 10 counts);
                   GenreTreemap counts ]).
Proof. apply (views_never_raise sample_table). reflexivity. Defined.

(** * The export: writing and reading back *)

Module CsvFacts.
Import Csv.

Lemma append_cons c (s t : string) :
  (String c s ++ t)%string = String c (s ++ t).
Proof. done. Qed.

Lemma append_nil_l (s : string) : ("" ++ s)%string = s.
Proof. done. Qed.

Lemma append_nil_r (s : string) : (s ++ "")%string = s.
Proof.
  induction s as [|c s IH]; [done|]. by rewrite append_cons, IH.
Qed.

Lemma append_assoc (s t u : string) :
  ((s ++ t) ++ u)%string = (s ++ t ++ u)%string.
Proof.
  induction s as [|c s IH]; [done|]. by rewrite !append_cons, IH.
Qed.

Lemma all_chars_impl (p q : ascii → bool) s :
  (∀ c, p c = true → q c = true) → all_chars p s = true → all_chars q s = true.
Proof.
  intros Hpq. induction s as [|c s IH]; simpl; [done|].
  intros [Hc Hs]%andb_true_iff. by rewrite (Hpq c Hc), IH.
Qed.

(** ** The tokenizer on what the writer wrote *)

Section Tokenizer.

Variable crlf : bool.

(** A run of characters of an unquoted field. *)
Lemma tokenize_in_field s acc row rest :
  all_chars (λ c, negb (Ascii.eqb c comma) && negb (is_eol c)) s = true →
  tokenize InField acc row (s ++ rest) = tokenize InField (acc ++ s) row rest.
Proof.
  revert acc. induction s as [|c s IH]; intros acc.
  - by rewrite append_nil_l, append_nil_r.
  - cbn [all_chars]. intros [[Hc He]%andb_true_iff Hs]%andb_true_iff.
    apply negb_true_iff in Hc, He.
    rewrite append_cons. cbn [tokenize]. rewrite Hc, He, IH by done.
    by rewrite append_assoc.
Qed.

(** A quoted field, from after its opening quote to its closing quote. *)
Lemma tokenize_in_quotes s acc row rest :
  tokenize InQuotes acc row (escape s ++ String dquote rest)
  = tokenize QuoteInQuotes (acc ++ s) row rest.
Proof.
  revert acc. induction s as [|c s IH]; intros acc; cbn [escape].
  - rewrite append_nil_l. cbn [tokenize].
    by rewrite Ascii.eqb_refl, append_nil_r.
  - destruct (Ascii.eqb c dquote) eqn:Hc.
    + apply Ascii.eqb_eq in Hc as ->. rewrite !append_cons. cbn [tokenize].
      rewrite !Ascii.eqb_refl. rewrite IH. by rewrite append_assoc.
    + rewrite append_cons. cbn [tokenize]. rewrite Hc, IH.
      by rewrite append_assoc.
Qed.

Lemma is_special_not c :
  is_special crlf c = false → is_eol c = false →
  Ascii.eqb c comma = false ∧ Ascii.eqb c dquote = false.
Proof.
  unfold is_special. intros H _.
  apply orb_false_iff in H as [H _]. apply orb_false_iff in H as [H _].
  by apply orb_false_iff in H.
Qed.

(** One field as written, followed by a comma or the end of the line. *)
Lemma tokenize_field field row c rest :
  no_line_break field = true →
  Ascii.eqb c comma || is_eol c = true →
  ¬ (row = [] ∧ field = "" ∧ is_eol c = true) →
  tokenize StartField "" row (write_field crlf field ++ String c rest)
  = if Ascii.eqb c comma
    then tokenize StartField "" (row ++ [field])%list rest
    else (row ++ [field])%list :: tokenize StartField "" [] rest.
Proof.
  intros Hplain Hc Hblank. unfold write_field.
  assert (Ascii.eqb c dquote = false) as Hcq.
  { apply orb_true_iff in Hc as [->%Ascii.eqb_eq|Hc]; [done|].
    apply orb_true_iff in Hc as [->%Ascii.eqb_eq| ->%Ascii.eqb_eq]; done. }
  assert (Ascii.eqb c comma = false → is_eol c = true) as Hce.
  { intros Hn. by rewrite Hn in Hc. }
  destruct (needs_quotes crlf field) eqn:Hq.
  - rewrite append_cons. cbn [tokenize]. change (Ascii.eqb dquote comma) with false.
    change (is_eol dquote) with false. rewrite Ascii.eqb_refl. cbv iota.
    rewrite append_assoc, append_cons, append_nil_l. rewrite tokenize_in_quotes.
    rewrite append_nil_l. cbn [tokenize]. rewrite Hcq.
    destruct (Ascii.eqb c comma) eqn:Hcc; [done|]. by rewrite Hce.
  - apply negb_false_iff in Hq.
    assert (all_chars (λ c, negb (Ascii.eqb c comma) && negb (Ascii.eqb c dquote)
                            && negb (is_eol c)) field = true) as Hchars.
    { clear Hblank. unfold no_line_break in Hplain.
      induction field as [|a field IH]; cbn [all_chars] in *; [done|].
      apply andb_true_iff in Hplain as [Ha Hplain].
      apply andb_true_iff in Hq as [Hs Hq]. rewrite IH by done.
      apply negb_true_iff in Hs, Ha.
      destruct (is_special_not a Hs Ha) as [-> ->]. by rewrite Ha. }
    destruct field as [|a field]; rewrite ?append_cons, ?append_nil_l.
    + cbn [tokenize]. destruct (Ascii.eqb c comma) eqn:Hcc; [done|].
      rewrite Hce by done. destruct row as [|f row]; [|done].
      exfalso. apply Hblank. by rewrite Hce.
    + cbn [all_chars] in Hchars.
      apply andb_true_iff in Hchars as [[[Hac Haq]%andb_true_iff Hae]%andb_true_iff Hchars].
      apply negb_true_iff in Hac, Haq, Hae.
      cbn [tokenize]. rewrite Hac, Hae, Haq.
      rewrite tokenize_in_field.
      2:{ eapply all_chars_impl; [|exact Hchars]. intros x.
          rewrite !andb_true_iff. tauto. }
      rewrite append_cons, append_nil_l. cbn [tokenize].
      destruct (Ascii.eqb c comma) eqn:Hcc; [done|]. by rewrite Hce.
Qed.

(** The fields of a line as written, followed by the end of the line. *)
Lemma tokenize_fields fields row c rest :
  fields ≠ [] → Forall (λ f, no_line_break f = true) fields →
  is_eol c = true →
  ¬ (row = [] ∧ fields = [""]) →
  tokenize StartField "" row (write_fields crlf fields ++ String c rest)
  = (row ++ fields)%list :: tokenize StartField "" [] rest.
Proof.
  intros Hne Hall Hc. revert row.
  assert (Ascii.eqb c comma = false) as Hcc.
  { apply orb_true_iff in Hc as [->%Ascii.eqb_eq| ->%Ascii.eqb_eq]; done. }
  induction Hall as [|f fields Hf Hall IH]; [done|]. intros row Hblank.
  destruct fields as [|f' fields].
  - cbn [write_fields]. rewrite tokenize_field; [|done|by rewrite Hc, orb_true_r|].
    + by rewrite Hcc.
    + intros (-> & -> & _). by apply Hblank.
  - change (write_fields crlf (f :: f' :: fields))
      with (write_field crlf f ++ String comma (write_fields crlf (f' :: fields)))%string.
    rewrite append_assoc, append_cons.
    rewrite tokenize_field; [|done|done|by intros (_ & _ & ?)].
    rewrite Ascii.eqb_refl.
    rewrite IH; [|done|].
    + by rewrite <- app_assoc.
    + intros [Hrow _]. by destruct row.
Qed.

Lemma tokenize_eol rest :
  ∀ fields, fields ≠ [] → Forall (λ f, no_line_break f = true) fields →
  tokenize StartField "" [] (write_row crlf fields ++ rest)
  = fields :: tokenize StartField "" [] rest.
Proof.
  intros fields Hne Hall.
  assert (∀ text, (text ++ eol crlf ++ rest)%string
                  = (text ++ String (if crlf then cr else lf)
                               (if crlf then String lf rest else rest))%string)
    as Heol by (intros text; unfold eol; by destruct crlf).
  assert (is_eol (if crlf then cr else lf) = true) as Hc by by destruct crlf.
  assert (tokenize StartField "" [] (if crlf then String lf rest else rest)
          = tokenize StartField "" [] rest) as Hskip by by destruct crlf.
  unfold write_row.
  destruct (decide (fields = [""])) as [->|Hone].
  - rewrite !append_cons.
    rewrite <- (append_nil_l (eol crlf ++ rest)), Heol, append_nil_l.
    cbn [tokenize].
    change (Ascii.eqb dquote comma) with false.
    change (is_eol dquote) with false. rewrite Ascii.eqb_refl. cbv iota.
    assert (Ascii.eqb (if crlf then cr else lf) dquote = false) as ->
      by by destruct crlf.
    assert (Ascii.eqb (if crlf then cr else lf) comma = false) as ->
      by by destruct crlf.
    rewrite Hc. by rewrite Hskip.
  - assert ((match fields with
             | [""] => String dquote (String dquote (eol crlf))
             | _ => (write_fields crlf fields ++ eol crlf)%string
             end) = (write_fields crlf fields ++ eol crlf)%string) as ->.
    { destruct fields as [|[|a f] [|f' fields]]; done. }
    rewrite append_assoc, Heol.
    rewrite tokenize_fields; [|done..|by intros [_ ?]].
    by rewrite Hskip.
Qed.

(** The lines that [to_csv] wrote are read back as they were. *)
Lemma tokenize_lines (lines : list (list string)) :
  Forall (λ fields, fields ≠ []
                    ∧ Forall (λ f, no_line_break f = true) fields) lines →
  tokenize StartField "" [] (foldr append "" (write_row crlf <$> lines)) = lines.
Proof.
  induction 1 as [|fields lines [Hne Hall] _ IH]; [done|].
  csimpl. by rewrite tokenize_eol, IH.
Qed.

End Tokenizer.


(** ** Integers: what is written is read back *)

Lemma digits_of_uint d : all_chars is_digit (NilEmpty.string_of_uint d) = true.
Proof. induction d; cbn [NilEmpty.string_of_uint all_chars]; by rewrite ?IHd. Qed.

Lemma digits_of_uint_zero d : all_chars is_digit (NilZero.string_of_uint d) = true.
Proof. destruct d; try done; apply (digits_of_uint (_ _)). Qed.

Lemma uint_not_empty d : NilZero.string_of_uint d ≠ "".
Proof. by destruct d. Qed.

Lemma is_digit_plain c :
  is_digit c = true →
  is_space c = false ∧ is_eol c = false
  ∧ Ascii.eqb c (ascii_of_nat 43) = false ∧ Ascii.eqb c (ascii_of_nat 45) = false.
Proof.
  destruct c as [[] [] [] [] [] [] [] []]; vm_compute; intros H; try done.
Qed.

Lemma rstrip_plain s :
  all_chars (λ c, negb (is_space c)) s = true → rstrip s = s.
Proof.
  induction s as [|c s IH]; [done|]. cbn [all_chars rstrip].
  intros [Hc Hs]%andb_true_iff. rewrite IH by done.
  apply negb_true_iff in Hc. rewrite Hc. by destruct s.
Qed.

(** The text of an integer: an optional minus sign and digits. *)
Lemma show_int_shape n :
  ∃ body, body ≠ "" ∧ all_chars is_digit body = true
    ∧ show_int n = (if n <? 0 then String (ascii_of_nat 45) body else body)
    ∧ NilZero.int_of_string (show_int n) = Some (Z.to_int n).
Proof.
  assert (NilZero.int_of_string (show_int n) = Some (Z.to_int n)) as Hparse.
  { unfold show_int. apply NilZero.isi; destruct n as [|p|p]; try done;
      intros [= H]; by apply DecimalPos.Unsigned.to_uint_nonnil in H. }
  unfold show_int in *. destruct n as [|p|p].
  - by exists "0".
  - exists (NilZero.string_of_uint (Pos.to_uint p)).
    split; [apply uint_not_empty|]. split; [apply digits_of_uint_zero|done].
  - exists (NilZero.string_of_uint (Pos.to_uint p)).
    split; [apply uint_not_empty|]. split; [apply digits_of_uint_zero|done].
Qed.

Lemma digits_no_space s :
  all_chars is_digit s = true → all_chars (λ c, negb (is_space c)) s = true.
Proof.
  apply all_chars_impl. intros c Hc.
  destruct (is_digit_plain c Hc) as (-> & _). done.
Qed.

Lemma csv_int_show_int n : csv_int (show_int n) = Some n.
Proof.
  destruct (show_int_shape n) as (body & Hne & Hdigits & Hshape & Hparse).
  assert (Z.of_int <$> NilZero.int_of_string (show_int n) = Some n) as Hn
    by (rewrite Hparse; simpl; by rewrite DecimalZ.of_to).
  destruct body as [|c body]; [done|].
  cbn [all_chars] in Hdigits. apply andb_true_iff in Hdigits as [Hc Hbody].
  destruct (is_digit_plain c Hc) as (Hsp & _ & Hplus & Hminus).
  pose proof (digits_no_space body Hbody) as Hnosp.
  assert (rstrip (String c body) = String c body) as Hstrip.
  { apply rstrip_plain. cbn [all_chars]. by rewrite Hsp. }
  unfold csv_int. rewrite Hshape in *. destruct (n <? 0).
  - cbn [lstrip]. change (is_space (ascii_of_nat 45)) with false. cbv iota.
    assert (rstrip (String (ascii_of_nat 45) (String c body))
            = String (ascii_of_nat 45) (String c body)) as ->.
    { cbn [rstrip]. cbn [rstrip] in Hstrip. rewrite Hstrip. done. }
    cbv zeta.
    change (Ascii.eqb (ascii_of_nat 45) (ascii_of_nat 43)) with false.
    change (Ascii.eqb (ascii_of_nat 45) (ascii_of_nat 45)) with true.
    cbn [orb]. cbn [all_chars]. by rewrite Hc, Hbody.
  - cbn [lstrip]. rewrite Hsp, Hstrip. cbv zeta. rewrite Hplus, Hminus.
    cbn [orb]. cbn [all_chars]. by rewrite Hc, Hbody.
Qed.

Lemma show_int_no_line_break n : no_line_break (show_int n) = true.
Proof.
  destruct (show_int_shape n) as (body & _ & Hdigits & -> & _).
  assert (no_line_break body = true) as Hbody.
  { unfold no_line_break. eapply all_chars_impl; [|exact Hdigits].
    intros c Hc. destruct (is_digit_plain c Hc) as (_ & -> & _). done. }
  destruct (n <? 0); [|done]. unfold no_line_break in *. cbn [all_chars].
  by rewrite Hbody.
Qed.

End CsvFacts.

(** ** Columns that are given their dtype again *)

Lemma forallb_fmap {A B} (p : B → bool) (f : A → B) (l : list A) :
  forallb p (f <$> l) = forallb (λ x, p (f x)) l.
Proof. induction l as [|x l IH]; csimpl; [done|]. by rewrite IH. Qed.

Lemma forallb_false_elem {A} (p : A → bool) (l : list A) x :
  x ∈ l → p x = false → forallb p l = false.
Proof.
  intros Hx Hp. destruct (forallb p l) eqn:Hall; [|done].
  rewrite forallb_forall in Hall. rewrite <- Hp. symmetry.
  by apply Hall, list_elem_of_In.
Qed.

Lemma same_number_eq a q : same_number a q = true → a = Some q.
Proof.
  destruct a as [[n d]|]; [|done]. destruct q as [n' d']. simpl.
  intros [Hn Hd]%andb_true_iff. apply Z.eqb_eq in Hn. apply Pos.eqb_eq in Hd.
  by subst.
Qed.

Section RoundTrip.

Variable show_float : Q → string.
Variable csv_float : string → option Q.
Variable crlf : bool.

Lemma infer_nonempty (fields : list string) :
  fields ≠ [] →
  Csv.infer csv_float fields
  = if forallb Csv.is_int64_field fields then Csv.KInt
    else if forallb (λ f, Csv.is_na f || Csv.is_number csv_float f) fields
         then Csv.KFloat
         else if forallb (λ f, Csv.is_na f || Csv.is_bool f) fields
              then Csv.KBool
              else Csv.KText.
Proof. by destruct fields. Qed.

(** A column that survives is given the dtype under which each of its
    fields is read back as the cell it was written from. *)
Lemma survives_infer (c : Series) :
  c ≠ [] → survives show_float csv_float c = true →
  Csv.infer csv_float (Csv.field_of show_float <$> c) ≠ Csv.KBool
  ∧ Forall (λ v,
      Csv.cell_of_field csv_float
        (Csv.infer csv_float (Csv.field_of show_float <$> c))
        (Csv.field_of show_float v) = v
      ∧ no_line_break (Csv.field_of show_float v) = true) c.
Proof.
  intros Hne Hs.
  rewrite infer_nonempty by (by destruct c). rewrite !forallb_fmap.
  unfold survives in Hs.
  destruct (forallb Pd.is_int64 c) eqn:Hint.
  { (* integers *)
    rewrite forallb_forall in Hint.
    assert (forallb (λ v, Csv.is_int64_field (Csv.field_of show_float v)) c = true)
      as ->.
    { apply forallb_forall. intros v Hv. specialize (Hint v Hv).
      destruct v as [|n| |]; try done. simpl. unfold Csv.is_int64_field.
      by rewrite CsvFacts.csv_int_show_int. }
    split; [done|]. apply Forall_forall. intros v Hv%list_elem_of_In.
    specialize (Hint v Hv). destruct v as [|n| |]; try done. simpl.
    rewrite CsvFacts.csv_int_show_int. split; [done|].
    apply CsvFacts.show_int_no_line_break. }
  destruct (forallb (float_cell show_float csv_float) c) eqn:Hfloat.
  { (* numbers and missing values *)
    rewrite forallb_forall in Hfloat.
    assert (∀ v, v ∈ c →
              v = VNaN
              ∨ ∃ q, v = VFloat q
                  ∧ no_line_break (show_float q) = true
                  ∧ Csv.is_na (show_float q) = false
                  ∧ Csv.csv_int (show_float q) = None
                  ∧ csv_float (show_float q) = Some q) as Hcells.
    { intros v Hv%list_elem_of_In. specialize (Hfloat v Hv).
      destruct v as [| |q|]; try done; [right|by left]. exists q.
      simpl in Hfloat.
      apply andb_true_iff in Hfloat as [[[H1 H2]%andb_true_iff H3]%andb_true_iff H4].
      apply negb_true_iff in H2, H3. apply same_number_eq in H4.
      repeat split; try done.
      apply bool_decide_eq_false in H3.
      destruct (Csv.csv_int (show_float q)); [|done]. by destruct H3. }
    assert (forallb (λ v, Csv.is_int64_field (Csv.field_of show_float v)) c = false)
      as ->.
    { destruct c as [|v c]; [done|]. apply (forallb_false_elem _ _ v); [by left|].
      destruct (Hcells v) as [->|(q & -> & _ & _ & Hn & _)]; [by left|done|].
      simpl. unfold Csv.is_int64_field. by rewrite Hn. }
    assert (forallb (λ v, Csv.is_na (Csv.field_of show_float v)
                          || Csv.is_number csv_float (Csv.field_of show_float v)) c
            = true) as ->.
    { apply forallb_forall. intros v Hv%list_elem_of_In.
      destruct (Hcells v Hv) as [->|(q & -> & _ & _ & _ & Hq)]; [done|].
      simpl. unfold Csv.is_number. rewrite Hq.
      rewrite (bool_decide_true (is_Some (Some q))) by eauto.
      by rewrite !orb_true_r. }
    split; [done|]. apply Forall_forall. intros v Hv.
    destruct (Hcells v Hv) as [->|(q & -> & Hl & Hna & Hn & Hq)]; [done|].
    simpl. by rewrite Hna, Hn, Hq. }
  (* texts and missing values *)
  simpl in Hs. apply andb_true_iff in Hs as [Htext Hplain].
  rewrite forallb_forall in Htext.
  apply existsb_exists in Hplain as (w & Hw%list_elem_of_In & Hplain).
  destruct w as [s| | |]; try done. simpl in Hplain.
  apply andb_true_iff in Hplain as [Hnum Hbool]. apply negb_true_iff in Hnum, Hbool.
  assert (Csv.is_na s = false) as Hna.
  { pose proof (Htext (VStr s) (proj1 (list_elem_of_In _ _) Hw)) as H. simpl in H.
    apply andb_true_iff in H as [_ H]. by apply negb_true_iff. }
  assert (forallb (λ v, Csv.is_int64_field (Csv.field_of show_float v)) c = false)
    as ->.
  { apply (forallb_false_elem _ _ (VStr s)); [done|]. simpl.
    unfold Csv.is_int64_field. unfold Csv.is_number in Hnum.
    apply orb_false_iff in Hnum as [Hnum _]. apply bool_decide_eq_false in Hnum.
    destruct (Csv.csv_int s); [|done]. destruct Hnum; eauto. }
  assert (forallb (λ v, Csv.is_na (Csv.field_of show_float v)
                        || Csv.is_number csv_float (Csv.field_of show_float v)) c
          = false) as ->.
  { apply (forallb_false_elem _ _ (VStr s)); [done|]. simpl. by rewrite Hna, Hnum. }
  assert (forallb (λ v, Csv.is_na (Csv.field_of show_float v)
                        || Csv.is_bool (Csv.field_of show_float v)) c = false)
    as ->.
  { apply (forallb_false_elem _ _ (VStr s)); [done|]. simpl. by rewrite Hna, Hbool. }
  split; [done|]. apply Forall_forall. intros v Hv%list_elem_of_In.
  specialize (Htext v Hv). destruct v as [t| | |]; try done. simpl in *.
  apply andb_true_iff in Htext as [Hl Ht]. apply negb_true_iff in Ht.
  by rewrite Ht.
Qed.

Lemma nth_row_fields w (r : Row) j :
  (j < w)%nat →
  nth j (Csv.field_of show_float <$> Csv.row_cells w r) ""
  = Csv.field_of show_float (Pd.cell_at j r).
Proof.
  intros Hj. apply nth_lookup_Some. unfold Csv.row_cells.
  rewrite !list_lookup_fmap.
  assert (seq 0 w !! j = Some j) as -> by by apply lookup_seq.
  done.
Qed.

Lemma zip_with_diag {A B C D} (f : B → C → D) (g : A → B) (h : A → C) (l : list A) :
  zip_with f (g <$> l) (h <$> l) = (λ x, f (g x) (h x)) <$> l.
Proof. induction l as [|x l IH]; csimpl; [done|]. by rewrite IH. Qed.


End RoundTrip.


